(** * Disha AI health coach: context assembly and turn orchestration

    A shallow embedding of the conversation pipeline of the repository
    (llm_service.py, services.py, main.py, with the tables of models.py)
    and the properties of the specification that are settled on it.

    Conventions of the embedding.
    - Python [int] is [Z]; [str] is [string], holding the UTF-8 bytes of
      the text: [len] and slicing count code points, and [lower] acts on
      ASCII letters; [Optional[T]] is [option T]; a raised exception is
      the [Raise] case of [result].
    - A SQLAlchemy table is the list of its rows in insertion order; the
      session is the record [DB], threaded through every operation.  The
      object returned by [.first()] is the first row that passes the
      filter, so assigning its attributes and committing rewrites that
      row in place.
    - [datetime.utcnow()] and the server-side [func.now()] are the
      parameter [now] of the operation that reads the clock.
    - What lives outside the repository (the tiktoken encoder, the provider
      HTTP calls, [json.loads], [random.choice], IEEE doubles) is a field of
      the record [World]; theorems quantify over every world. *)

From Stdlib Require Import ZArith String Ascii Lia DecimalString.
From stdpp Require Import base list strings gmap sorting.

Local Open Scope Z_scope.

(** ** Exceptions and results *)

Inductive exn : Type :=
| ZeroDivisionError
| AttributeError
| ProviderError (detail : string)
| HTTPException (status_code : Z) (detail : string).

Inductive result (A : Type) : Type :=
| Ok (a : A)
| Raise (e : exn).
Arguments Ok {A} a.
Arguments Raise {A} e.

(** [str(e)], as interpolated into an error detail. *)
Definition exn_str (e : exn) : string :=
  match e with
  | ZeroDivisionError => "division by zero"
  | AttributeError => "'NoneType' object has no attribute 'messages'"
  | ProviderError d => d
  | HTTPException _ d => d
  end.

(** ** Python and SQL operations used by the services *)

Module Py.

(** The newline character. *)
Definition nl : string := String (ascii_of_nat 10) EmptyString.

(** [c.lower()] on the ASCII range. *)
Definition lower_ascii (c : ascii) : ascii :=
  let n := nat_of_ascii c in
  if (65 <=? n)%nat && (n <=? 90)%nat then ascii_of_nat (n + 32) else c.

(** [s.lower()]. *)
Fixpoint lower (s : string) : string :=
  match s with
  | EmptyString => EmptyString
  | String c t => String (lower_ascii c) (lower t)
  end.

(** [hay.startswith(needle)]. *)
Fixpoint startswith (needle hay : string) : bool :=
  match needle, hay with
  | EmptyString, _ => true
  | String _ _, EmptyString => false
  | String a n', String b h' => if Ascii.eqb a b then startswith n' h' else false
  end.

(** [needle in hay] on strings: substring test. *)
Fixpoint contains (needle hay : string) : bool :=
  startswith needle hay ||
  match hay with
  | EmptyString => false
  | String _ h' => contains needle h'
  end.

(** Whether a byte continues a code point of UTF-8 text (bits 10xxxxxx). *)
Definition is_continuation (c : ascii) : bool :=
  let n := nat_of_ascii c in (128 <=? n)%nat && (n <=? 191)%nat.

(** [len(s)] on a [str]: the number of code points, that is, of bytes that
    begin one. *)
Fixpoint len (s : string) : nat :=
  match s with
  | EmptyString => O
  | String c t => if is_continuation c then len t else S (len t)
  end.

(** The first [n] characters of [s]: the bytes up to the one that begins
    character [n + 1]. *)
Fixpoint take_chars (n : nat) (s : string) : string :=
  match s with
  | EmptyString => EmptyString
  | String c t =>
      if is_continuation c then String c (take_chars n t)
      else
        match n with
        | O => EmptyString
        | S n' => String c (take_chars n' t)
        end
  end.

(** [s[:k]] on a string: a negative [k] counts from the end, clamped at 0. *)
Definition slice_to (s : string) (k : Z) : string :=
  if 0 <=? k then take_chars (Z.to_nat k) s
  else take_chars (Z.to_nat (Z.of_nat (len s) + k)) s.

(** [xs[:k]] on a list. *)
Definition list_slice_to {A : Type} (xs : list A) (k : Z) : list A :=
  if 0 <=? k then take (Z.to_nat k) xs
  else take (Z.to_nat (Z.of_nat (length xs) + k)) xs.

(** [sep.join(parts)]. *)
Fixpoint join (sep : string) (parts : list string) : string :=
  match parts with
  | [] => EmptyString
  | [p] => p
  | p :: rest => p +:+ sep +:+ join sep rest
  end.

(** [str(n)] for an [int]. *)
Definition str_of_int (n : Z) : string := NilZero.string_of_int (Z.to_int n).

(** [s * n]. *)
Fixpoint repeat_str (s : string) (n : nat) : string :=
  match n with
  | O => EmptyString
  | S n' => s +:+ repeat_str s n'
  end.

(** [any(p(x) for x in xs)]. *)
Definition any {A : Type} (p : A -> bool) (xs : list A) : bool := existsb p xs.

End Py.

Module Sql.

(** [LIMIT n] as SQLite, the configured database, reads it: a negative
    [n] puts no bound on the rows. *)
Definition limit {A : Type} (n : Z) (rows : list A) : list A :=
  if n <? 0 then rows else take (Z.to_nat n) rows.

(** The order of [desc(key)]: [a] comes no later than [b]. *)
Definition desc_by {A : Type} (key : A -> Z) : relation A :=
  fun a b => key b <= key a.

#[global] Instance desc_by_dec {A : Type} (key : A -> Z) (a b : A) :
  Decision (desc_by key a b) := decide (key b <= key a).

(** [ORDER BY desc(key)]: rows sorted by [key], largest first.  SQL
    leaves the order of rows with equal keys open; here they keep their
    table order. *)
Definition order_by_desc {A : Type} (key : A -> Z) (rows : list A) : list A :=
  merge_sort (desc_by key) rows.

(** The primary key of a new row: one more than the largest in use. *)
Definition next_id (ids : list Z) : Z := 1 + foldr Z.max 0 ids.

(** [.first()] of a filtered query. *)
Definition first {A : Type} (p : A -> bool) (rows : list A) : option A := List.find p rows.

(** Rewrites the row that [.first()] returned. *)
Fixpoint update_first {A : Type} (p : A -> bool) (f : A -> A) (rows : list A) : list A :=
  match rows with
  | [] => []
  | r :: rest => if p r then f r :: rest else r :: update_first p f rest
  end.

End Sql.

(** ** config.py and the collaborators outside the repository *)

Inductive Provider : Type := OpenAI | Anthropic | Demo.

(** [Settings]: the provider tag is one of the three strings that
    [LLMService.__init__] accepts; any other raises at import time. *)
Record Settings : Type := {
  LLM_PROVIDER : Provider;
  MAX_CONTEXT_TOKENS : Z;
  MAX_RESPONSE_TOKENS : Z
}.

Definition default_settings : Settings :=
  {| LLM_PROVIDER := OpenAI; MAX_CONTEXT_TOKENS := 8000; MAX_RESPONSE_TOKENS := 1000 |}.

(** A chat message as passed to the provider: [{"role": .., "content": ..}]. *)
Record LLMMessage : Type := {
  role : string;
  content : string
}.

(** One element of the list parsed from the extraction reply: a JSON object
    read with [.get] (an absent key is [None]), or a value without [.get]. *)
Inductive ExtractedItem : Type :=
| NotADict
| MemDict (category key value : option string) (importance : option Z).

Record World : Type := {
  (** [len(tokenizer.encode(text))], [None] when [encode] raises. *)
  encode_len : string -> option nat;
  (** [int(max_content_tokens * (length / content_tokens))] on doubles,
      as a function of [length], [content_tokens], [max_content_tokens]. *)
  scale_chars : Z -> Z -> Z -> Z;
  (** The provider call of [generate_response]: system prompt and messages
      to the reply text and the tokens the provider reports. *)
  chat_api : string -> list LLMMessage -> result (string * Z);
  (** The provider call of [extract_memories] on the extraction prompt. *)
  extract_api : string -> result string;
  (** [json.loads] of the reply when it is a list, [None] otherwise. *)
  json_loads_list : string -> option (list ExtractedItem);
  (** The index drawn by [random.choice] over the canned replies. *)
  random_index : nat
}.

(** The scaling of [scale_chars] over the rationals, truncated toward zero. *)
Definition scale_chars_exact (len content_tokens max_content_tokens : Z) : Z :=
  Z.quot (max_content_tokens * len) content_tokens.

(** ** models.py *)

(** A value stored in a JSON metadata dictionary. *)
Inductive MetaValue : Type :=
| MStr (s : string)
| MInt (n : Z)
| MBool (b : bool)
| MNames (names : list string).

Module User.
Record t : Type := {
  id : Z;
  username : string;
  full_name : option string;
  age : option Z;
  gender : option string;
  weight : option Z;
  height : option Z;
  medical_conditions : option (list string);
  medications : option (list string);
  allergies : option (list string);
  onboarding_completed : bool
}.
End User.

Module Message.
Record t : Type := {
  id : Z;
  user_id : Z;
  role : string;
  content : string;
  created_at : Z;
  token_count : Z;
  message_metadata : gmap string MetaValue
}.
End Message.

Module Memory.
Record t : Type := {
  id : Z;
  user_id : Z;
  category : string;
  key : string;
  value : string;
  importance : Z;
  last_accessed_at : Z;
  created_at : Z
}.
End Memory.

Module Protocol.
Record t : Type := {
  id : Z;
  name : string;
  category : string;
  keywords : list string;
  trigger_phrases : option (list string);
  description : option string;
  response_template : string;
  priority : Z;
  is_active : bool
}.
End Protocol.

Module TypingIndicator.
Record t : Type := {
  id : Z;
  user_id : Z;
  is_typing : bool;
  updated_at : Z
}.
End TypingIndicator.

(** The committed state of the database session. *)
Record DB : Type := {
  messages : list Message.t;
  memories : list Memory.t;
  protocols : list Protocol.t;
  typing_indicators : list TypingIndicator.t
}.

Definition set_messages (db : DB) (rows : list Message.t) : DB :=
  {| messages := rows; memories := memories db;
     protocols := protocols db; typing_indicators := typing_indicators db |}.

Definition set_memories (db : DB) (rows : list Memory.t) : DB :=
  {| messages := messages db; memories := rows;
     protocols := protocols db; typing_indicators := typing_indicators db |}.

Definition set_protocols (db : DB) (rows : list Protocol.t) : DB :=
  {| messages := messages db; memories := memories db;
     protocols := rows; typing_indicators := typing_indicators db |}.

Definition set_typing_indicators (db : DB) (rows : list TypingIndicator.t) : DB :=
  {| messages := messages db; memories := memories db;
     protocols := protocols db; typing_indicators := rows |}.

(** ** llm_service.py *)

Module LLMService.

Section Service.
Variable W : World.
Variable settings : Settings.

(** [count_tokens]: the encoder's count, or [len(text) // 4] when the
    encoder raises. *)
Definition count_tokens (text : string) : Z :=
  match encode_len W text with
  | Some n => Z.of_nat n
  | None => Z.of_nat (Py.len text) / 4
  end.

(** [available_tokens] of [truncate_context]. *)
Definition available_tokens (system_prompt : string) (max_tokens : option Z) : Z :=
  default (MAX_CONTEXT_TOKENS settings) max_tokens
  - count_tokens system_prompt - MAX_RESPONSE_TOKENS settings.

(** The loop over [reversed(messages)]: [truncated.insert(0, message)]
    while the running count stays within [available], [break] at the
    first message that does not fit. *)
Fixpoint walk (available : Z) (newest_first truncated : list LLMMessage)
         (current_tokens : Z) : list LLMMessage :=
  match newest_first with
  | [] => truncated
  | message :: older =>
      let msg_tokens := count_tokens (content message) in
      if current_tokens + msg_tokens <=? available
      then walk available older (message :: truncated) (current_tokens + msg_tokens)
      else truncated
  end.

(** The degraded branch, on the copy of [messages[-1]]. *)
Definition truncate_last (available : Z) (last_msg : LLMMessage) : result LLMMessage :=
  let max_content_tokens := available - 100 in
  let content_tokens := count_tokens (content last_msg) in
  if max_content_tokens <? content_tokens then
    if content_tokens =? 0 then Raise ZeroDivisionError
    else
      let max_chars :=
        scale_chars W (Z.of_nat (Py.len (content last_msg)))
                    content_tokens max_content_tokens in
      Ok {| role := role last_msg;
            content := Py.slice_to (content last_msg) max_chars +:+ "..." |}
  else Ok last_msg.

Definition truncate_context (messages : list LLMMessage) (system_prompt : string)
           (max_tokens : option Z) : result (list LLMMessage) :=
  let available := available_tokens system_prompt max_tokens in
  let truncated := walk available (rev messages) [] 0 in
  match truncated, last messages with
  | [], Some last_msg =>
      match truncate_last available last_msg with
      | Ok m => Ok [m]
      | Raise e => Raise e
      end
  | _, _ => Ok truncated
  end.

(** Token count of a message sequence. *)
Definition total_tokens (msgs : list LLMMessage) : Z :=
  foldr (fun m acc => count_tokens (content m) + acc) 0 msgs.

(** The user profile dictionary built by [UserService.get_user_profile]. *)
Record UserProfile : Type := {
  pf_full_name : option string;
  pf_age : option Z;
  pf_gender : option string;
  pf_weight : option Z;
  pf_height : option Z;
  pf_medical_conditions : list string;
  pf_medications : list string;
  pf_allergies : list string
}.

(** The dictionary of a memory returned by [get_relevant_memories]. *)
Record MemoryDict : Type := {
  md_category : string;
  md_key : string;
  md_value : string;
  md_importance : Z
}.

(** The dictionary of a protocol returned by [match_protocols]. *)
Record ProtocolDict : Type := {
  pd_name : string;
  pd_category : string;
  pd_response_template : string;
  pd_priority : Z
}.

(** Truthiness of an optional string, integer and list. *)
Definition truthy_str (o : option string) : option string :=
  match o with
  | Some s => if String.eqb s "" then None else Some s
  | None => None
  end.

Definition truthy_int (o : option Z) : option Z :=
  match o with
  | Some n => if n =? 0 then None else Some n
  | None => None
  end.

Definition onboarding_prompt : string :=
  "You are Disha, India's first AI health coach. You're having your first conversation with a new user.

Your goal is to:
1. Welcome them warmly and introduce yourself naturally (don't sound robotic)
2. Understand their health goals and current situation
3. Gather basic information: age, any medical conditions, current medications, allergies
4. Ask about their lifestyle: sleep, exercise, diet, stress levels
5. Be empathetic and conversational - you're building a relationship, not conducting an interrogation

Important:
- Ask ONE question at a time, keep it conversational
- Show genuine interest in their responses
- Be supportive and non-judgmental
- Remember everything they tell you for future conversations
- Sound like a caring friend, not a clinical chatbot
- Use simple language, avoid medical jargon unless necessary

Keep your responses concise and natural. Think WhatsApp chat, not medical consultation.".

Definition persona_parts : list string :=
  [ "You are Disha, India's first AI health coach. You communicate like a caring friend on WhatsApp.";
    Py.nl +:+ "Your personality:";
    "- Warm, empathetic, and supportive";
    "- Use simple language, avoid medical jargon";
    "- Keep responses concise (2-3 sentences usually)";
    "- Be conversational, not robotic or clinical";
    "- Show you remember past conversations";
    "- Ask follow-up questions when appropriate" ].

(** One optional line of the profile block. *)
Definition opt_line {A : Type} (label : string) (show : A -> string) (o : option A) : list string :=
  match o with
  | Some x => [label +:+ show x]
  | None => []
  end.

Definition list_line (label : string) (items : list string) : list string :=
  match items with
  | [] => []
  | _ => [label +:+ Py.join ", " items]
  end.

Definition profile_parts (user_profile : UserProfile) : list string :=
  [Py.nl +:+ Py.nl +:+ "User Profile:"]
  ++ opt_line "- Name: " (fun s => s) (truthy_str (pf_full_name user_profile))
  ++ opt_line "- Age: " Py.str_of_int (truthy_int (pf_age user_profile))
  ++ opt_line "- Gender: " (fun s => s) (truthy_str (pf_gender user_profile))
  ++ list_line "- Medical Conditions: " (pf_medical_conditions user_profile)
  ++ list_line "- Medications: " (pf_medications user_profile)
  ++ list_line "- Allergies: " (pf_allergies user_profile).

Definition memory_parts (memories : list MemoryDict) : list string :=
  match memories with
  | [] => []
  | _ =>
      (Py.nl +:+ Py.nl +:+ "Relevant Context from Past Conversations:")
      :: map (fun memory => "- " +:+ md_key memory +:+ ": " +:+ md_value memory)
             (Py.list_slice_to memories 5)
  end.

Definition protocol_parts (protocols : list ProtocolDict) : list string :=
  match protocols with
  | [] => []
  | _ =>
      (Py.nl +:+ Py.nl +:+ "Relevant Medical Protocols:")
      :: concat (map (fun protocol =>
                        [Py.nl +:+ pd_name protocol +:+ ":"; pd_response_template protocol])
                     (Py.list_slice_to protocols 3))
  end.

Definition guideline_parts : list string :=
  [ Py.nl +:+ Py.nl +:+ "Important Guidelines:";
    "- For medical emergencies, always advise immediate medical attention";
    "- You're a health coach, not a doctor - don't diagnose or prescribe";
    "- Use the protocols above when relevant";
    "- Be encouraging about healthy habits";
    "- Keep responses short and WhatsApp-friendly" ].

(** [create_system_prompt]; the profile dictionary always has its eight
    keys, so [if user_profile:] holds. *)
Definition create_system_prompt (user_profile : UserProfile) (memories : list MemoryDict)
           (protocols : list ProtocolDict) (is_onboarding : bool) : string :=
  if is_onboarding then onboarding_prompt
  else Py.join Py.nl (persona_parts ++ profile_parts user_profile ++ memory_parts memories
                      ++ protocol_parts protocols ++ guideline_parts).

Definition provider_name (p : Provider) : string :=
  match p with OpenAI => "openai" | Anthropic => "anthropic" | Demo => "demo" end.

Definition model_name (p : Provider) : string :=
  match p with
  | OpenAI => "gpt-4o-mini"
  | Anthropic => "claude-3-5-sonnet-20241022"
  | Demo => "demo-mock"
  end.

Definition demo_fallback_replies : list string :=
  [ "I understand. Can you tell me more about what you're experiencing?";
    "Thanks for sharing that with me. How long has this been going on?";
    "I see. Are there any other symptoms you're noticing?";
    "Got it. On a scale of 1-10, how would you rate your discomfort?";
    "That's helpful to know. Have you experienced anything like this before?" ].

Definition mentions (words : list string) (text : string) : bool :=
  Py.any (fun word => Py.contains word text) words.

(** The reply text of [_generate_demo_response]. *)
Definition demo_reply (messages : list LLMMessage) : string :=
  match last messages with
  | None => "Hi! I'm Disha, your AI health coach. ðŸ‘‹ How can I help you today?"
  | Some m =>
      let last_message := Py.lower (content m) in
      if mentions ["fever"; "temperature"; "hot"] last_message then
        "I'm sorry to hear you have a fever. For fever management:" +:+ Py.nl +:+ Py.nl
        +:+ "- If temp > 103Â°F or lasts > 3 days, see a doctor" +:+ Py.nl
        +:+ "- Stay hydrated and rest" +:+ Py.nl
        +:+ "- You can take paracetamol as directed" +:+ Py.nl
        +:+ "- Monitor your temperature regularly" +:+ Py.nl +:+ Py.nl
        +:+ "How long have you had this fever?"
      else if mentions ["headache"; "head pain"; "migraine"] last_message then
        "Headaches can be tough! Here's what might help:" +:+ Py.nl +:+ Py.nl
        +:+ "- Rest in a quiet, dark room" +:+ Py.nl
        +:+ "- Stay hydrated - drink plenty of water" +:+ Py.nl
        +:+ "- Apply a cold compress to your forehead" +:+ Py.nl
        +:+ "- Avoid screens and bright lights" +:+ Py.nl +:+ Py.nl
        +:+ "If it persists or gets worse, please see a doctor. Is there anything else bothering you?"
      else if mentions ["stomach"; "tummy"; "abdomen"] last_message then
        "For stomach discomfort, I'd recommend:" +:+ Py.nl +:+ Py.nl
        +:+ "- Eat light, bland foods like rice and bananas" +:+ Py.nl
        +:+ "- Stay hydrated with water or ORS" +:+ Py.nl
        +:+ "- Avoid spicy and oily foods" +:+ Py.nl
        +:+ "- Rest for a bit" +:+ Py.nl +:+ Py.nl
        +:+ "If pain is severe or persists, please consult a doctor. When did this start?"
      else if mentions ["hi"; "hello"; "hey"] last_message then
        "Hello! ðŸ‘‹ I'm Disha, your AI health coach. I'm here to help you with health questions and wellness guidance. How are you feeling today?"
      else if mentions ["thank"; "thanks"] last_message then
        "You're welcome! I'm always here to help. Is there anything else you'd like to know about your health?"
      else if Py.contains "?" last_message then
        "That's a great question! While I'm running in demo mode right now, in the full version I'd provide personalized health guidance based on your profile and history. Would you like to tell me more about what's concerning you?"
      else
        List.nth (random_index W mod length demo_fallback_replies)%nat demo_fallback_replies ""
  end.

Definition generate_demo_response (messages : list LLMMessage)
           (metadata : gmap string MetaValue) : string * gmap string MetaValue :=
  let response := demo_reply messages in
  (response,
   <["demo_mode" := MBool true]>
     (<["tokens_used" := MInt (Z.of_nat (Py.len response) / 4)]> metadata)).

(** [generate_response]: the [except] clause logs and re-raises. *)
Definition generate_response (messages : list LLMMessage) (system_prompt : string)
  : result (string * gmap string MetaValue) :=
  match truncate_context messages system_prompt None with
  | Raise e => Raise e
  | Ok truncated_messages =>
      let metadata : gmap string MetaValue :=
        <["total_messages" := MInt (Z.of_nat (length messages))]>
          (<["messages_used" := MInt (Z.of_nat (length truncated_messages))]>
             (<["model" := MStr (model_name (LLM_PROVIDER settings))]>
                (<["provider" := MStr (provider_name (LLM_PROVIDER settings))]> ∅))) in
      match LLM_PROVIDER settings with
      | Demo => Ok (generate_demo_response truncated_messages metadata)
      | OpenAI | Anthropic =>
          match chat_api W system_prompt truncated_messages with
          | Raise e => Raise e
          | Ok (reply, tokens_used) => Ok (reply, <["tokens_used" := MInt tokens_used]> metadata)
          end
      end
  end.

Definition extraction_prompt (conversation : string) : string :=
  "Analyze this conversation and extract key information that should be remembered about the user." +:+ Py.nl
  +:+ "Return a JSON list of memories in this format:" +:+ Py.nl
  +:+ "[{" +:+ String (ascii_of_nat 34) "category" +:+ String (ascii_of_nat 34) ": "
  +:+ String (ascii_of_nat 34) "health_goal" +:+ String (ascii_of_nat 34) ", "
  +:+ String (ascii_of_nat 34) "key" +:+ String (ascii_of_nat 34) ": "
  +:+ String (ascii_of_nat 34) "primary_goal" +:+ String (ascii_of_nat 34) ", "
  +:+ String (ascii_of_nat 34) "value" +:+ String (ascii_of_nat 34) ": "
  +:+ String (ascii_of_nat 34) "description" +:+ String (ascii_of_nat 34) ", "
  +:+ String (ascii_of_nat 34) "importance" +:+ String (ascii_of_nat 34) ": 1-5}]" +:+ Py.nl +:+ Py.nl
  +:+ "Categories: health_goal, preference, medical_history, lifestyle, concern" +:+ Py.nl +:+ Py.nl
  +:+ "Conversation:" +:+ Py.nl
  +:+ conversation +:+ Py.nl +:+ Py.nl
  +:+ "Extract only factual, important information. Return empty list if nothing significant.".

(** [extract_memories]: every exception ends in the empty list.  In demo
    mode [self.client] is [None], so the call raises [AttributeError]. *)
Definition extract_memories (conversation : string) : list ExtractedItem :=
  let prompt := extraction_prompt conversation in
  let reply :=
    match LLM_PROVIDER settings with
    | OpenAI | Anthropic => extract_api W prompt
    | Demo => Raise AttributeError
    end in
  match reply with
  | Raise _ => []
  | Ok text => default [] (json_loads_list W text)
  end.

End Service.

End LLMService.

(** ** services.py *)

Module UserService.

(** [get_user_profile]: [x or []] turns an absent list into the empty one. *)
Definition get_user_profile (user : User.t) : LLMService.UserProfile :=
  {| LLMService.pf_full_name := User.full_name user;
     LLMService.pf_age := User.age user;
     LLMService.pf_gender := User.gender user;
     LLMService.pf_weight := User.weight user;
     LLMService.pf_height := User.height user;
     LLMService.pf_medical_conditions := default [] (User.medical_conditions user);
     LLMService.pf_medications := default [] (User.medications user);
     LLMService.pf_allergies := default [] (User.allergies user) |}.

(** [OnboardingData] of schemas.py. *)
Record OnboardingData : Type := {
  od_age : option Z;
  od_gender : option string;
  od_weight : option Z;
  od_height : option Z;
  od_medical_conditions : option (list string);
  od_medications : option (list string);
  od_allergies : option (list string)
}.

(** [User(username=username)] once stored: the columns without a default
    are [None], [onboarding_completed] is false. *)
Definition new_user (id : Z) (username : string) : User.t :=
  {| User.id := id; User.username := username; User.full_name := None;
     User.age := None; User.gender := None; User.weight := None; User.height := None;
     User.medical_conditions := None; User.medications := None; User.allergies := None;
     User.onboarding_completed := false |}.

(** [get_or_create_user] on the users table. *)
Definition get_or_create_user (users : list User.t) (username : string)
  : list User.t * User.t :=
  match Sql.first (fun u => String.eqb (User.username u) username) users with
  | Some user => (users, user)
  | None =>
      let user := new_user (Sql.next_id (map User.id users)) username in
      (users ++ [user], user)
  end.

(** The assignments of [update_user_profile]; [x or []] stores a list. *)
Definition with_profile (data : OnboardingData) (user : User.t) : User.t :=
  {| User.id := User.id user;
     User.username := User.username user;
     User.full_name := User.full_name user;
     User.age := od_age data;
     User.gender := od_gender data;
     User.weight := od_weight data;
     User.height := od_height data;
     User.medical_conditions := Some (default [] (od_medical_conditions data));
     User.medications := Some (default [] (od_medications data));
     User.allergies := Some (default [] (od_allergies data));
     User.onboarding_completed := true |}.

(** [update_user_profile]: [None] stands for [ValueError("User not found")]. *)
Definition update_user_profile (users : list User.t) (user_id : Z) (data : OnboardingData)
  : option (list User.t * User.t) :=
  match Sql.first (fun u => User.id u =? user_id) users with
  | None => None
  | Some user =>
      Some (Sql.update_first (fun u => User.id u =? user_id) (with_profile data) users,
            with_profile data user)
  end.

End UserService.

(** [MessageResponse] of schemas.py and its [model_validate]. *)
Record MessageResponse : Type := {
  mr_id : Z;
  mr_user_id : Z;
  mr_role : string;
  mr_content : string;
  mr_created_at : Z;
  mr_message_metadata : gmap string MetaValue
}.

Definition model_validate (msg : Message.t) : MessageResponse :=
  {| mr_id := Message.id msg;
     mr_user_id := Message.user_id msg;
     mr_role := Message.role msg;
     mr_content := Message.content msg;
     mr_created_at := Message.created_at msg;
     mr_message_metadata := Message.message_metadata msg |}.

Record MessageListResponse : Type := {
  mlr_messages : list MessageResponse;
  mlr_total : Z;
  mlr_has_more : bool;
  mlr_next_cursor : option Z
}.

Module MessageService.

Section Service.
Variable W : World.
Variable settings : Settings.

(** [create_message]: a zero [token_count] is replaced by the count of the
    content; [message_metadata or {}]. *)
Definition create_message (db : DB) (now : Z) (user_id : Z) (role content : string)
           (token_count : Z) (message_metadata : option (gmap string MetaValue))
  : DB * Message.t :=
  let token_count :=
    if token_count =? 0 then LLMService.count_tokens W content else token_count in
  let message :=
    {| Message.id := Sql.next_id (map Message.id (messages db));
       Message.user_id := user_id;
       Message.role := role;
       Message.content := content;
       Message.created_at := now;
       Message.token_count := token_count;
       Message.message_metadata := default ∅ message_metadata |} in
  (set_messages db (messages db ++ [message]), message).

(** The filtered query of [get_messages]: [if before_id:] is false for
    [None] and for [0]. *)
Definition page_query (db : DB) (user_id : Z) (before_id : option Z) : list Message.t :=
  let query := List.filter (fun m => Message.user_id m =? user_id) (messages db) in
  match before_id with
  | Some b => if b =? 0 then query else List.filter (fun m => Message.id m <? b) query
  | None => query
  end.

Definition get_messages (db : DB) (user_id : Z) (limit : Z) (before_id : option Z)
  : MessageListResponse :=
  let query := page_query db user_id before_id in
  let fetched := Sql.limit (limit + 1) (Sql.order_by_desc Message.created_at query) in
  let has_more := limit <? Z.of_nat (length fetched) in
  let messages_ := if has_more then Py.list_slice_to fetched limit else fetched in
  let total :=
    Z.of_nat (length (List.filter (fun m => Message.user_id m =? user_id) (messages db))) in
  let next_cursor :=
    match last messages_ with
    | Some oldest => if has_more then Some (Message.id oldest) else None
    | None => None
    end in
  {| mlr_messages := map model_validate messages_;
     mlr_total := total;
     mlr_has_more := has_more;
     mlr_next_cursor := next_cursor |}.

Definition get_recent_messages (db : DB) (user_id : Z) (limit : Z) : list LLMMessage :=
  let rows :=
    Sql.limit limit
      (Sql.order_by_desc Message.created_at
         (List.filter (fun m => Message.user_id m =? user_id) (messages db))) in
  map (fun msg => {| role := Message.role msg; content := Message.content msg |}) (rev rows).

End Service.

End MessageService.

Module MemoryService.

(** The filter of [create_memory]: same user, category and key. *)
Definition same_key (user_id : Z) (category key : string) (m : Memory.t) : bool :=
  (Memory.user_id m =? user_id)
  && String.eqb (Memory.category m) category
  && String.eqb (Memory.key m) key.

(** The assignments to [existing]. *)
Definition overwrite (value : string) (importance now : Z) (m : Memory.t) : Memory.t :=
  {| Memory.id := Memory.id m;
     Memory.user_id := Memory.user_id m;
     Memory.category := Memory.category m;
     Memory.key := Memory.key m;
     Memory.value := value;
     Memory.importance := importance;
     Memory.last_accessed_at := now;
     Memory.created_at := Memory.created_at m |}.

Definition create_memory (db : DB) (now : Z) (user_id : Z) (category key value : string)
           (importance : Z) : DB * Memory.t :=
  match Sql.first (same_key user_id category key) (memories db) with
  | Some existing =>
      (set_memories db
         (Sql.update_first (same_key user_id category key)
                           (overwrite value importance now) (memories db)),
       overwrite value importance now existing)
  | None =>
      let memory :=
        {| Memory.id := Sql.next_id (map Memory.id (memories db));
           Memory.user_id := user_id;
           Memory.category := category;
           Memory.key := key;
           Memory.value := value;
           Memory.importance := importance;
           Memory.last_accessed_at := now;
           Memory.created_at := now |} in
      (set_memories db (memories db ++ [memory]), memory)
  end.

(** The order of [desc(importance), desc(last_accessed_at)]. *)
Definition ranks_before : relation Memory.t :=
  fun a b =>
    Memory.importance b < Memory.importance a
    \/ (Memory.importance a = Memory.importance b
        /\ Memory.last_accessed_at b <= Memory.last_accessed_at a).

#[global] Instance ranks_before_dec (a b : Memory.t) : Decision (ranks_before a b) :=
  or_dec (decide (Memory.importance b < Memory.importance a))
         (and_dec (decide (Memory.importance a = Memory.importance b))
                  (decide (Memory.last_accessed_at b <= Memory.last_accessed_at a))).

(** The assignment [memory.last_accessed_at = datetime.utcnow()]. *)
Definition touch (now : Z) (m : Memory.t) : Memory.t :=
  {| Memory.id := Memory.id m;
     Memory.user_id := Memory.user_id m;
     Memory.category := Memory.category m;
     Memory.key := Memory.key m;
     Memory.value := Memory.value m;
     Memory.importance := Memory.importance m;
     Memory.last_accessed_at := now;
     Memory.created_at := Memory.created_at m |}.

Definition to_dict (m : Memory.t) : LLMService.MemoryDict :=
  {| LLMService.md_category := Memory.category m;
     LLMService.md_key := Memory.key m;
     LLMService.md_value := Memory.value m;
     LLMService.md_importance := Memory.importance m |}.

(** The rows selected by the query of [get_relevant_memories]. *)
Definition relevant_rows (db : DB) (user_id : Z) (limit : Z) : list Memory.t :=
  Sql.limit limit
    (merge_sort ranks_before
       (List.filter (fun m => Memory.user_id m =? user_id) (memories db))).

(** [get_relevant_memories]: the selected rows are touched (the flush
    updates them by primary key) and returned as dictionaries. *)
Definition get_relevant_memories (db : DB) (now : Z) (user_id : Z) (limit : Z)
  : DB * list LLMService.MemoryDict :=
  let rows := relevant_rows db user_id limit in
  let ids := map Memory.id rows in
  (set_memories db
     (map (fun m => if bool_decide (Memory.id m ∈ ids) then touch now m else m)
          (memories db)),
   map to_dict rows).

(** The loop of [extract_and_store_memories]: an element without [.get]
    raises, which ends the loop inside the surrounding [try]. *)
Fixpoint store_memories (db : DB) (now : Z) (user_id : Z) (items : list ExtractedItem) : DB :=
  match items with
  | [] => db
  | NotADict :: _ => db
  | MemDict category key value importance :: rest =>
      let '(db', _) :=
        create_memory db now user_id
                      (default "general" category) (default "info" key)
                      (default "" value) (default 1 importance) in
      store_memories db' now user_id rest
  end.

Definition extract_and_store_memories (W : World) (settings : Settings)
           (db : DB) (now : Z) (user_id : Z) (conversation : string) : DB :=
  store_memories db now user_id (LLMService.extract_memories W settings conversation).

End MemoryService.

Module ProtocolService.

Definition keyword_hit (user_message_lower : string) (protocol : Protocol.t) : bool :=
  Py.any (fun keyword => Py.contains (Py.lower keyword) user_message_lower)
         (Protocol.keywords protocol).

Definition phrase_hit (user_message_lower : string) (protocol : Protocol.t) : bool :=
  Py.any (fun phrase => Py.contains (Py.lower phrase) user_message_lower)
         (default [] (Protocol.trigger_phrases protocol)).

(** The body of the loop: whether the protocol is appended to [matched]. *)
Definition matches (user_message_lower : string) (protocol : Protocol.t) : bool :=
  if keyword_hit user_message_lower protocol then
    match default [] (Protocol.trigger_phrases protocol) with
    | [] => true
    | _ :: _ => phrase_hit user_message_lower protocol
    end
  else false.

Definition summary (protocol : Protocol.t) : LLMService.ProtocolDict :=
  {| LLMService.pd_name := Protocol.name protocol;
     LLMService.pd_category := Protocol.category protocol;
     LLMService.pd_response_template := Protocol.response_template protocol;
     LLMService.pd_priority := Protocol.priority protocol |}.

(** The rows of [default_protocols]; the columns left out take their
    defaults, so [is_active] is true. *)
Definition seed_row (name category : string) (keywords trigger_phrases : list string)
           (description response_template : string) (priority : Z) : Protocol.t :=
  {| Protocol.id := 0;
     Protocol.name := name;
     Protocol.category := category;
     Protocol.keywords := keywords;
     Protocol.trigger_phrases := Some trigger_phrases;
     Protocol.description := Some description;
     Protocol.response_template := response_template;
     Protocol.priority := priority;
     Protocol.is_active := true |}.

Definition default_protocols : list Protocol.t :=
  [
    seed_row "Fever Management" "symptom"
      ["fever"; "temperature"; "hot"; "burning up"]
      ["have fever"; "running fever"]
      "Protocol for managing fever symptoms"
      "For fever management:
- If temp > 103°F (39.4°C) or fever lasts > 3 days, see a doctor immediately
- Stay hydrated, drink plenty of water
- Rest and avoid strenuous activity
- You can take paracetamol (per package instructions) if needed
- Monitor temperature regularly
- Seek immediate care if you have: severe headache, difficulty breathing, chest pain, or confusion"
      8;
    seed_row "Stomach Ache" "symptom"
      ["stomach"; "tummy"; "abdomen"; "belly"; "pain"; "ache"]
      ["stomach pain"; "stomach ache"; "tummy ache"]
      "Protocol for stomach pain"
      "For stomach discomfort:
- Eat light, bland foods (rice, banana, toast)
- Stay hydrated with water or ORS
- Avoid spicy, oily, or heavy foods
- Rest and don't eat for 2-3 hours if nauseous
- See a doctor if: severe pain, blood in stool, pain lasts > 2 days, or you have fever"
      7;
    seed_row "Headache" "symptom"
      ["headache"; "head pain"; "migraine"]
      ["have a headache"; "head is paining"]
      "Protocol for headaches"
      "For headache relief:
- Rest in a quiet, dark room
- Stay hydrated
- Apply cold/warm compress to forehead
- Can take paracetamol if needed
- Avoid screens and bright lights
- Seek immediate care if: sudden severe headache, with fever and stiff neck, after head injury, or with vision changes"
      6;
    seed_row "Emergency Symptoms" "emergency"
      ["chest pain"; "difficulty breathing"; "unconscious"; "bleeding"; "severe"]
      ["can't breathe"; "chest pain"; "severe bleeding"]
      "Emergency situation protocol"
      "⚠️ This sounds like a medical emergency. Please seek immediate medical attention:
- Call emergency services (102/108) or go to nearest hospital
- Do NOT wait or try home remedies
- If chest pain: sit down, stay calm, take aspirin if available (unless allergic)
- If breathing difficulty: sit upright, stay calm, loosen tight clothing
- Have someone stay with you"
      10;
    seed_row "Refund Policy" "policy"
      ["refund"; "money back"; "cancel"; "subscription"]
      ["want refund"; "cancel subscription"]
      "Refund and cancellation policy"
      "Our refund policy:
- You can cancel subscription anytime from settings
- Refunds available within 7 days of purchase
- Contact support@disha.health with your username
- Refunds processed within 5-7 business days
- For specific queries, I can connect you with our support team"
      5 ].

Definition with_id (id : Z) (p : Protocol.t) : Protocol.t :=
  {| Protocol.id := id;
     Protocol.name := Protocol.name p;
     Protocol.category := Protocol.category p;
     Protocol.keywords := Protocol.keywords p;
     Protocol.trigger_phrases := Protocol.trigger_phrases p;
     Protocol.description := Protocol.description p;
     Protocol.response_template := Protocol.response_template p;
     Protocol.priority := Protocol.priority p;
     Protocol.is_active := Protocol.is_active p |}.

(** [seed_default_protocols]: each default row is added unless a protocol
    of its name is stored. *)
Definition seed_default_protocols (db : DB) : DB :=
  fold_left
    (fun db protocol_data =>
       match Sql.first (fun p => String.eqb (Protocol.name p) (Protocol.name protocol_data))
                       (protocols db) with
       | Some _ => db
       | None =>
           set_protocols db
             (protocols db
              ++ [with_id (Sql.next_id (map Protocol.id (protocols db))) protocol_data])
       end)
    default_protocols db.

(** The query: active protocols by descending priority. *)
Definition active_by_priority (db : DB) : list Protocol.t :=
  Sql.order_by_desc Protocol.priority (List.filter Protocol.is_active (protocols db)).

Definition match_protocols (db : DB) (user_message : string)
           (user_profile : LLMService.UserProfile) : list LLMService.ProtocolDict :=
  let user_message_lower := Py.lower user_message in
  let matched :=
    map summary (List.filter (matches user_message_lower) (active_by_priority db)) in
  Py.list_slice_to matched 3.

End ProtocolService.

Module TypingService.

Definition update_typing_status (db : DB) (now : Z) (user_id : Z) (is_typing : bool) : DB :=
  let mine := fun i => TypingIndicator.user_id i =? user_id in
  match Sql.first mine (typing_indicators db) with
  | None =>
      set_typing_indicators db
        (typing_indicators db
         ++ [{| TypingIndicator.id := Sql.next_id (map TypingIndicator.id (typing_indicators db));
                TypingIndicator.user_id := user_id;
                TypingIndicator.is_typing := is_typing;
                TypingIndicator.updated_at := now |}])
  | Some _ =>
      set_typing_indicators db
        (Sql.update_first mine
           (fun i => {| TypingIndicator.id := TypingIndicator.id i;
                        TypingIndicator.user_id := TypingIndicator.user_id i;
                        TypingIndicator.is_typing := is_typing;
                        TypingIndicator.updated_at := now |})
           (typing_indicators db))
  end.

(** [get_typing_status]: [(is_typing, updated_at)]. *)
Definition get_typing_status (db : DB) (user_id : Z) : bool * option Z :=
  match Sql.first (fun i => TypingIndicator.user_id i =? user_id) (typing_indicators db) with
  | Some indicator =>
      (TypingIndicator.is_typing indicator, Some (TypingIndicator.updated_at indicator))
  | None => (false, None)
  end.

End TypingService.

Module ChatService.

Section Service.
Variable W : World.
Variable settings : Settings.

(** [process_message].  Every step commits, so the database reached when
    [generate_response] raises is the one left behind by the steps before
    it.  The default [limit=10] of [get_relevant_memories] applies.  The
    turn is given the one clock reading [now], where the program reads
    the clock at each write: the time stamps of the rows of one turn may
    differ there, and nothing is stated about them. *)
Definition process_message (db : DB) (now : Z) (user : User.t) (message_content : string)
  : DB * result (Message.t * Message.t) :=
  let '(db1, user_message) :=
    MessageService.create_message W db now (User.id user) "user" message_content 0 None in
  let is_onboarding := negb (User.onboarding_completed user) in
  let user_profile := UserService.get_user_profile user in
  let '(db2, memories_) := MemoryService.get_relevant_memories db1 now (User.id user) 10 in
  let protocols_ := ProtocolService.match_protocols db2 message_content user_profile in
  let system_prompt :=
    LLMService.create_system_prompt user_profile memories_ protocols_ is_onboarding in
  let message_history := MessageService.get_recent_messages db2 (User.id user) 20 in
  match LLMService.generate_response W settings message_history system_prompt with
  | Raise e => (db2, Raise e)
  | Ok (response_content, metadata) =>
      let metadata :=
        <["is_onboarding" := MBool is_onboarding]>
          (<["memories_used" := MInt (Z.of_nat (length memories_))]>
             (<["protocols_used" := MNames (map LLMService.pd_name protocols_)]> metadata)) in
      let '(db3, assistant_message) :=
        MessageService.create_message W db2 now (User.id user) "assistant"
                                      response_content 0 (Some metadata) in
      let db4 :=
        if (length message_history mod 5 =? 0)%nat then
          MemoryService.extract_and_store_memories W settings db3 now (User.id user)
            ("User: " +:+ message_content +:+ Py.nl +:+ "Assistant: " +:+ response_content)
        else db3 in
      (db4, Ok (user_message, assistant_message))
  end.

End Service.

End ChatService.

(** ** main.py *)

(** [ChatResponse] of schemas.py. *)
Record ChatResponse : Type := {
  cr_user_message : MessageResponse;
  cr_assistant_message : MessageResponse;
  cr_context_used : gmap string MetaValue
}.

(** [MemoryResponse] of schemas.py and its validation of a row. *)
Record MemoryResponse : Type := {
  mem_id : Z;
  mem_category : string;
  mem_key : string;
  mem_value : string;
  mem_importance : Z;
  mem_created_at : Z
}.

Definition memory_response (m : Memory.t) : MemoryResponse :=
  {| mem_id := Memory.id m;
     mem_category := Memory.category m;
     mem_key := Memory.key m;
     mem_value := Memory.value m;
     mem_importance := Memory.importance m;
     mem_created_at := Memory.created_at m |}.

(** [TypingStatus] of schemas.py. *)
Record TypingStatus : Type := {
  ts_is_typing : bool;
  ts_updated_at : Z
}.

Module Main.

Section Endpoints.
Variable W : World.
Variable settings : Settings.

(** [POST /api/chat]: the typing indicator is raised, the turn processed,
    and the indicator cleared on the normal path and in the handler. *)
Definition send_message (db : DB) (now : Z) (current_user : User.t) (message : string)
  : DB * result ChatResponse :=
  let db1 := TypingService.update_typing_status db now (User.id current_user) true in
  match ChatService.process_message W settings db1 now current_user message with
  | (db2, Ok (user_msg, assistant_msg)) =>
      let db3 := TypingService.update_typing_status db2 now (User.id current_user) false in
      let metadata := Message.message_metadata assistant_msg in
      (db3,
       Ok {| cr_user_message := model_validate user_msg;
             cr_assistant_message := model_validate assistant_msg;
             cr_context_used :=
               <["memories_count" := default (MInt 0) (metadata !! "memories_used")]>
                 (<["protocols" := default (MNames []) (metadata !! "protocols_used")]> ∅) |})
  | (db2, Raise e) =>
      let db3 := TypingService.update_typing_status db2 now (User.id current_user) false in
      (db3, Raise (HTTPException 500 ("Error processing message: " +:+ exn_str e)))
  end.

(** [GET /api/messages]: the limit is checked before the service runs. *)
Definition get_messages (db : DB) (current_user : User.t) (limit : Z) (before_id : option Z)
  : result MessageListResponse :=
  if (limit <? 1) || (100 <? limit)
  then Raise (HTTPException 400 "Limit must be between 1 and 100")
  else Ok (MessageService.get_messages db (User.id current_user) limit before_id).

(** [POST /api/memories]. *)
Definition create_memory (db : DB) (now : Z) (current_user : User.t)
           (category key value : string) (importance : Z) : DB * Memory.t :=
  MemoryService.create_memory db now (User.id current_user) category key value importance.

(** The dependency [get_current_user]. *)
Definition get_current_user (users : list User.t) (username : string)
  : list User.t * User.t :=
  UserService.get_or_create_user users username.

(** [POST /api/users]: a truthy [full_name] is stored on the user. *)
Definition create_user (users : list User.t) (username : string) (full_name : option string)
  : list User.t * User.t :=
  let '(users1, user) := UserService.get_or_create_user users username in
  match LLMService.truthy_str full_name with
  | Some name =>
      let named (u : User.t) : User.t :=
        {| User.id := User.id u; User.username := User.username u;
           User.full_name := Some name;
           User.age := User.age u; User.gender := User.gender u;
           User.weight := User.weight u; User.height := User.height u;
           User.medical_conditions := User.medical_conditions u;
           User.medications := User.medications u;
           User.allergies := User.allergies u;
           User.onboarding_completed := User.onboarding_completed u |} in
      (Sql.update_first (fun u => String.eqb (User.username u) username) named users1,
       named user)
  | None => (users1, user)
  end.

(** [PUT /api/users/me/onboarding]: any exception becomes HTTP 500, and
    the table is as it was. *)
Definition complete_onboarding (users : list User.t) (current_user : User.t)
           (onboarding_data : UserService.OnboardingData)
  : list User.t * result User.t :=
  match UserService.update_user_profile users (User.id current_user) onboarding_data with
  | Some (users', user) => (users', Ok user)
  | None => (users, Raise (HTTPException 500 "Error updating profile"))
  end.

(** [POST /api/typing]. *)
Definition update_typing (db : DB) (now : Z) (current_user : User.t) (is_typing : bool) : DB :=
  TypingService.update_typing_status db now (User.id current_user) is_typing.

(** [GET /api/typing]: [updated_at or datetime.utcnow()]. *)
Definition get_typing_status (db : DB) (now : Z) (current_user : User.t) : TypingStatus :=
  let status_data := TypingService.get_typing_status db (User.id current_user) in
  {| ts_is_typing := status_data.1; ts_updated_at := default now status_data.2 |}.

(** [GET /api/memories]. *)
Definition get_memories (db : DB) (current_user : User.t) : list MemoryResponse :=
  map memory_response
      (List.filter (fun m => Memory.user_id m =? User.id current_user) (memories db)).

(** [POST /api/protocols/seed]. *)
Definition seed_protocols (db : DB) : DB := ProtocolService.seed_default_protocols db.

(** [GET /api/protocols]: the active protocols. *)
Definition get_protocols (db : DB) : list Protocol.t :=
  List.filter Protocol.is_active (protocols db).

End Endpoints.

End Main.

(** ** Specification predicates *)


(** The deduplication key of a Fact. *)
Definition fact_key (m : Memory.t) : Z * string * string :=
  (Memory.user_id m, Memory.category m, Memory.key m).

(** The Facts stored under a key. *)
Definition facts_for (db : DB) (user_id : Z) (category key : string) : list Memory.t :=
  filter (fun m => fact_key m = (user_id, category, key)) (memories db).

(** The Facts stored under any other key. *)
Definition facts_besides (db : DB) (user_id : Z) (category key : string) : list Memory.t :=
  filter (fun m => fact_key m <> (user_id, category, key)) (memories db).

(** The invariant of the memory store: no key holds two Facts. *)
Definition at_most_one_fact (db : DB) : Prop :=
  forall user_id category key, (length (facts_for db user_id category key) <= 1)%nat.

(** [needle] occurs in [text] as a substring, letter case aside. *)
Definition occurs_ignoring_case (needle text : string) : Prop :=
  exists before after, Py.lower text = before +:+ Py.lower needle +:+ after.

(** The matching rule of a protocol: one of its keywords occurs in the
    message and, when it declares trigger phrases, one of those occurs. *)
Definition protocol_applies (user_message : string) (protocol : Protocol.t) : Prop :=
  (exists keyword,
      keyword ∈ Protocol.keywords protocol /\ occurs_ignoring_case keyword user_message)
  /\ (default [] (Protocol.trigger_phrases protocol) <> [] ->
      exists phrase,
        phrase ∈ default [] (Protocol.trigger_phrases protocol)
        /\ occurs_ignoring_case phrase user_message).

(** The typing indicator of a user, as [get_typing_status] reports it. *)
Definition is_typing (db : DB) (user_id : Z) : bool :=
  (TypingService.get_typing_status db user_id).1.


(** The history and the system prompt that a turn started on [db] hands
    to [generate_response]: those computed after the user turn is stored
    and the memories are read. *)
Definition generation_inputs (W : World) (db : DB) (now : Z) (user : User.t)
           (message_content : string) : list LLMMessage * string :=
  let db1 :=
    (MessageService.create_message W db now (User.id user) "user" message_content 0 None).1 in
  let read := MemoryService.get_relevant_memories db1 now (User.id user) 10 in
  let user_profile := UserService.get_user_profile user in
  (MessageService.get_recent_messages read.1 (User.id user) 20,
   LLMService.create_system_prompt
     user_profile read.2
     (ProtocolService.match_protocols read.1 message_content user_profile)
     (negb (User.onboarding_completed user))).

(** The rows of the typing table that belong to a user. *)
Definition typing_rows (db : DB) (user_id : Z) : list TypingIndicator.t :=
  filter (fun i => TypingIndicator.user_id i = user_id) (typing_indicators db).

(** The stored turns of a user, in table order. *)
Definition turns_of (db : DB) (user_id : Z) : list Message.t :=
  List.filter (fun m => Message.user_id m =? user_id) (messages db).

(** A stored turn as [get_recent_messages] hands it to the provider. *)
Definition as_llm_message (msg : Message.t) : LLMMessage :=
  {| role := Message.role msg; content := Message.content msg |}.

(** Oldest first by [created_at]. *)
Definition created_no_later : relation Message.t :=
  fun a b => Message.created_at a <= Message.created_at b.

(** What a Fact records apart from [last_accessed_at]. *)
Definition fact_record (m : Memory.t) : Z * Z * string * string * string * Z * Z :=
  (Memory.id m, Memory.user_id m, Memory.category m, Memory.key m, Memory.value m,
   Memory.importance m, Memory.created_at m).

(** The Facts of every user but one. *)
Definition facts_of_others (db : DB) (user_id : Z) : list Memory.t :=
  filter (fun m => Memory.user_id m <> user_id) (memories db).

(** The test [len(message_history) % 5 == 0] of a turn of a user with
    [stored] turns in the table before it: the history read with the limit
    of 20 holds the new turn as well. *)
Definition extraction_due (stored : nat) : bool :=
  (Nat.min 20 (S stored) mod 5 =? 0)%nat.

(** The text handed to the extraction after a successful turn. *)
Definition exchange_text (message_content response_content : string) : string :=
  "User: " +:+ message_content +:+ Py.nl +:+ "Assistant: " +:+ response_content.

(** [part] occurs in [text]. *)
Definition occurs_in (part text : string) : Prop :=
  exists before after, text = before +:+ part +:+ after.

(** The world with another provider behind it: the same encoder, float
    arithmetic and random draws, other provider calls and JSON parsing. *)
Definition with_provider (W : World)
           (chat : string -> list LLMMessage -> result (string * Z))
           (extract : string -> result string)
           (loads : string -> option (list ExtractedItem)) : World :=
  {| encode_len := encode_len W;
     scale_chars := scale_chars W;
     chat_api := chat;
     extract_api := extract;
     json_loads_list := loads;
     random_index := random_index W |}.

(** The users other than the one of an identity. *)
Definition users_besides (users : list User.t) (user_id : Z) : list User.t :=
  filter (fun u => User.id u <> user_id) users.

(** ** Sample worlds, settings and data *)

(** A world whose encoder raises on every text, so that [count_tokens] is
    the [len(text) // 4] estimate, and whose provider is unreachable. *)
Definition fallback_world : World :=
  {| encode_len := fun _ => None;
     scale_chars := scale_chars_exact;
     chat_api := fun _ _ => Raise (ProviderError "provider unavailable");
     extract_api := fun _ => Raise (ProviderError "provider unavailable");
     json_loads_list := fun _ => None;
     random_index := 0 |}.

Definition tight_settings : Settings :=
  {| LLM_PROVIDER := Demo; MAX_CONTEXT_TOKENS := 200; MAX_RESPONSE_TOKENS := 100 |}.


Definition coach_prompt : string := "You are Disha, India's first AI health coach.".

Definition short_history : list LLMMessage :=
  [ {| role := "user"; content := "I have had a fever since Monday." |};
    {| role := "assistant"; content := "How high is the fever?" |};
    {| role := "user"; content := "About 101 degrees." |} ].

(** One user message of 480 characters. *)
Definition long_history : list LLMMessage :=
  [ {| role := "user";
       content := Py.repeat_str "I have had a fever and a headache since Monday. " 10 |} ].

Definition empty_db : DB :=
  {| messages := []; memories := []; protocols := []; typing_indicators := [] |}.

(** A world whose extraction call answers with two Facts, the second under
    the key of the first. *)
Definition extracting_world : World :=
  {| encode_len := fun _ => None;
     scale_chars := scale_chars_exact;
     chat_api := fun _ _ => Ok ("Noted.", 12);
     extract_api := fun _ => Ok "[two facts]";
     json_loads_list := fun _ =>
       Some [ MemDict (Some "health_goal") (Some "primary_goal") (Some "lose weight") (Some 3);
              MemDict (Some "health_goal") (Some "primary_goal") (Some "lose 5kg") (Some 4) ];
     random_index := 0 |}.

(** A store with one Fact of user 7. *)
Definition one_fact_db : DB :=
  {| messages := [];
     memories :=
       [ {| Memory.id := 1; Memory.user_id := 7; Memory.category := "lifestyle";
            Memory.key := "sleep"; Memory.value := "6 hours"; Memory.importance := 2;
            Memory.last_accessed_at := 100; Memory.created_at := 100 |} ];
     protocols := [];
     typing_indicators := [] |}.

Definition sample_user : User.t :=
  {| User.id := 7; User.username := "asha"; User.full_name := Some "Asha";
     User.age := Some 34; User.gender := None; User.weight := None; User.height := None;
     User.medical_conditions := None; User.medications := None; User.allergies := None;
     User.onboarding_completed := true |}.

Definition user_turn (id created_at : Z) (text : string) : Message.t :=
  {| Message.id := id; Message.user_id := 7; Message.role := "user";
     Message.content := text; Message.created_at := created_at;
     Message.token_count := 1; Message.message_metadata := ∅ |}.

(** A history of one turn of user 7. *)
Definition one_message_db : DB :=
  {| messages := [user_turn 1 100 "Hi"];
     memories := []; protocols := []; typing_indicators := [] |}.

(** Two turns whose rows were created under clock readings 10 and 5. *)
Definition clock_stepped_back_db : DB :=
  {| messages := [user_turn 1 10 "Hi"; user_turn 2 5 "I have a fever"];
     memories := []; protocols := []; typing_indicators := [] |}.

Definition sample_fact (id importance : Z) (key value : string) : Memory.t :=
  {| Memory.id := id; Memory.user_id := 7; Memory.category := "lifestyle";
     Memory.key := key; Memory.value := value; Memory.importance := importance;
     Memory.last_accessed_at := 100; Memory.created_at := 100 |}.

(** A store with six Facts of user 7. *)
Definition six_facts_db : DB :=
  {| messages := [];
     memories :=
       [ sample_fact 1 5 "sleep" "6 hours";
         sample_fact 2 4 "diet" "vegetarian";
         sample_fact 3 3 "exercise" "walks daily";
         sample_fact 4 3 "water" "2 litres";
         sample_fact 5 2 "stress" "high at work";
         sample_fact 6 1 "tea" "two cups" ];
     protocols := [];
     typing_indicators := [] |}.

Definition demo_settings : Settings :=
  {| LLM_PROVIDER := Demo; MAX_CONTEXT_TOKENS := 8000; MAX_RESPONSE_TOKENS := 1000 |}.

(** The protocol table after seeding an empty database. *)
Definition seeded_db : DB := ProtocolService.seed_default_protocols empty_db.

Definition sample_profile : LLMService.UserProfile := UserService.get_user_profile sample_user.

(** The seeded headache protocol, as stored. *)
Definition headache_protocol : Protocol.t :=
  List.nth 2 (protocols seeded_db) (ProtocolService.seed_row "" "" [] [] "" "" 0).

(** The seeded emergency protocol, as stored. *)
Definition emergency_protocol : Protocol.t :=
  List.nth 3 (protocols seeded_db) (ProtocolService.seed_row "" "" [] [] "" "" 0).

(** Three turns of user 7 and one of user 8. *)
Definition four_messages_db : DB :=
  {| messages :=
       [ user_turn 1 100 "Hi";
         {| Message.id := 2; Message.user_id := 8; Message.role := "user";
            Message.content := "Hello"; Message.created_at := 101;
            Message.token_count := 1; Message.message_metadata := ∅ |};
         user_turn 3 102 "I have a fever";
         user_turn 4 103 "Since Monday" ];
     memories := []; protocols := []; typing_indicators := [] |}.

(** * Properties *)

(** ** Strings *)



(** ** The token budget of [truncate_context] *)

Section TruncateContext.
Context (W : World) (settings : Settings).

Local Abbreviation count_tokens := (LLMService.count_tokens W).
Local Abbreviation total_tokens := (LLMService.total_tokens W).
Local Abbreviation walk := (LLMService.walk W).
Local Abbreviation truncate_context := (LLMService.truncate_context W settings).
Local Abbreviation available_tokens := (LLMService.available_tokens W settings).

Lemma count_tokens_nonneg (text : string) : 0 <= count_tokens text.
Proof.
  unfold LLMService.count_tokens. destruct (encode_len W text); [lia|].
  apply Z.div_pos; lia.
Qed.

Lemma total_tokens_nonneg (msgs : list LLMMessage) : 0 <= total_tokens msgs.
Proof.
  induction msgs as [|m msgs IH]; simpl; [lia|].
  pose proof (count_tokens_nonneg (content m)). lia.
Qed.

(** The walk keeps a number of the newest messages, in chronological
    order, in front of what it had collected. *)
Lemma walk_takes (available : Z) (newest_first truncated : list LLMMessage) (current : Z) :
  exists k, walk available newest_first truncated current
            = rev (take k newest_first) ++ truncated.
Proof.
  revert truncated current.
  induction newest_first as [|m older IH]; intros truncated current; simpl.
  - exists 0%nat. reflexivity.
  - destruct (current + count_tokens (content m) <=? available).
    + destruct (IH (m :: truncated) (current + count_tokens (content m))) as [k Hk].
      exists (S k). rewrite Hk. simpl. rewrite <- app_assoc. reflexivity.
    + exists 0%nat. reflexivity.
Qed.

Lemma walk_suffix (available : Z) (messages : list LLMMessage) :
  walk available (rev messages) [] 0 `suffix_of` messages.
Proof.
  destruct (walk_takes available (rev messages) [] 0) as [k Hk].
  rewrite Hk, app_nil_r.
  exists (rev (drop k (rev messages))).
  rewrite <- rev_app_distr, take_drop, rev_involutive. reflexivity.
Qed.


Lemma walk_keeps (available : Z) (newest_first truncated : list LLMMessage) (current : Z) :
  truncated <> [] -> walk available newest_first truncated current <> [].
Proof.
  intros Hne. destruct (walk_takes available newest_first truncated current) as [k ->].
  destruct truncated; [congruence|]. intros H. apply app_eq_nil in H as [_ H]. discriminate.
Qed.

(** With nothing admitted, the newest message did not fit. *)
Lemma walk_nil_newest (available : Z) (messages : list LLMMessage) (m : LLMMessage) :
  last messages = Some m ->
  walk available (rev messages) [] 0 = [] ->
  available < count_tokens (content m).
Proof.
  intros Hlast Hnil. apply last_Some in Hlast as [l' ->].
  rewrite rev_app_distr in Hnil. simpl in Hnil.
  destruct (Z.leb_spec (0 + count_tokens (content m)) available) as [Hfit|Hno]; [|lia].
  exfalso. revert Hnil. apply walk_keeps. discriminate.
Qed.

Lemma walk_newest_fits (available : Z) (messages : list LLMMessage) (m : LLMMessage) :
  last messages = Some m ->
  count_tokens (content m) <= available ->
  walk available (rev messages) [] 0 <> [].
Proof.
  intros Hlast Hfit. apply last_Some in Hlast as [l' ->].
  rewrite rev_app_distr. simpl.
  destruct (Z.leb_spec (0 + count_tokens (content m)) available) as [_|Hno]; [|lia].
  apply walk_keeps. discriminate.
Qed.




End TruncateContext.



(** Under a positive allowance the cut of the degraded branch can miss.
    Limits of 200 and 100 tokens and an 11-token prompt leave 89 tokens,
    so the budget after the safety margin of 100 is -11 tokens and the
    slice bound -44 characters: the single 120-token message loses its
    last 44 characters only, and the 109 tokens kept bring the total to
    220. *)
Lemma truncate_context_exceeds_budget :
  exists r,
    LLMService.truncate_context fallback_world tight_settings long_history coach_prompt None
    = Ok r
    /\ LLMService.total_tokens fallback_world r = 109
    /\ ~ (LLMService.total_tokens fallback_world r
          + LLMService.count_tokens fallback_world coach_prompt
          + MAX_RESPONSE_TOKENS tight_settings
          <= MAX_CONTEXT_TOKENS tight_settings).
Proof.
  eexists. split; [vm_compute; reflexivity|].
  split; [vm_compute; reflexivity|].
  vm_compute. intros H. apply H. reflexivity.
Qed.

(** ** Queries and in-place updates on a table *)

Section FirstAndUpdate.
Context {A : Type} (p : A -> bool) (P : A -> Prop) `{!forall x, Decision (P x)}.
Hypothesis p_reflects : forall x, p x = true <-> P x.

Lemma first_head_filter (rows : list A) : Sql.first p rows = head (filter P rows).
Proof.
  induction rows as [|r rows IH]; [reflexivity|].
  unfold Sql.first in *. simpl. rewrite filter_cons.
  destruct (p r) eqn:Hr.
  - apply p_reflects in Hr. rewrite decide_True by assumption. reflexivity.
  - rewrite decide_False; [exact IH|].
    intros HP. apply p_reflects in HP. congruence.
Qed.

Lemma filter_update_first (f : A -> A) (rows : list A) :
  (forall x, P x -> P (f x)) ->
  filter P (Sql.update_first p f rows)
  = match filter P rows with
    | [] => []
    | x :: rest => f x :: rest
    end.
Proof.
  intros Hf. induction rows as [|r rows IH]; [reflexivity|].
  simpl. destruct (p r) eqn:Hr.
  - apply p_reflects in Hr.
    rewrite !filter_cons, !decide_True by auto. reflexivity.
  - assert (~ P r) as Hn by (intros HP; apply p_reflects in HP; congruence).
    rewrite !filter_cons, !decide_False by assumption. exact IH.
Qed.

Lemma filter_update_first_besides (Q : A -> Prop) `{!forall x, Decision (Q x)}
      (f : A -> A) (rows : list A) :
  (forall x, P x -> ~ Q x /\ ~ Q (f x)) ->
  filter Q (Sql.update_first p f rows) = filter Q rows.
Proof.
  intros Hf. induction rows as [|r rows IH]; [reflexivity|].
  simpl. destruct (p r) eqn:Hr.
  - apply p_reflects in Hr. destruct (Hf r Hr) as [H1 H2].
    rewrite !filter_cons, !decide_False by assumption. reflexivity.
  - rewrite !filter_cons. rewrite IH. reflexivity.
Qed.

Lemma first_update_first (f : A -> A) (rows : list A) :
  (forall x, P x -> P (f x)) ->
  Sql.first p (Sql.update_first p f rows) = f <$> Sql.first p rows.
Proof.
  intros Hf. unfold Sql.first. induction rows as [|r rows IH]; [reflexivity|].
  simpl. destruct (p r) eqn:Hr.
  - simpl. assert (p (f r) = true) as -> by (apply p_reflects, Hf, p_reflects, Hr).
    reflexivity.
  - simpl. rewrite Hr. exact IH.
Qed.

Lemma first_snoc_new (x : A) (rows : list A) :
  Sql.first p rows = None -> P x -> Sql.first p (rows ++ [x]) = Some x.
Proof.
  unfold Sql.first. intros Hnone HP. induction rows as [|r rows IH]; simpl in *.
  - apply p_reflects in HP. rewrite HP. reflexivity.
  - destruct (p r); [discriminate|]. apply IH, Hnone.
Qed.

End FirstAndUpdate.

(** ** The memory store *)

Lemma same_key_spec (user_id : Z) (category key : string) (m : Memory.t) :
  MemoryService.same_key user_id category key m = true
  <-> fact_key m = (user_id, category, key).
Proof.
  unfold MemoryService.same_key, fact_key.
  rewrite !andb_true_iff, Z.eqb_eq, !String.eqb_eq.
  split; [intros [[-> ->] ->]; reflexivity | intros [= -> -> ->]; auto].
Qed.

Lemma overwrite_key (value : string) (importance now : Z) (m : Memory.t) :
  fact_key (MemoryService.overwrite value importance now m) = fact_key m.
Proof. reflexivity. Qed.

Section CreateMemory.
Context (db : DB) (now user_id : Z) (category key value : string) (importance : Z).

Local Abbreviation db' :=
  (MemoryService.create_memory db now user_id category key value importance).1.
Local Abbreviation fact :=
  (MemoryService.create_memory db now user_id category key value importance).2.

(** What the store holds under the written key after the call: the
    returned Fact in place of the first one found there, or alone. *)
Lemma create_memory_facts_for :
  facts_for db' user_id category key
  = fact :: tail (facts_for db user_id category key)
  /\ match facts_for db user_id category key with
     | existing :: _ => fact = MemoryService.overwrite value importance now existing
     | [] => Memory.id fact = Sql.next_id (map Memory.id (memories db))
     end
  /\ Memory.value fact = value /\ Memory.importance fact = importance
  /\ fact_key fact = (user_id, category, key).
Proof.
  unfold MemoryService.create_memory, facts_for.
  rewrite (first_head_filter _ _ (same_key_spec user_id category key)).
  destruct (filter (fun m => fact_key m = (user_id, category, key)) (memories db))
    as [|existing rest] eqn:Hf; simpl.
  - rewrite filter_app, Hf, filter_cons, decide_True by reflexivity. auto.
  - rewrite (filter_update_first _ _ (same_key_spec user_id category key)), Hf
      by (intros x Hx; rewrite overwrite_key; exact Hx).
    assert (fact_key existing = (user_id, category, key)) as Hk.
    { assert (existing ∈ filter (fun m => fact_key m = (user_id, category, key)) (memories db))
        as Hin by (rewrite Hf; left).
      apply list_elem_of_filter in Hin as [Hin _]. exact Hin. }
    rewrite overwrite_key. auto.
Qed.

(** Under every other key the store holds what it held. *)
Lemma create_memory_facts_elsewhere (u : Z) (c k : string) :
  (u, c, k) <> (user_id, category, key) ->
  facts_for db' u c k = facts_for db u c k.
Proof.
  intros Hne. unfold MemoryService.create_memory, facts_for.
  destruct (Sql.first _ (memories db)); simpl.
  - apply (filter_update_first_besides _ _ (same_key_spec user_id category key)).
    intros x Hx. rewrite overwrite_key. split; congruence.
  - rewrite filter_app, filter_cons, decide_False by (unfold fact_key; simpl; congruence).
    apply app_nil_r.
Qed.

Lemma create_memory_keeps_invariant : at_most_one_fact db -> at_most_one_fact db'.
Proof.
  intros Hinv u c k.
  destruct (decide ((u, c, k) = (user_id, category, key))) as [[= -> -> ->]|Hne].
  - destruct create_memory_facts_for as (-> & _). specialize (Hinv user_id category key).
    destruct (facts_for db user_id category key) as [|? [|? ?]]; simpl in *; lia.
  - rewrite create_memory_facts_elsewhere by assumption. apply Hinv.
Qed.

(** C10.  [create_memory] leaves the Facts stored under every other
    (user, category, key) as they were, all fields included, and touches
    no other table. *)
Theorem create_memory_frame :
  facts_besides db' user_id category key = facts_besides db user_id category key
  /\ messages db' = messages db
  /\ protocols db' = protocols db
  /\ typing_indicators db' = typing_indicators db.
Proof.
  unfold MemoryService.create_memory, facts_besides.
  destruct (Sql.first _ (memories db)); simpl; repeat split.
  - apply (filter_update_first_besides _ _ (same_key_spec user_id category key)).
    intros x Hx. rewrite overwrite_key. split; intros Hn; apply Hn; exact Hx.
  - rewrite filter_app, filter_cons, decide_False by (intros Hn; apply Hn; reflexivity).
    apply app_nil_r.
Qed.

End CreateMemory.

Lemma store_memories_keeps_invariant (items : list ExtractedItem) (db : DB) (now user_id : Z) :
  at_most_one_fact db -> at_most_one_fact (MemoryService.store_memories db now user_id items).
Proof.
  revert db. induction items as [|item items IH]; intros db Hinv; [exact Hinv|].
  destruct item as [|category key value importance]; [exact Hinv|].
  simpl.
  pose proof (create_memory_keeps_invariant db now user_id
                (default "general" category) (default "info" key)
                (default "" value) (default 1 importance) Hinv) as Hstep.
  destruct (MemoryService.create_memory db now user_id
              (default "general" category) (default "info" key)
              (default "" value) (default 1 importance)) as [db1 m].
  apply IH, Hstep.
Qed.

Lemma filter_key_preserving_map (g : Memory.t -> Memory.t) (k : Z * string * string)
      (rows : list Memory.t) :
  (forall m, fact_key (g m) = fact_key m) ->
  length (filter (fun m => fact_key m = k) (map g rows))
  = length (filter (fun m => fact_key m = k) rows).
Proof.
  intros Hg. induction rows as [|r rows IH]; [reflexivity|].
  simpl. rewrite !filter_cons, Hg. destruct (decide (fact_key r = k)); simpl; congruence.
Qed.

Lemma get_relevant_memories_keeps_invariant (db : DB) (now user_id limit : Z) :
  at_most_one_fact db ->
  at_most_one_fact (MemoryService.get_relevant_memories db now user_id limit).1.
Proof.
  intros Hinv u c k. unfold facts_for, MemoryService.get_relevant_memories. simpl.
  rewrite filter_key_preserving_map; [apply Hinv|].
  intros m. destruct (bool_decide _); reflexivity.
Qed.

(** C3.  A store in which no (user, category, key) holds two Facts is
    still such a store after [create_memory], after the upserts of
    [extract_and_store_memories], whatever the extraction returns, and
    after the touch of [get_relevant_memories], the remaining write to the
    table. *)
Theorem upserts_keep_at_most_one_fact
        (W : World) (settings : Settings) (db : DB) (now user_id : Z)
        (category key value : string) (importance : Z) (conversation : string)
        (limit : Z) :
  at_most_one_fact db ->
  at_most_one_fact
    (MemoryService.create_memory db now user_id category key value importance).1
  /\ at_most_one_fact
       (MemoryService.extract_and_store_memories W settings db now user_id conversation)
  /\ at_most_one_fact (MemoryService.get_relevant_memories db now user_id limit).1.
Proof.
  intros Hinv. split; [|split].
  - apply create_memory_keeps_invariant, Hinv.
  - apply store_memories_keeps_invariant, Hinv.
  - apply get_relevant_memories_keeps_invariant, Hinv.
Qed.

Lemma one_fact_db_invariant : at_most_one_fact one_fact_db.
Proof.
  intros u c k. unfold facts_for. simpl.
  rewrite filter_cons, filter_nil. case_decide; simpl; lia.
Defined.

(** The invariant carried through an upsert, through an extraction that
    returns the same key twice, and through a read. *)
Lemma upserts_keep_at_most_one_fact_witness :
  at_most_one_fact
    (MemoryService.create_memory one_fact_db 200 7 "lifestyle" "sleep" "7 hours" 3).1
  /\ at_most_one_fact
       (MemoryService.extract_and_store_memories extracting_world default_settings
          one_fact_db 200 7 "User: I want to lose weight")
  /\ at_most_one_fact (MemoryService.get_relevant_memories one_fact_db 200 7 10).1.
Proof.
  exact (upserts_keep_at_most_one_fact extracting_world default_settings one_fact_db 200 7
           "lifestyle" "sleep" "7 hours" 3 "User: I want to lose weight" 10
           one_fact_db_invariant).
Defined.

(** The extraction of the sample world stores one Fact under its key, the
    second value over the first. *)
Example extraction_upserts_once :
  map (fun m => (Memory.id m, Memory.key m, Memory.value m, Memory.importance m))
      (memories (MemoryService.extract_and_store_memories
                   extracting_world default_settings one_fact_db 200 7
                   "User: I want to lose weight"))
  = [(1, "sleep", "6 hours", 2); (2, "primary_goal", "lose 5kg", 4)].
Proof. reflexivity. Qed.

(** Two upserts under one key: the second rewrites the Fact of the first. *)
Lemma create_memory_twice (db : DB) (now1 now2 user_id : Z) (category key : string)
      (value1 : string) (importance1 : Z) (value2 : string) (importance2 : Z) :
  at_most_one_fact db ->
  let first_call :=
    MemoryService.create_memory db now1 user_id category key value1 importance1 in
  let second_call :=
    MemoryService.create_memory first_call.1 now2 user_id category key value2 importance2 in
  facts_for second_call.1 user_id category key = [second_call.2]
  /\ second_call.2 = MemoryService.overwrite value2 importance2 now2 first_call.2.
Proof.
  intros Hinv first_call second_call.
  destruct (create_memory_facts_for db now1 user_id category key value1 importance1)
    as (Hfacts1 & _).
  fold first_call in Hfacts1.
  assert (facts_for first_call.1 user_id category key = [first_call.2]) as Hone.
  { rewrite Hfacts1. specialize (Hinv user_id category key).
    destruct (facts_for db user_id category key) as [|? [|? ?]]; simpl in *;
      [reflexivity | reflexivity | lia]. }
  destruct (create_memory_facts_for first_call.1 now2 user_id category key value2 importance2)
    as (Hfacts2 & Hwho & _).
  fold second_call in Hfacts2, Hwho.
  rewrite Hone in Hfacts2, Hwho. simpl in Hfacts2. auto.
Qed.

(** C7.  On a store with at most one Fact per key, two identical upserts
    leave exactly one Fact under the key, with the identity and creation
    time the first call returned and the value and importance written;
    and the upsert of "lose weight", 3 followed by that of "lose 5kg", 4
    under (u, "health_goal", "primary_goal") leaves exactly one Fact, with
    the identity of the first call, value "lose 5kg" and importance 4. *)
Theorem create_memory_idempotent_and_overwrites
        (db : DB) (now1 now2 u : Z) (category key value : string) (importance : Z) :
  at_most_one_fact db ->
  (let first_call := MemoryService.create_memory db now1 u category key value importance in
   let second_call :=
     MemoryService.create_memory first_call.1 now2 u category key value importance in
   facts_for second_call.1 u category key = [second_call.2]
   /\ Memory.id second_call.2 = Memory.id first_call.2
   /\ Memory.created_at second_call.2 = Memory.created_at first_call.2
   /\ Memory.value second_call.2 = Memory.value first_call.2
   /\ Memory.importance second_call.2 = Memory.importance first_call.2)
  /\ (let first_call :=
        MemoryService.create_memory db now1 u "health_goal" "primary_goal" "lose weight" 3 in
      let second_call :=
        MemoryService.create_memory first_call.1 now2 u
                                    "health_goal" "primary_goal" "lose 5kg" 4 in
      facts_for second_call.1 u "health_goal" "primary_goal" = [second_call.2]
      /\ Memory.id second_call.2 = Memory.id first_call.2
      /\ Memory.value second_call.2 = "lose 5kg"
      /\ Memory.importance second_call.2 = 4).
Proof.
  intros Hinv. split.
  - intros first_call second_call.
    destruct (create_memory_twice db now1 now2 u category key value importance
                value importance Hinv) as [Hone Hsame].
    fold first_call in Hone, Hsame. fold second_call in Hone, Hsame.
    destruct (create_memory_facts_for db now1 u category key value importance)
      as (_ & _ & Hv & Hi & _).
    fold first_call in Hv, Hi.
    rewrite Hone, Hsame, Hv, Hi. auto.
  - intros first_call second_call.
    destruct (create_memory_twice db now1 now2 u "health_goal" "primary_goal"
                "lose weight" 3 "lose 5kg" 4 Hinv) as [Hone Hsame].
    fold first_call in Hone, Hsame. fold second_call in Hone, Hsame.
    rewrite Hone, Hsame. auto.
Qed.

(** The two scenarios on the sample store, where user 7 has one Fact
    under another key. *)
Lemma create_memory_idempotent_and_overwrites_witness :
  (let first_call := MemoryService.create_memory one_fact_db 200 7 "lifestyle" "sleep" "6 hours" 2 in
   let second_call :=
     MemoryService.create_memory first_call.1 300 7 "lifestyle" "sleep" "6 hours" 2 in
   facts_for second_call.1 7 "lifestyle" "sleep" = [second_call.2]
   /\ Memory.id second_call.2 = Memory.id first_call.2
   /\ Memory.created_at second_call.2 = Memory.created_at first_call.2
   /\ Memory.value second_call.2 = Memory.value first_call.2
   /\ Memory.importance second_call.2 = Memory.importance first_call.2)
  /\ (let first_call :=
        MemoryService.create_memory one_fact_db 200 7
                                    "health_goal" "primary_goal" "lose weight" 3 in
      let second_call :=
        MemoryService.create_memory first_call.1 300 7
                                    "health_goal" "primary_goal" "lose 5kg" 4 in
      facts_for second_call.1 7 "health_goal" "primary_goal" = [second_call.2]
      /\ Memory.id second_call.2 = Memory.id first_call.2
      /\ Memory.value second_call.2 = "lose 5kg"
      /\ Memory.importance second_call.2 = 4).
Proof.
  exact (create_memory_idempotent_and_overwrites one_fact_db 200 300 7
           "lifestyle" "sleep" "6 hours" 2 one_fact_db_invariant).
Defined.

(** Scenario D run on the sample store: the Fact of the first call has
    identity 2, and so has the only Fact under the key after the second. *)
Example scenario_D_on_sample_store :
  let first_call :=
    MemoryService.create_memory one_fact_db 200 7 "health_goal" "primary_goal" "lose weight" 3 in
  let second_call :=
    MemoryService.create_memory first_call.1 300 7 "health_goal" "primary_goal" "lose 5kg" 4 in
  Memory.id first_call.2 = 2
  /\ map Memory.id (memories second_call.1) = [1; 2]
  /\ map Memory.value (memories second_call.1) = ["6 hours"; "lose 5kg"]
  /\ map Memory.importance (memories second_call.1) = [2; 4].
Proof. vm_compute. auto. Qed.

(** ** Sorted queries *)

Lemma StronglySorted_take {A : Type} (R : relation A) (n : nat) (l : list A) :
  StronglySorted R l -> StronglySorted R (take n l).
Proof.
  intros Hs. rewrite <- (take_drop n l) in Hs.
  exact (StronglySorted_app_1_l _ _ _ Hs).
Qed.

Lemma StronglySorted_bool_filter {A : Type} (R : relation A) (p : A -> bool) (l : list A) :
  StronglySorted R l -> StronglySorted R (List.filter p l).
Proof.
  induction 1 as [|x l Hs IH Hall]; simpl; [constructor|].
  destruct (p x); [|exact IH].
  constructor; [exact IH|].
  rewrite Forall_forall in *. intros y Hy.
  apply list_elem_of_In, filter_In in Hy as [Hy _]. apply Hall, list_elem_of_In, Hy.
Qed.

Lemma limit_of_nat {A : Type} (n : nat) (rows : list A) :
  Sql.limit (Z.of_nat n) rows = take n rows.
Proof.
  unfold Sql.limit. destruct (Z.ltb_spec (Z.of_nat n) 0); [lia|].
  rewrite Nat2Z.id. reflexivity.
Qed.

Lemma limit_sublist {A : Type} (n : Z) (rows : list A) : Sql.limit n rows `sublist_of` rows.
Proof. unfold Sql.limit. destruct (n <? 0); [reflexivity | apply sublist_take]. Qed.

Lemma limit_sorted {A : Type} (R : relation A) (n : Z) (rows : list A) :
  StronglySorted R rows -> StronglySorted R (Sql.limit n rows).
Proof. unfold Sql.limit. destruct (n <? 0); [auto | apply StronglySorted_take]. Qed.

#[local] Instance desc_by_total {A : Type} (key : A -> Z) : Total (Sql.desc_by key).
Proof. intros a b. unfold Sql.desc_by. lia. Qed.

#[local] Instance desc_by_transitive {A : Type} (key : A -> Z) : Transitive (Sql.desc_by key).
Proof. intros a b c. unfold Sql.desc_by. lia. Qed.

Lemma order_by_desc_sorted {A : Type} (key : A -> Z) (rows : list A) :
  StronglySorted (Sql.desc_by key) (Sql.order_by_desc key rows).
Proof. apply StronglySorted_merge_sort; apply _. Qed.

Lemma order_by_desc_elem_of {A : Type} (key : A -> Z) (rows : list A) (x : A) :
  x ∈ Sql.order_by_desc key rows <-> x ∈ rows.
Proof. unfold Sql.order_by_desc. rewrite merge_sort_Permutation. reflexivity. Qed.

Lemma bool_filter_elem_of {A : Type} (p : A -> bool) (l : list A) (x : A) :
  x ∈ List.filter p l <-> x ∈ l /\ p x = true.
Proof. rewrite !list_elem_of_In. apply filter_In. Qed.

(** ** Ranking and touching memories *)

#[local] Instance ranks_before_total : Total MemoryService.ranks_before.
Proof. intros a b. unfold MemoryService.ranks_before. lia. Qed.

#[local] Instance ranks_before_transitive : Transitive MemoryService.ranks_before.
Proof. intros a b c. unfold MemoryService.ranks_before. lia. Qed.

(** C6.  For a limit of [n] rows, [get_relevant_memories] returns the
    dictionaries of at most [n] Facts of the user, taken from the store in
    the order of importance descending, then [last_accessed_at]
    descending; and in the store it leaves, every returned Fact is there
    with [last_accessed_at] set to the current time, as is every row that
    carries the identity of a returned Fact. *)
Theorem get_relevant_memories_ranked_and_touched
        (db : DB) (now user_id : Z) (n : nat) :
  let rows := MemoryService.relevant_rows db user_id (Z.of_nat n) in
  let result := MemoryService.get_relevant_memories db now user_id (Z.of_nat n) in
  result.2 = map MemoryService.to_dict rows
  /\ (length result.2 <= n)%nat
  /\ StronglySorted MemoryService.ranks_before rows
  /\ Forall (fun r => r ∈ memories db /\ Memory.user_id r = user_id) rows
  /\ Forall (fun r => MemoryService.touch now r ∈ memories result.1) rows
  /\ Forall (fun m => Memory.id m ∈ map Memory.id rows -> Memory.last_accessed_at m = now)
            (memories result.1).
Proof.
  intros rows result. subst result. unfold MemoryService.get_relevant_memories. simpl.
  fold rows.
  assert (forall r, r ∈ rows -> r ∈ memories db /\ Memory.user_id r = user_id) as Hrows.
  { intros r Hr. subst rows. unfold MemoryService.relevant_rows in Hr.
    apply (fun H => elem_of_sublist _ _ _ H (limit_sublist _ _)) in Hr.
    rewrite merge_sort_Permutation in Hr.
    apply bool_filter_elem_of in Hr as [Hin Hu]. split; [exact Hin | lia]. }
  repeat split.
  - rewrite length_map. subst rows. unfold MemoryService.relevant_rows.
    rewrite limit_of_nat. apply firstn_le_length.
  - subst rows. unfold MemoryService.relevant_rows.
    apply limit_sorted, StronglySorted_merge_sort; apply _.
  - apply Forall_forall. exact Hrows.
  - apply Forall_forall. intros r Hr.
    apply list_elem_of_fmap. exists r. split; [|apply Hrows, Hr].
    rewrite bool_decide_eq_true_2; [reflexivity|].
    apply list_elem_of_fmap. exists r. auto.
  - apply Forall_forall. intros m Hm Hid.
    apply list_elem_of_fmap in Hm as (m0 & -> & Hm0).
    destruct (bool_decide (Memory.id m0 ∈ map Memory.id rows)) eqn:Hb; [reflexivity|].
    apply bool_decide_eq_false in Hb. contradiction.
Qed.

(** ** Substring search *)

Lemma append_cons (c : ascii) (s t : string) : String c s +:+ t = String c (s +:+ t).
Proof. reflexivity. Qed.

Lemma startswith_spec (needle hay : string) :
  Py.startswith needle hay = true <-> exists after, hay = needle +:+ after.
Proof.
  revert hay. induction needle as [|a needle IH]; intros hay.
  - split; [intros _; exists hay; reflexivity | destruct hay; reflexivity].
  - destruct hay as [|b hay]; simpl.
    + split; [discriminate | intros [after Hafter]; discriminate].
    + destruct (Ascii.eqb_spec a b) as [->|Hne].
      * rewrite IH. split; intros [after Hafter]; exists after.
        -- rewrite append_cons. congruence.
        -- rewrite append_cons in Hafter. congruence.
      * split; [discriminate|]. intros [after Hafter].
        rewrite append_cons in Hafter. congruence.
Qed.

Lemma contains_spec (needle hay : string) :
  Py.contains needle hay = true
  <-> exists before after, hay = before +:+ needle +:+ after.
Proof.
  induction hay as [|c hay IH].
  - simpl. rewrite orb_false_r, startswith_spec. split.
    + intros [after Hafter]. exists EmptyString, after. exact Hafter.
    + intros (before & after & H). destruct before; [|discriminate].
      exists after. exact H.
  - change (Py.contains needle (String c hay))
      with (Py.startswith needle (String c hay) || Py.contains needle hay).
    rewrite orb_true_iff, startswith_spec, IH. split.
    + intros [[after Hafter]|(before & after & H)].
      * exists EmptyString, after. exact Hafter.
      * exists (String c before), after. rewrite append_cons. congruence.
    + intros (before & after & H). destruct before as [|b before].
      * left. exists after. exact H.
      * right. exists before, after. rewrite append_cons in H. congruence.
Qed.

Lemma any_contains_spec (needles : list string) (text : string) :
  Py.any (fun needle => Py.contains (Py.lower needle) (Py.lower text)) needles = true
  <-> exists needle, needle ∈ needles /\ occurs_ignoring_case needle text.
Proof.
  unfold Py.any, occurs_ignoring_case. rewrite existsb_exists.
  split; intros (needle & Hin & H); exists needle.
  - split; [apply list_elem_of_In, Hin | apply contains_spec, H].
  - split; [apply list_elem_of_In, Hin | apply contains_spec, H].
Qed.

(** ** Protocol matching *)

Lemma matches_spec (user_message : string) (protocol : Protocol.t) :
  ProtocolService.matches (Py.lower user_message) protocol = true
  <-> protocol_applies user_message protocol.
Proof.
  unfold ProtocolService.matches, protocol_applies.
  unfold ProtocolService.keyword_hit, ProtocolService.phrase_hit.
  rewrite <- !any_contains_spec.
  destruct (Py.any _ (Protocol.keywords protocol)).
  - destruct (default [] (Protocol.trigger_phrases protocol)) as [|phrase phrases].
    + split; [intros _; split; [reflexivity | congruence] | reflexivity].
    + split; [intros H; split; [reflexivity | intros _; exact H] | ].
      intros [_ H]. apply H. discriminate.
  - split; [discriminate | intros [H _]; discriminate].
Qed.

Lemma summary_priority (a b : Protocol.t) :
  Sql.desc_by Protocol.priority a b
  -> Sql.desc_by LLMService.pd_priority (ProtocolService.summary a) (ProtocolService.summary b).
Proof. exact (fun H => H). Qed.

(** C4.  [match_protocols] returns at most three summaries, by descending
    priority; every summary returned is that of a stored protocol that is
    active and that the rule admits (a keyword occurs in the message,
    letter case aside, and so does a trigger phrase when the protocol
    declares any); and every stored, active protocol that the rule admits
    is returned unless three summaries already are.  A protocol without
    trigger phrases is thus admitted on its keywords alone. *)
Theorem match_protocols_top_three_by_rule
        (db : DB) (user_message : string) (user_profile : LLMService.UserProfile) :
  let returned := ProtocolService.match_protocols db user_message user_profile in
  (length returned <= 3)%nat
  /\ StronglySorted (Sql.desc_by LLMService.pd_priority) returned
  /\ Forall (fun s =>
               exists protocol,
                 protocol ∈ protocols db
                 /\ Protocol.is_active protocol = true
                 /\ s = ProtocolService.summary protocol
                 /\ protocol_applies user_message protocol)
            returned
  /\ Forall (fun protocol =>
               Protocol.is_active protocol = true ->
               protocol_applies user_message protocol ->
               ProtocolService.summary protocol ∈ returned \/ length returned = 3%nat)
            (protocols db)
  /\ Forall (fun protocol =>
               default [] (Protocol.trigger_phrases protocol) = [] ->
               (protocol_applies user_message protocol
                <-> exists keyword,
                      keyword ∈ Protocol.keywords protocol
                      /\ occurs_ignoring_case keyword user_message))
            (protocols db).
Proof.
  intros returned. subst returned. unfold ProtocolService.match_protocols.
  change (Py.list_slice_to ?l 3) with (take 3 l).
  set (candidates := List.filter (ProtocolService.matches (Py.lower user_message))
                                 (ProtocolService.active_by_priority db)).
  assert (forall p, p ∈ candidates
                    <-> p ∈ protocols db /\ Protocol.is_active p = true
                        /\ protocol_applies user_message p) as Hcand.
  { intros p. subst candidates. unfold ProtocolService.active_by_priority.
    rewrite bool_filter_elem_of, order_by_desc_elem_of, bool_filter_elem_of, matches_spec.
    tauto. }
  repeat split.
  - rewrite length_take. lia.
  - apply StronglySorted_take.
    apply (StronglySorted_fmap _ (Sql.desc_by Protocol.priority)).
    + exact summary_priority.
    + subst candidates. apply StronglySorted_bool_filter.
      unfold ProtocolService.active_by_priority. apply order_by_desc_sorted.
  - apply Forall_forall. intros s Hs.
    apply (fun H => elem_of_sublist _ _ _ H (sublist_take _ _)) in Hs.
    apply list_elem_of_fmap in Hs as (p & -> & Hp).
    apply Hcand in Hp as (Hin & Hact & Happ). exists p. auto.
  - apply Forall_forall. intros p Hin Hact Happ.
    assert (p ∈ candidates) as Hp by (apply Hcand; auto).
    destruct (decide (length candidates <= 3)%nat) as [Hle|Hgt].
    + left. rewrite take_ge by (rewrite length_map; exact Hle).
      apply list_elem_of_fmap. exists p. auto.
    + right. rewrite length_take, length_map. lia.
  - apply Forall_forall. intros p _ Hnone. unfold protocol_applies. rewrite Hnone.
    split; [intros [H _]; exact H | intros H; split; [exact H | congruence]].
Qed.

(** ** Pagination of the message history *)

Lemma page_query_spec (db : DB) (user_id : Z) (before_id : option Z) (m : Message.t) :
  m ∈ MessageService.page_query db user_id before_id
  <-> m ∈ messages db
      /\ Message.user_id m = user_id
      /\ forall b, before_id = Some b -> b <> 0 -> Message.id m < b.
Proof.
  unfold MessageService.page_query. destruct before_id as [b|].
  - destruct (Z.eqb_spec b 0) as [->|Hb].
    + rewrite bool_filter_elem_of, Z.eqb_eq. split.
      * intros [Hin Hu]. repeat split; auto. intros b [= <-]. congruence.
      * intros (Hin & Hu & _). auto.
    + rewrite !bool_filter_elem_of, Z.eqb_eq, Z.ltb_lt. split.
      * intros [[Hin Hu] Hlt]. repeat split; auto. intros b' [= <-] _. exact Hlt.
      * intros (Hin & Hu & Hlt). auto.
  - rewrite bool_filter_elem_of, Z.eqb_eq. split.
    + intros [Hin Hu]. repeat split; auto. discriminate.
    + intros (Hin & Hu & _). auto.
Qed.

(** The batch and the flags computed by the service from the sorted query. *)
Lemma page_split {A : Type} (sorted : list A) (limit : Z) :
  1 <= limit ->
  let fetched := Sql.limit (limit + 1) sorted in
  let has_more := limit <? Z.of_nat (length fetched) in
  let batch := if has_more then Py.list_slice_to fetched limit else fetched in
  exists rest,
    sorted = batch ++ rest
    /\ Z.of_nat (length batch) <= limit
    /\ (has_more = true <-> rest <> [])
    /\ (has_more = true -> batch <> []).
Proof.
  intros Hlimit fetched has_more batch.
  assert (fetched = take (S (Z.to_nat limit)) sorted) as Hfetched.
  { subst fetched. unfold Sql.limit.
    destruct (Z.ltb_spec (limit + 1) 0); [lia|].
    replace (Z.to_nat (limit + 1)) with (S (Z.to_nat limit)) by lia. reflexivity. }
  assert (length fetched = (S (Z.to_nat limit) `min` length sorted)%nat) as Hlen
    by (rewrite Hfetched; apply length_take).
  subst has_more batch. destruct (Z.ltb_spec limit (Z.of_nat (length fetched))) as [Hmore|Hall].
  - assert (Z.to_nat limit < length sorted)%nat as Hlong by lia.
    assert (Py.list_slice_to fetched limit = take (Z.to_nat limit) sorted) as ->.
    { unfold Py.list_slice_to. destruct (Z.leb_spec 0 limit); [|lia].
      rewrite Hfetched, take_take. f_equal. lia. }
    exists (drop (Z.to_nat limit) sorted).
    split; [symmetry; apply take_drop|].
    split; [rewrite length_take; lia|].
    split; [split; [|reflexivity]|].
    + intros _ Hnil. apply (f_equal length) in Hnil.
      rewrite length_drop in Hnil. simpl in Hnil. lia.
    + intros _ Hnil. apply (f_equal length) in Hnil.
      rewrite length_take in Hnil. simpl in Hnil. lia.
  - assert (length sorted <= Z.to_nat limit)%nat as Hshort by lia.
    exists [].
    split; [rewrite app_nil_r, Hfetched; symmetry; apply take_ge; lia|].
    split; [lia|].
    split; [split; [discriminate | congruence] | discriminate].
Qed.

(** Rows in [created_at]-descending order are in descending order of
    identity when, among them, a row created no later has no larger
    identity. *)
Lemma sorted_by_id_when_clock_agrees (batch : list Message.t) :
  (forall a b, a ∈ batch -> b ∈ batch ->
               Message.created_at b <= Message.created_at a -> Message.id b <= Message.id a) ->
  StronglySorted (Sql.desc_by Message.created_at) batch ->
  StronglySorted (Sql.desc_by Message.id) batch.
Proof.
  intros Hagree Hsorted. induction Hsorted as [|a l Hs IH Hall]; [constructor|].
  constructor.
  - apply IH. intros x y Hx Hy. apply Hagree; right; assumption.
  - rewrite Forall_forall in *. intros b Hb.
    apply Hagree; [left | right; exact Hb | apply Hall, Hb].
Qed.

(** X25.  [GET /api/messages] refuses a limit outside [1, 100].  Otherwise
    the page is the leading part, at most [limit] long, of a listing by
    descending [created_at] of the rows of the query, which are turns of
    the user with identities below the cursor when the cursor is not 0;
    [has_more] holds exactly when rows of the listing remain after the
    page; [next_cursor] is the identity of the last turn of the page when
    [has_more] holds and absent otherwise; [total] counts the user's
    turns, whatever the cursor. *)
Theorem get_messages_page
        (db : DB) (current_user : User.t) (limit : Z) (before_id : option Z) :
  match Main.get_messages db current_user limit before_id with
  | Raise e =>
      e = HTTPException 400 "Limit must be between 1 and 100" /\ (limit < 1 \/ 100 < limit)
  | Ok page =>
      1 <= limit <= 100
      /\ exists batch rest,
           batch ++ rest ≡ₚ MessageService.page_query db (User.id current_user) before_id
           /\ StronglySorted (Sql.desc_by Message.created_at) (batch ++ rest)
           /\ mlr_messages page = map model_validate batch
           /\ Z.of_nat (length batch) <= limit
           /\ Forall (fun m =>
                        m ∈ messages db
                        /\ Message.user_id m = User.id current_user
                        /\ forall b, before_id = Some b -> b <> 0 -> Message.id m < b)
                     (batch ++ rest)
           /\ (mlr_has_more page = true <-> rest <> [])
           /\ (mlr_has_more page = true -> batch <> [])
           /\ mlr_next_cursor page
              = (if mlr_has_more page then Message.id <$> last batch else None)
           /\ mlr_total page
              = Z.of_nat (length (List.filter
                                    (fun m => Message.user_id m =? User.id current_user)
                                    (messages db)))
  end.
Proof.
  unfold Main.get_messages.
  destruct (Z.ltb_spec limit 1) as [Hlow|Hlow]; simpl; [split; [reflexivity | lia]|].
  destruct (Z.ltb_spec 100 limit) as [Hhigh|Hhigh]; simpl; [split; [reflexivity | lia]|].
  split; [lia|].
  set (sorted := Sql.order_by_desc Message.created_at
                   (MessageService.page_query db (User.id current_user) before_id)).
  destruct (page_split sorted limit Hlow) as (rest & Hsplit & Hlen & Hmore & Hne).
  unfold MessageService.get_messages. fold sorted. simpl.
  set (fetched := Sql.limit (limit + 1) sorted) in *.
  set (has_more := limit <? Z.of_nat (length fetched)) in *.
  set (batch := if has_more then Py.list_slice_to fetched limit else fetched) in *.
  assert (StronglySorted (Sql.desc_by Message.created_at) sorted) as Hsorted
    by apply order_by_desc_sorted.
  exists batch, rest. rewrite <- Hsplit.
  split; [apply merge_sort_Permutation|].
  split; [exact Hsorted|]. split; [reflexivity|]. split; [exact Hlen|].
  repeat split; try assumption; try tauto.
  - apply Forall_forall. intros m Hm.
    apply page_query_spec. apply (order_by_desc_elem_of Message.created_at). exact Hm.
  - destruct (last batch) as [oldest|] eqn:Hlast; [reflexivity|].
    destruct has_more; reflexivity.
Qed.

(** C9.  The cursor 0 is not honoured: [if before_id:] reads it as no
    cursor, so the page requested before identity 0 lists the turn with
    identity 1, although no identity is below 0. *)
Lemma get_messages_ignores_zero_cursor :
  exists page,
    Main.get_messages one_message_db sample_user 50 (Some 0) = Ok page
    /\ map mr_id (mlr_messages page) = [1]
    /\ ~ Forall (fun r => mr_id r < 0) (mlr_messages page).
Proof.
  eexists. split; [reflexivity|]. split; [reflexivity|].
  intros H. apply Forall_inv in H. simpl in H. lia.
Qed.

(** The page follows [created_at], not the identities: with the rows of
    [clock_stepped_back_db] the turn with identity 1 comes before that
    with identity 2. *)
Example get_messages_orders_by_created_at :
  exists page,
    Main.get_messages clock_stepped_back_db sample_user 50 None = Ok page
    /\ map mr_id (mlr_messages page) = [1; 2]
    /\ map mr_created_at (mlr_messages page) = [10; 5].
Proof. eexists. split; [reflexivity|]. split; reflexivity. Qed.


(** ** The typing indicator *)

Lemma mine_spec (user_id : Z) (i : TypingIndicator.t) :
  (TypingIndicator.user_id i =? user_id) = true <-> TypingIndicator.user_id i = user_id.
Proof. apply Z.eqb_eq. Qed.



(** ** One turn *)

Lemma create_memory_other_tables (db : DB) (now user_id : Z) (category key value : string)
      (importance : Z) :
  messages (MemoryService.create_memory db now user_id category key value importance).1
  = messages db
  /\ typing_indicators
       (MemoryService.create_memory db now user_id category key value importance).1
     = typing_indicators db.
Proof.
  unfold MemoryService.create_memory. destruct (Sql.first _ (memories db)); auto.
Qed.

Lemma store_memories_frame (items : list ExtractedItem) (db : DB) (now user_id : Z) :
  messages (MemoryService.store_memories db now user_id items) = messages db
  /\ typing_indicators (MemoryService.store_memories db now user_id items)
     = typing_indicators db.
Proof.
  revert db. induction items as [|item items IH]; intros db; [auto|].
  destruct item as [|category key value importance]; [auto|].
  simpl.
  pose proof (create_memory_other_tables db now user_id
                (default "general" category) (default "info" key)
                (default "" value) (default 1 importance)) as (Hm & Ht).
  destruct (MemoryService.create_memory db now user_id
              (default "general" category) (default "info" key)
              (default "" value) (default 1 importance)) as [db1 m].
  simpl in Hm, Ht. destruct (IH db1) as [IHm IHt]. rewrite IHm, IHt. auto.
Qed.

Lemma relevant_rows_at_most (db : DB) (user_id : Z) (n : nat) :
  (length (MemoryService.relevant_rows db user_id (Z.of_nat n)) <= n)%nat.
Proof.
  unfold MemoryService.relevant_rows. rewrite limit_of_nat. apply firstn_le_length.
Qed.

Section Turn.
Context (W : World) (settings : Settings).
Context (db : DB) (now : Z) (user : User.t) (message_content : string).

(** What a turn leaves behind.  On success the history gains the user turn
    and the assistant turn, whose metadata records the number of memories
    retrieved, at most ten.  On failure it gains the user turn only.  The
    typing indicators are those of the start. *)
Lemma process_message_outcome (db' : DB) (outcome : result (Message.t * Message.t)) :
  ChatService.process_message W settings db now user message_content = (db', outcome) ->
  typing_indicators db' = typing_indicators db
  /\ match outcome with
     | Ok (user_message, assistant_message) =>
         messages db' = messages db ++ [user_message; assistant_message]
         /\ Message.role user_message = "user"
         /\ Message.role assistant_message = "assistant"
         /\ exists n,
              Message.message_metadata assistant_message !! "memories_used" = Some (MInt n)
              /\ 0 <= n <= 10
              /\ n = Z.of_nat
                       (length (MemoryService.relevant_rows
                                  (MessageService.create_message
                                     W db now (User.id user) "user" message_content 0 None).1
                                  (User.id user) 10))
     | Raise e =>
         exists user_message,
           messages db' = messages db ++ [user_message]
           /\ Message.role user_message = "user"
     end
  /\ let inputs := generation_inputs W db now user message_content in
     match outcome with
     | Ok (_, assistant_message) =>
         exists metadata,
           LLMService.generate_response W settings inputs.1 inputs.2
           = Ok (Message.content assistant_message, metadata)
     | Raise e => LLMService.generate_response W settings inputs.1 inputs.2 = Raise e
     end.
Proof.
  unfold ChatService.process_message, generation_inputs.
  unfold MessageService.create_message, MemoryService.get_relevant_memories.
  cbn [fst snd]. cbv beta iota zeta.
  set (user_message := {| Message.id := Sql.next_id (map Message.id (messages db));
                          Message.user_id := User.id user |}).
  set (db1 := set_messages db (messages db ++ [user_message])).
  set (rows := MemoryService.relevant_rows db1 (User.id user) 10).
  set (db2 := set_memories db1 _).
  set (memories_ := map MemoryService.to_dict rows).
  destruct (LLMService.generate_response W settings _ _)
    as [[response_content metadata]|e] eqn:Hgen.
  - set (assistant_message := {| Message.id := Sql.next_id (map Message.id (messages db2));
                                 Message.role := "assistant" |}).
    set (db3 := set_messages db2 (messages db2 ++ [assistant_message])).
    match goal with
    | |- context [if ?c then ?stored else db3] =>
        set (db4 := if c then stored else db3);
        assert (messages db4 = messages db3
                /\ typing_indicators db4 = typing_indicators db3) as [Hm Ht]
          by (subst db4; destruct c; [apply store_memories_frame | auto])
    end.
    intros [= <- <-]. rewrite Hm, Ht. split; [reflexivity|].
    split; [|exists metadata; reflexivity].
    split; [simpl; rewrite <- app_assoc; reflexivity|].
    split; [reflexivity|]. split; [reflexivity|].
    exists (Z.of_nat (length memories_)). split.
    + subst assistant_message. simpl.
      rewrite lookup_insert_ne by discriminate. apply lookup_insert_eq.
    + subst memories_. rewrite length_map.
      pose proof (relevant_rows_at_most db1 (User.id user) 10) as Hten.
      change (length rows <= 10)%nat in Hten. split; [lia | reflexivity].
  - intros [= <- <-]. split; [reflexivity|].
    split; [exists user_message; auto | reflexivity].
Qed.

End Turn.

(** ** The chat endpoint *)


Lemma memory_parts_at_most (retrieved : list LLMService.MemoryDict) :
  (length (LLMService.memory_parts retrieved) <= 6)%nat.
Proof.
  unfold LLMService.memory_parts. destruct retrieved as [|m retrieved]; simpl; [lia|].
  rewrite length_map. change (Py.list_slice_to ?l 5) with (take 5 l).
  rewrite length_take. lia.
Qed.

Section SendMessage.
Context (W : World) (settings : Settings).
Context (db : DB) (now : Z) (current_user : User.t) (message : string).

Local Abbreviation started :=
  (TypingService.update_typing_status db now (User.id current_user) true).


(** C8, as the code has it.  The turn reads the memories with the default
    limit of ten, and the number it read is what the assistant turn's
    metadata and the context summary of the response record: at most ten.
    The system prompt lists at most five of them under its heading. *)
Theorem send_message_counts_retrieved_memories :
  match (Main.send_message W settings db now current_user message).2 with
  | Ok response =>
      exists n,
        cr_context_used response !! "memories_count" = Some (MInt n)
        /\ mr_message_metadata (cr_assistant_message response) !! "memories_used"
           = Some (MInt n)
        /\ 0 <= n <= 10
        /\ n = Z.of_nat
                 (length (MemoryService.relevant_rows
                            (MessageService.create_message
                               W started now (User.id current_user) "user" message 0 None).1
                            (User.id current_user) 10))
  | Raise _ => True
  end
  /\ forall retrieved, (length (LLMService.memory_parts retrieved) <= 6)%nat.
Proof.
  split; [|exact memory_parts_at_most].
  unfold Main.send_message.
  destruct (ChatService.process_message W settings started now current_user message)
    as [db2 outcome] eqn:Hturn.
  apply process_message_outcome in Hturn as (_ & Hhistory & _).
  destruct outcome as [[user_msg assistant_msg]|e]; [|exact I].
  destruct Hhistory as (_ & _ & _ & n & Hn & Hten & Hread).
  exists n. simpl. rewrite Hn. simpl.
  split; [apply lookup_insert_eq|]. auto.
Qed.

End SendMessage.

(** Scenario E: the provider is unreachable.  The caller gets HTTP 500,
    the indicator is at false and the history holds the user turn alone. *)
Example send_message_provider_down :
  let result := Main.send_message fallback_world default_settings empty_db 200 sample_user
                                  "I have a fever" in
  result.2 = Raise (HTTPException 500 "Error processing message: provider unavailable")
  /\ is_typing result.1 7 = false
  /\ map Message.role (messages result.1) = ["user"].
Proof. vm_compute. auto. Qed.

(** C8 fails as stated: a user with six Facts gets a turn whose metadata
    and context summary record six memories. *)
Lemma send_message_reports_six_memories :
  exists db' response,
    Main.send_message fallback_world demo_settings six_facts_db 200 sample_user "hi"
    = (db', Ok response)
    /\ cr_context_used response !! "memories_count" = Some (MInt 6)
    /\ mr_message_metadata (cr_assistant_message response) !! "memories_used"
       = Some (MInt 6)
    /\ ~ (6 <= 5).
Proof.
  eexists _, _. split; [vm_compute; reflexivity|].
  split; [vm_compute; reflexivity|]. split; [vm_compute; reflexivity | lia].
Qed.

(** ** The theorems at sample inputs *)

(** Scenario B of the specification on the seeded table.  The message
    holds the keywords of two protocols but no trigger phrase of either,
    so nothing is returned; with the phrases present both are, the one of
    higher priority first. *)
Example match_protocols_on_seeded_table :
  ProtocolService.match_protocols seeded_db "I have a fever and headache" sample_profile = []
  /\ map LLMService.pd_name
         (ProtocolService.match_protocols seeded_db "I have fever and I have a headache"
                                          sample_profile)
     = ["Fever Management"; "Headache"]
  /\ map LLMService.pd_priority
         (ProtocolService.match_protocols
            seeded_db "Severe chest pain, I have fever and stomach pain and I have a headache"
            sample_profile)
     = [10; 8; 7].
Proof. vm_compute. auto. Qed.

(** The headache protocol is stored, active and admitted by the rule, so
    the theorem places its summary among those returned. *)
Lemma match_protocols_top_three_by_rule_witness :
  let returned :=
    ProtocolService.match_protocols seeded_db "I have fever and I have a headache"
                                    sample_profile in
  (length returned <= 3)%nat
  /\ StronglySorted (Sql.desc_by LLMService.pd_priority) returned
  /\ (ProtocolService.summary headache_protocol ∈ returned \/ length returned = 3%nat).
Proof.
  intros returned.
  pose proof (match_protocols_top_three_by_rule
                seeded_db "I have fever and I have a headache" sample_profile)
    as (Hlen & Hsorted & _ & Hcomplete & _).
  fold returned in Hlen, Hsorted, Hcomplete.
  split; [exact Hlen|]. split; [exact Hsorted|].
  rewrite Forall_forall in Hcomplete.
  apply (Hcomplete headache_protocol).
  - vm_compute. do 2 right. left.
  - reflexivity.
  - apply matches_spec. vm_compute. reflexivity.
Defined.

(** The three highest-ranked Facts of user 7 out of six. *)
Lemma get_relevant_memories_ranked_and_touched_witness :
  let result := MemoryService.get_relevant_memories six_facts_db 200 7 3 in
  map LLMService.md_key result.2 = ["sleep"; "diet"; "exercise"]
  /\ (length result.2 <= 3)%nat
  /\ Forall (fun m => Memory.id m ∈ [1; 2; 3] -> Memory.last_accessed_at m = 200)
            (memories result.1)
  /\ map Memory.last_accessed_at (memories result.1) = [200; 200; 200; 100; 100; 100].
Proof.
  intros result.
  pose proof (get_relevant_memories_ranked_and_touched six_facts_db 200 7 3)
    as (_ & Hlen & _ & _ & _ & Htouched).
  split; [reflexivity|]. split; [exact Hlen|]. split; [exact Htouched | reflexivity].
Defined.

(** Paging through the three turns of user 7 two at a time, and the
    refusal of a limit of zero. *)
Example get_messages_two_pages :
  (exists page,
      Main.get_messages four_messages_db sample_user 2 None = Ok page
      /\ map mr_id (mlr_messages page) = [4; 3]
      /\ mlr_has_more page = true
      /\ mlr_next_cursor page = Some 3
      /\ mlr_total page = 3)
  /\ (exists page,
         Main.get_messages four_messages_db sample_user 2 (Some 3) = Ok page
         /\ map mr_id (mlr_messages page) = [1]
         /\ mlr_has_more page = false
         /\ mlr_next_cursor page = None)
  /\ Main.get_messages four_messages_db sample_user 0 None
     = Raise (HTTPException 400 "Limit must be between 1 and 100").
Proof.
  split; [|split; [|reflexivity]].
  - eexists. split; [reflexivity|]. repeat split; reflexivity.
  - eexists. split; [reflexivity|]. repeat split; reflexivity.
Qed.

(** The second page: the theorem bounds the identities by the cursor. *)
Lemma get_messages_page_witness :
  exists page,
    Main.get_messages four_messages_db sample_user 2 (Some 3) = Ok page
    /\ Forall (fun r => mr_id r < 3) (mlr_messages page)
    /\ mlr_next_cursor page = None.
Proof.
  pose proof (get_messages_page four_messages_db sample_user 2 (Some 3)) as T.
  destruct (Main.get_messages four_messages_db sample_user 2 (Some 3)) as [page|e] eqn:E.
  - destruct T as (_ & batch & rest & _ & _ & Hpage & _ & Hrows & _ & _ & Hcursor & _).
    apply Forall_app in Hrows as [Hbatch _].
    exists page. split; [reflexivity|]. split.
    + rewrite Hpage. apply Forall_fmap. apply (Forall_impl _ _ _ Hbatch).
      intros m (_ & _ & Hbelow). apply (Hbelow 3); [reflexivity | discriminate].
    + rewrite Hcursor. vm_compute in E. injection E as <-. reflexivity.
  - exfalso. destruct T as [_ Hrange]. lia.
Defined.

(** The degraded result on the long message: the role is kept and the
    content is the first 436 characters followed by the ellipsis. *)
Example truncate_context_degraded_shape :
  exists m,
    LLMService.truncate_context fallback_world tight_settings long_history coach_prompt None
    = Ok [m]
    /\ role m = "user"
    /\ content m
       = Py.take_chars 436 (Py.repeat_str "I have had a fever and a headache since Monday. " 10)
         +:+ "..."
    /\ Py.len (content m) = 439%nat.
Proof. eexists. split; [vm_compute; reflexivity|]. vm_compute. auto. Qed.

(** The one input on which nothing is returned: the limits leave a
    negative allowance and the newest message counts zero tokens. *)
Example truncate_context_divides_by_zero :
  LLMService.truncate_context
    fallback_world
    {| LLM_PROVIDER := Demo; MAX_CONTEXT_TOKENS := 100; MAX_RESPONSE_TOKENS := 100 |}
    [ {| role := "user"; content := "Hi" |} ] coach_prompt None
  = Raise ZeroDivisionError.
Proof. reflexivity. Qed.

(** An upsert for user 7 on a store that also holds a Fact of user 8 under
    the same category and key: that Fact is left as it was. *)
Example create_memory_leaves_other_user :
  let other :=
    {| Memory.id := 2; Memory.user_id := 8; Memory.category := "lifestyle";
       Memory.key := "sleep"; Memory.value := "8 hours"; Memory.importance := 1;
       Memory.last_accessed_at := 50; Memory.created_at := 50 |} in
  let db := set_memories one_fact_db (memories one_fact_db ++ [other]) in
  let db' := (MemoryService.create_memory db 200 7 "lifestyle" "sleep" "7 hours" 3).1 in
  facts_besides db' 7 "lifestyle" "sleep" = [other]
  /\ map Memory.value (memories db') = ["7 hours"; "8 hours"]
  /\ map Memory.last_accessed_at (memories db') = [200; 50].
Proof. vm_compute. auto. Qed.

(** * Further properties of the services *)

(** ** Primary keys *)

Lemma next_id_above (ids : list Z) : 1 <= Sql.next_id ids /\ Forall (fun i => i < Sql.next_id ids) ids.
Proof.
  unfold Sql.next_id. induction ids as [|i ids [IH1 IH2]]; simpl.
  - split; [lia | constructor].
  - split; [lia|]. constructor; [lia|].
    apply (Forall_impl _ _ _ IH2). intros j Hj. lia.
Qed.

Lemma next_id_fresh (ids : list Z) : Sql.next_id ids ∉ ids.
Proof.
  intros Hin. destruct (next_id_above ids) as [_ Hall].
  rewrite Forall_forall in Hall. specialize (Hall _ Hin). lia.
Qed.

Lemma NoDup_snoc_fresh (ids : list Z) : NoDup ids -> NoDup (ids ++ [Sql.next_id ids]).
Proof.
  intros Hnd. apply NoDup_app. split; [exact Hnd|]. split.
  - intros i Hi Hnew. apply list_elem_of_singleton in Hnew as ->.
    exact (next_id_fresh ids Hi).
  - apply NoDup_singleton.
Qed.

(** ** Lookups that an update does not concern *)

Section FirstOfOthers.
Context {A : Type} (p q : A -> bool).

Lemma first_update_first_other (f : A -> A) (rows : list A) :
  (forall x, q x = true -> p x = false /\ p (f x) = false) ->
  Sql.first p (Sql.update_first q f rows) = Sql.first p rows.
Proof.
  intros Hother. unfold Sql.first. induction rows as [|r rows IH]; [reflexivity|].
  simpl. destruct (q r) eqn:Hq.
  - destruct (Hother r Hq) as [H1 H2]. simpl. rewrite H1, H2. reflexivity.
  - simpl. destruct (p r); [reflexivity | exact IH].
Qed.

Lemma first_snoc_other (x : A) (rows : list A) :
  p x = false -> Sql.first p (rows ++ [x]) = Sql.first p rows.
Proof.
  intros Hx. unfold Sql.first. induction rows as [|r rows IH]; simpl.
  - rewrite Hx. reflexivity.
  - destruct (p r); [reflexivity | exact IH].
Qed.

Lemma length_update_first (f : A -> A) (rows : list A) :
  length (Sql.update_first q f rows) = length rows.
Proof.
  induction rows as [|r rows IH]; [reflexivity|].
  simpl. destruct (q r); simpl; congruence.
Qed.

Lemma first_Some_holds (rows : list A) (x : A) :
  Sql.first p rows = Some x -> x ∈ rows /\ p x = true.
Proof.
  unfold Sql.first. intros H. apply find_some in H as [Hin Hp].
  split; [apply list_elem_of_In, Hin | exact Hp].
Qed.

Lemma first_None_none (rows : list A) :
  Sql.first p rows = None -> Forall (fun x => p x = false) rows.
Proof.
  unfold Sql.first. intros H. apply Forall_forall. intros x Hx.
  apply (find_none _ _ H). apply list_elem_of_In, Hx.
Qed.

End FirstOfOthers.

(** ** The typing indicator as a per-user register *)

(** X1.  After [update_typing_status] for a user, [get_typing_status] of
    that user reads the flag written and the time of the write; the status
    of every other user reads as before; the user has at least one row and
    no more rows than before, so the update never adds a second row; and
    the other tables are untouched. *)
Theorem typing_status_read_after_write
        (db : DB) (now user_id : Z) (flag : bool) (other : Z) :
  let db' := TypingService.update_typing_status db now user_id flag in
  TypingService.get_typing_status db' user_id = (flag, Some now)
  /\ (other <> user_id ->
      TypingService.get_typing_status db' other = TypingService.get_typing_status db other)
  /\ length (typing_rows db' user_id) = Nat.max 1 (length (typing_rows db user_id))
  /\ messages db' = messages db /\ memories db' = memories db /\ protocols db' = protocols db.
Proof.
  intros db'. subst db'.
  unfold TypingService.get_typing_status, TypingService.update_typing_status, typing_rows.
  pose proof (first_head_filter _ _ (mine_spec user_id) (typing_indicators db)) as Hhead.
  destruct (Sql.first _ (typing_indicators db)) as [i|] eqn:Hfirst; simpl.
  - split; [rewrite (first_update_first _ _ (mine_spec user_id)), Hfirst by auto; reflexivity|].
    split.
    + intros Hne. rewrite first_update_first_other; [reflexivity|].
      intros x Hx. apply Z.eqb_eq in Hx. simpl. rewrite Hx. split; apply Z.eqb_neq; congruence.
    + split; [|auto].
      rewrite (filter_update_first _ _ (mine_spec user_id)) by auto.
      destruct (filter _ (typing_indicators db)) as [|x rest]; [discriminate | simpl; lia].
  - split; [rewrite (first_snoc_new _ _ (mine_spec user_id)) by auto; reflexivity|].
    split.
    + intros Hne. rewrite first_snoc_other; [reflexivity|].
      simpl. apply Z.eqb_neq. congruence.
    + split; [|auto].
      rewrite filter_app, filter_cons, decide_True by reflexivity.
      destruct (filter _ (typing_indicators db)) as [|x rest]; [reflexivity | discriminate].
Qed.

(** Two users: writing for user 7 leaves the status of user 8. *)
Lemma typing_status_read_after_write_witness :
  let db := TypingService.update_typing_status empty_db 100 8 true in
  let db' := TypingService.update_typing_status db 200 7 false in
  TypingService.get_typing_status db' 7 = (false, Some 200)
  /\ TypingService.get_typing_status db' 8 = (true, Some 100).
Proof.
  intros db db'.
  pose proof (typing_status_read_after_write db 200 7 false 8) as (Hmine & Hother & _).
  split; [exact Hmine|]. subst db'. rewrite Hother; [reflexivity | discriminate].
Defined.

(** ** Storing a message *)

(** X2.  [create_message] appends exactly the returned row to the history
    and touches no other table; the row carries the arguments and the
    clock reading, its token count is the given one or, for 0, the count
    of the content; its identity is positive and above every stored
    identity, so distinct identities stay distinct. *)
Theorem create_message_appends_fresh_row
        (W : World) (db : DB) (now user_id : Z) (role_ content_ : string)
        (token_count : Z) (message_metadata : option (gmap string MetaValue)) :
  let stored :=
    MessageService.create_message W db now user_id role_ content_ token_count
                                  message_metadata in
  messages stored.1 = messages db ++ [stored.2]
  /\ memories stored.1 = memories db
  /\ protocols stored.1 = protocols db
  /\ typing_indicators stored.1 = typing_indicators db
  /\ Message.user_id stored.2 = user_id
  /\ Message.role stored.2 = role_
  /\ Message.content stored.2 = content_
  /\ Message.created_at stored.2 = now
  /\ Message.message_metadata stored.2 = default ∅ message_metadata
  /\ (token_count <> 0 -> Message.token_count stored.2 = token_count)
  /\ (token_count = 0 -> Message.token_count stored.2 = LLMService.count_tokens W content_)
  /\ 1 <= Message.id stored.2
  /\ Forall (fun m => Message.id m < Message.id stored.2) (messages db)
  /\ (NoDup (map Message.id (messages db)) -> NoDup (map Message.id (messages stored.1))).
Proof.
  intros stored. subst stored. unfold MessageService.create_message. simpl.
  destruct (next_id_above (map Message.id (messages db))) as [Hpos Habove].
  repeat split; try reflexivity; try assumption.
  - intros Hnz. destruct (Z.eqb_spec token_count 0); [contradiction | reflexivity].
  - intros ->. reflexivity.
  - apply Forall_fmap in Habove. exact Habove.
  - intros Hnd. rewrite map_app. simpl. apply NoDup_snoc_fresh, Hnd.
Qed.

(** A second message on the one-message history gets identity 2. *)
Lemma create_message_appends_fresh_row_witness :
  let stored :=
    MessageService.create_message fallback_world one_message_db 200 7 "user"
                                  "I have a headache" 0 None in
  Message.id stored.2 = 2
  /\ Message.token_count stored.2 = 4
  /\ NoDup (map Message.id (messages stored.1)).
Proof.
  intros stored.
  pose proof (create_message_appends_fresh_row fallback_world one_message_db 200 7 "user"
                "I have a headache" 0 None) as T.
  cbv zeta in T. fold stored in T.
  destruct T as (_ & _ & _ & _ & _ & _ & _ & _ & _ & _ & Hcount & _ & _ & Hnd).
  split; [reflexivity|]. split; [rewrite Hcount; reflexivity|].
  apply Hnd. simpl. apply NoDup_singleton.
Defined.

(** ** The recent history *)

Lemma StronglySorted_rev {A : Type} (R : relation A) (l : list A) :
  StronglySorted R l -> StronglySorted (flip R) (rev l).
Proof.
  induction 1 as [|x l Hs IH Hall]; simpl; [constructor|].
  apply StronglySorted_app_2.
  - intros a b Ha Hb. apply list_elem_of_singleton in Hb as ->.
    rewrite Forall_forall in Hall. apply Hall.
    apply list_elem_of_In, in_rev, list_elem_of_In, Ha.
  - exact IH.
  - repeat constructor.
Qed.

Lemma elem_of_rev {A : Type} (l : list A) (x : A) : x ∈ rev l <-> x ∈ l.
Proof. rewrite !list_elem_of_In. symmetry. apply in_rev. Qed.

(** X3.  [get_recent_messages] with a limit of [n] rows returns, as
    role and content, [min n k] of the user's [k] stored turns, oldest
    first by [created_at]; the turns it leaves out are all created no later
    than each turn it returns. *)
Theorem get_recent_messages_newest_in_order (db : DB) (user_id : Z) (n : nat) :
  exists rows older,
    MessageService.get_recent_messages db user_id (Z.of_nat n) = map as_llm_message rows
    /\ rows ++ older ≡ₚ turns_of db user_id
    /\ length rows = Nat.min n (length (turns_of db user_id))
    /\ StronglySorted created_no_later rows
    /\ Forall (fun o => Forall (fun r => created_no_later o r) rows) older.
Proof.
  set (sorted := Sql.order_by_desc Message.created_at (turns_of db user_id)).
  assert (sorted ≡ₚ turns_of db user_id) as Hperm by apply merge_sort_Permutation.
  assert (StronglySorted (Sql.desc_by Message.created_at) sorted) as Hsorted
    by apply order_by_desc_sorted.
  exists (rev (take n sorted)), (drop n sorted).
  split; [|split; [|split; [|split]]].
  - unfold MessageService.get_recent_messages. fold (turns_of db user_id). fold sorted.
    rewrite limit_of_nat. reflexivity.
  - etransitivity; [|exact Hperm].
    rewrite <- (take_drop n sorted) at 3.
    apply Permutation_app_tail. symmetry. apply Permutation_rev.
  - rewrite length_rev, length_take, (Permutation_length Hperm). reflexivity.
  - apply (StronglySorted_rev (Sql.desc_by Message.created_at)).
    apply StronglySorted_take, Hsorted.
  - rewrite <- (take_drop n sorted) in Hsorted.
    apply Forall_forall. intros o Ho. apply Forall_forall. intros r Hr.
    rewrite elem_of_rev in Hr.
    exact (StronglySorted_app_1_elem_of _ _ _ _ _ Hsorted Hr Ho).
Qed.

Lemma sorted_head_is_latest (rows sorted : list Message.t) (newest : Message.t) :
  sorted ≡ₚ rows ++ [newest] ->
  StronglySorted (Sql.desc_by Message.created_at) sorted ->
  Forall (fun m => Message.created_at m < Message.created_at newest) rows ->
  head sorted = Some newest.
Proof.
  intros Hperm Hsorted Hlater.
  destruct sorted as [|h rest].
  - apply Permutation_nil in Hperm. destruct rows; discriminate.
  - simpl. f_equal.
    assert (h ∈ rows ++ [newest]) as Hh by (rewrite <- Hperm; left).
    apply elem_of_app in Hh as [Hold|Hnew]; [|apply list_elem_of_singleton in Hnew; exact Hnew].
    exfalso.
    assert (newest ∈ h :: rest) as Hin
      by (rewrite Hperm; apply elem_of_app; right; left).
    apply StronglySorted_inv in Hsorted as [_ Hall].
    rewrite Forall_forall in Hall, Hlater. specialize (Hlater h Hold).
    apply elem_of_cons in Hin as [->|Hin]; [lia|].
    specialize (Hall newest Hin). unfold Sql.desc_by in Hall. lia.
Qed.

(** X4.  A message stored under a clock reading later than that of every
    stored turn of the user is the last element of the recent history
    read afterwards, for every limit of at least one row. *)
Theorem stored_message_is_last_of_recent_history
        (W : World) (db : DB) (now user_id : Z) (role_ content_ : string)
        (token_count : Z) (message_metadata : option (gmap string MetaValue)) (n : nat) :
  Forall (fun m => Message.created_at m < now) (turns_of db user_id) ->
  (1 <= n)%nat ->
  let stored :=
    MessageService.create_message W db now user_id role_ content_ token_count
                                  message_metadata in
  last (MessageService.get_recent_messages stored.1 user_id (Z.of_nat n))
  = Some {| role := role_; content := content_ |}.
Proof.
  intros Hlater Hn stored.
  unfold MessageService.get_recent_messages. rewrite limit_of_nat.
  fold (turns_of stored.1 user_id).
  set (sorted := Sql.order_by_desc Message.created_at (turns_of stored.1 user_id)).
  assert (turns_of stored.1 user_id = turns_of db user_id ++ [stored.2]) as Hturns.
  { subst stored. unfold turns_of, MessageService.create_message. simpl.
    rewrite List.filter_app. simpl. rewrite Z.eqb_refl. reflexivity. }
  assert (head sorted = Some stored.2) as Hhead.
  { apply (sorted_head_is_latest (turns_of db user_id)).
    - subst sorted. rewrite <- Hturns. apply merge_sort_Permutation.
    - apply order_by_desc_sorted.
    - exact Hlater. }
  destruct sorted as [|h rest]; [discriminate|]. injection Hhead as ->.
  destruct n as [|n]; [lia|]. simpl.
  rewrite map_app. simpl. rewrite last_snoc. reflexivity.
Qed.

(** On the history of four turns, a turn stored at 200 closes the history
    read with the limit of the orchestrator. *)
Lemma stored_message_is_last_of_recent_history_witness :
  last (MessageService.get_recent_messages
          (MessageService.create_message fallback_world four_messages_db 200 7 "user"
                                         "It is worse today" 0 None).1
          7 20)
  = Some {| role := "user"; content := "It is worse today" |}.
Proof.
  apply (stored_message_is_last_of_recent_history
           fallback_world four_messages_db 200 7 "user" "It is worse today" 0 None 20).
  - repeat constructor.
  - lia.
Defined.

(** ** Reading memories changes access times only *)

Lemma same_id_same_row {A : Type} (f : A -> Z) (l : list A) (x y : A) :
  NoDup (map f l) -> x ∈ l -> y ∈ l -> f x = f y -> x = y.
Proof.
  induction l as [|a l IH]; intros Hnd Hx Hy Hf; [inversion Hx|].
  simpl in Hnd. apply NoDup_cons in Hnd as [Ha Hnd].
  apply elem_of_cons in Hx as [->|Hx]; apply elem_of_cons in Hy as [->|Hy].
  - reflexivity.
  - exfalso. apply Ha. rewrite Hf. apply list_elem_of_fmap. exists y. auto.
  - exfalso. apply Ha. rewrite <- Hf. apply list_elem_of_fmap. exists x. auto.
  - apply IH; assumption.
Qed.

Lemma relevant_rows_of_user (db : DB) (user_id limit : Z) (r : Memory.t) :
  r ∈ MemoryService.relevant_rows db user_id limit ->
  r ∈ memories db /\ Memory.user_id r = user_id.
Proof.
  unfold MemoryService.relevant_rows. intros Hr.
  apply (fun H => elem_of_sublist _ _ _ H (limit_sublist _ _)) in Hr.
  rewrite merge_sort_Permutation in Hr.
  apply bool_filter_elem_of in Hr as [Hin Hu]. split; [exact Hin | lia].
Qed.

Lemma touch_record (now : Z) (m : Memory.t) :
  fact_record (MemoryService.touch now m) = fact_record m.
Proof. reflexivity. Qed.

(** X5.  [get_relevant_memories] changes nothing but access times: the
    table keeps its rows in order with identity, owner, category, key,
    value, importance and creation time as they were, and the other tables
    are untouched.  Where the identities of the stored Facts are distinct,
    the Facts of every other user are left exactly as they were. *)
Theorem get_relevant_memories_moves_access_times_only
        (db : DB) (now user_id limit : Z) :
  let db' := (MemoryService.get_relevant_memories db now user_id limit).1 in
  map fact_record (memories db') = map fact_record (memories db)
  /\ messages db' = messages db
  /\ protocols db' = protocols db
  /\ typing_indicators db' = typing_indicators db
  /\ (NoDup (map Memory.id (memories db)) ->
      facts_of_others db' user_id = facts_of_others db user_id).
Proof.
  intros db'. subst db'. unfold MemoryService.get_relevant_memories. simpl.
  set (rows := MemoryService.relevant_rows db user_id limit).
  split; [|repeat split].
  - rewrite map_map. apply map_ext. intros m.
    destruct (bool_decide _); [apply touch_record | reflexivity].
  - intros Hnd. unfold facts_of_others. simpl.
    assert (forall m, m ∈ memories db -> Memory.user_id m <> user_id ->
                      Memory.id m ∉ map Memory.id rows) as Hout.
    { intros m Hm Hu Hid. apply list_elem_of_fmap in Hid as (r & Hid & Hr).
      apply relevant_rows_of_user in Hr as [Hr Hru].
      apply Hu. rewrite (same_id_same_row Memory.id (memories db) m r Hnd Hm Hr Hid).
      exact Hru. }
    clear Hnd. induction (memories db) as [|m rest IH]; [reflexivity|].
    simpl. rewrite !filter_cons.
    assert (filter (fun m0 => Memory.user_id m0 <> user_id)
              (map (fun m0 => if bool_decide (Memory.id m0 ∈ map Memory.id rows)
                              then MemoryService.touch now m0 else m0) rest)
            = filter (fun m0 => Memory.user_id m0 <> user_id) rest) as IH'
      by (apply IH; intros m0 Hm0; apply Hout; right; exact Hm0).
    destruct (decide (Memory.user_id m <> user_id)) as [Hu|Hu].
    + rewrite bool_decide_eq_false_2 by (apply Hout; [left | exact Hu]).
      rewrite decide_True by exact Hu. rewrite IH'. reflexivity.
    + destruct (bool_decide _); simpl; rewrite decide_False by exact Hu; exact IH'.
Qed.

(** Reading for user 7 a store that also holds a Fact of user 8. *)
Lemma get_relevant_memories_moves_access_times_only_witness :
  let other8 :=
    {| Memory.id := 9; Memory.user_id := 8; Memory.category := "lifestyle";
       Memory.key := "sleep"; Memory.value := "8 hours"; Memory.importance := 5;
       Memory.last_accessed_at := 50; Memory.created_at := 50 |} in
  let db := set_memories six_facts_db (memories six_facts_db ++ [other8]) in
  facts_of_others (MemoryService.get_relevant_memories db 200 7 10).1 7 = [other8].
Proof.
  intros other8 db.
  pose proof (get_relevant_memories_moves_access_times_only db 200 7 10)
    as (_ & _ & _ & _ & Hothers).
  cbv zeta in Hothers. rewrite Hothers; [reflexivity|].
  vm_compute. repeat constructor; intros H; repeat (apply elem_of_cons in H as [H|H];
    [discriminate|]); inversion H.
Defined.

(** ** When a turn writes Facts *)

Lemma length_get_recent_messages (db : DB) (user_id : Z) (n : nat) :
  length (MessageService.get_recent_messages db user_id (Z.of_nat n))
  = Nat.min n (length (turns_of db user_id)).
Proof.
  unfold MessageService.get_recent_messages. fold (turns_of db user_id).
  rewrite length_map, length_rev, limit_of_nat, length_take.
  unfold Sql.order_by_desc.
  rewrite (Permutation_length (merge_sort_Permutation _ _)). reflexivity.
Qed.

Lemma create_memory_set_messages (db : DB) (rows : list Message.t) (now user_id : Z)
      (category key value : string) (importance : Z) :
  MemoryService.create_memory (set_messages db rows) now user_id category key value importance
  = (set_messages
       (MemoryService.create_memory db now user_id category key value importance).1 rows,
     (MemoryService.create_memory db now user_id category key value importance).2).
Proof.
  unfold MemoryService.create_memory. simpl.
  destruct (Sql.first _ (memories db)); reflexivity.
Qed.

Lemma store_memories_set_messages (items : list ExtractedItem) (db : DB)
      (rows : list Message.t) (now user_id : Z) :
  MemoryService.store_memories (set_messages db rows) now user_id items
  = set_messages (MemoryService.store_memories db now user_id items) rows.
Proof.
  revert db. induction items as [|item items IH]; intros db; [reflexivity|].
  destruct item as [|category key value importance]; [reflexivity|].
  simpl. rewrite create_memory_set_messages.
  destruct (MemoryService.create_memory db now user_id _ _ _ _) as [db1 m]. simpl.
  apply IH.
Qed.

Lemma extraction_due_spec (stored : nat) :
  extraction_due stored = true
  <-> (stored = 4 \/ stored = 9 \/ stored = 14 \/ 19 <= stored)%nat.
Proof.
  unfold extraction_due. destruct (le_lt_dec 19 stored) as [Hbig|Hsmall].
  - rewrite Nat.min_l by lia. split; [intros _; lia | reflexivity].
  - do 19 (destruct stored as [|stored];
           [split; [intros H; vm_compute in H; first [discriminate | lia]
                   | intros H; vm_compute; first [reflexivity | lia]]|]).
    lia.
Qed.

Section TurnMemories.
Context (W : World) (settings : Settings).
Context (db : DB) (now : Z) (user : User.t) (message_content : string).

Local Abbreviation read :=
  (MemoryService.get_relevant_memories
     (MessageService.create_message W db now (User.id user) "user" message_content 0 None).1
     now (User.id user) 10).1.

(** The memory table after a turn: that left by the read, with the
    extracted items stored on top when the turn succeeds and the history
    length is a multiple of five. *)
Lemma process_message_memories (db' : DB) (outcome : result (Message.t * Message.t)) :
  ChatService.process_message W settings db now user message_content = (db', outcome) ->
  match outcome with
  | Raise _ => memories db' = memories read
  | Ok (_, assistant_message) =>
      memories db'
      = if extraction_due (length (turns_of db (User.id user)))
        then memories
               (MemoryService.store_memories
                  read now (User.id user)
                  (LLMService.extract_memories
                     W settings
                     (exchange_text message_content (Message.content assistant_message))))
        else memories read
  end.
Proof.
  unfold ChatService.process_message.
  unfold MessageService.create_message, MemoryService.get_relevant_memories.
  cbn [fst snd]. cbv beta iota zeta.
  set (user_message := {| Message.id := Sql.next_id (map Message.id (messages db));
                          Message.user_id := User.id user |}).
  set (db1 := set_messages db (messages db ++ [user_message])).
  set (db2 := set_memories db1 _).
  assert (length (MessageService.get_recent_messages db2 (User.id user) 20)
          = Nat.min 20 (S (length (turns_of db (User.id user))))) as Hlen.
  { change (MessageService.get_recent_messages db2 (User.id user) 20)
      with (MessageService.get_recent_messages db2 (User.id user) (Z.of_nat 20)).
    rewrite (length_get_recent_messages db2 (User.id user) 20).
    unfold turns_of. subst db2 db1 user_message.
    cbn [messages set_memories set_messages].
    rewrite List.filter_app, length_app. cbn [List.filter Message.user_id].
    rewrite Z.eqb_refl. cbn [length]. f_equal. lia. }
  destruct (LLMService.generate_response W settings _ _) as [[response_content metadata]|e].
  - unfold extraction_due. rewrite <- Hlen.
    intros [= <- <-]. cbn [Message.content].
    destruct (_ =? 0)%nat; [|reflexivity].
    unfold MemoryService.extract_and_store_memories.
    rewrite store_memories_set_messages. reflexivity.
  - intros [= <- <-]. reflexivity.
Qed.

(** X6.  A turn writes Facts only when it succeeds with a history length
    that is a multiple of five.  The history read holds at most 20 turns,
    the new one included, so for a user with [k] stored turns that is the
    case exactly for [k] = 4, 9, 14 and for every [k] from 19 on.  The
    memory table is then the one left by [get_relevant_memories] with the
    items extracted from the exchange stored on top; in every other case
    it is the one left by [get_relevant_memories]. *)
Theorem process_message_extraction_cadence :
  let out := ChatService.process_message W settings db now user message_content in
  let stored := length (turns_of db (User.id user)) in
  (extraction_due stored = true
   <-> (stored = 4 \/ stored = 9 \/ stored = 14 \/ 19 <= stored)%nat)
  /\ match out.2 with
     | Raise _ => memories out.1 = memories read
     | Ok (_, assistant_message) =>
         memories out.1
         = if extraction_due stored
           then memories
                  (MemoryService.store_memories
                     read now (User.id user)
                     (LLMService.extract_memories
                        W settings
                        (exchange_text message_content (Message.content assistant_message))))
           else memories read
     end.
Proof.
  intros out stored. split; [apply extraction_due_spec|].
  subst out.
  destruct (ChatService.process_message W settings db now user message_content)
    as [db' outcome] eqn:Hturn.
  exact (process_message_memories db' outcome Hturn).
Qed.

Lemma read_keeps_records : map fact_record (memories read) = map fact_record (memories db).
Proof.
  unfold MemoryService.get_relevant_memories, MessageService.create_message. simpl.
  rewrite map_map. apply map_ext. intros m.
  destruct (bool_decide _); reflexivity.
Qed.

(** X7.  In demo mode, when the turn fails, or when the history length is
    not a multiple of five, a turn creates no Fact and overwrites none:
    the memory table keeps its rows with identity, owner, category, key,
    value, importance and creation time as they were. *)
Theorem turn_without_extraction_keeps_facts :
  let out := ChatService.process_message W settings db now user message_content in
  LLM_PROVIDER settings = Demo
  \/ extraction_due (length (turns_of db (User.id user))) = false
  \/ (exists e, out.2 = Raise e) ->
  map fact_record (memories out.1) = map fact_record (memories db).
Proof.
  intros out Hcase. subst out.
  destruct (ChatService.process_message W settings db now user message_content)
    as [db' outcome] eqn:Hturn.
  pose proof (process_message_memories db' outcome Hturn) as Hmem.
  simpl in *. rewrite <- read_keeps_records.
  destruct outcome as [[user_message assistant_message]|e]; [|rewrite Hmem; reflexivity].
  rewrite Hmem. destruct Hcase as [Hdemo|[Hdue|[e He]]]; [|rewrite Hdue; reflexivity|discriminate].
  destruct (extraction_due _); [|reflexivity].
  unfold LLMService.extract_memories. rewrite Hdemo. reflexivity.
Qed.

End TurnMemories.

(** A demo turn for the user with six Facts leaves their records. *)
Lemma turn_without_extraction_keeps_facts_witness :
  map fact_record
      (memories (ChatService.process_message fallback_world demo_settings six_facts_db 200
                                             sample_user "hi").1)
  = map fact_record (memories six_facts_db).
Proof.
  apply (turn_without_extraction_keeps_facts fallback_world demo_settings six_facts_db 200
           sample_user "hi").
  left. reflexivity.
Defined.

(** The fifth turn of a user on a provider whose extraction answers: the
    extracted Fact is stored. *)
Example fifth_turn_stores_extracted_fact :
  let db :=
    set_messages empty_db
      [user_turn 1 10 "Hi"; user_turn 2 11 "Hello"; user_turn 3 12 "I want to lose weight";
       user_turn 4 13 "Any advice?"] in
  map (fun m => (Memory.key m, Memory.value m))
      (memories (ChatService.process_message extracting_world default_settings db 200
                                             sample_user "Thanks").1)
  = [("primary_goal", "lose 5kg")].
Proof. vm_compute. reflexivity. Qed.

(** ** Seeding the protocol table *)

Section Seeding.

Local Abbreviation seed_step :=
  (fun (db : DB) (protocol_data : Protocol.t) =>
     match Sql.first (fun p => String.eqb (Protocol.name p) (Protocol.name protocol_data))
                     (protocols db) with
     | Some _ => db
     | None =>
         set_protocols db
           (protocols db
            ++ [ProtocolService.with_id (Sql.next_id (map Protocol.id (protocols db)))
                                        protocol_data])
     end).

Lemma named_row_found (rows : list Protocol.t) (name : string) :
  (exists p, p ∈ rows /\ Protocol.name p = name) ->
  exists p, Sql.first (fun p => String.eqb (Protocol.name p) name) rows = Some p.
Proof.
  intros (p & Hin & Hname).
  destruct (Sql.first _ rows) as [q|] eqn:Hfirst; [exists q; reflexivity|].
  apply first_None_none in Hfirst. rewrite Forall_forall in Hfirst.
  specialize (Hfirst p Hin). simpl in Hfirst.
  apply String.eqb_neq in Hfirst. contradiction.
Qed.

(** The rows added by a run over [defaults]: copies of default rows under
    new identities, after the rows already stored. *)
Lemma seed_fold_adds (defaults : list Protocol.t) (db : DB) :
  exists added,
    protocols (fold_left seed_step defaults db) = protocols db ++ added
    /\ Forall (fun p => exists protocol_data,
                   protocol_data ∈ defaults
                   /\ p = ProtocolService.with_id (Protocol.id p) protocol_data) added
    /\ messages (fold_left seed_step defaults db) = messages db
    /\ memories (fold_left seed_step defaults db) = memories db
    /\ typing_indicators (fold_left seed_step defaults db) = typing_indicators db.
Proof.
  revert db. induction defaults as [|pd defaults IH]; intros db.
  - exists []. simpl. rewrite app_nil_r. repeat split; constructor.
  - simpl. destruct (Sql.first _ (protocols db)) as [found|].
    + destruct (IH db) as (added & Hrows & Hall & Hrest). exists added.
      split; [exact Hrows|]. split; [|exact Hrest].
      apply (Forall_impl _ _ _ Hall). intros p (d & Hd & Hp). exists d. split; [right|]; auto.
    + destruct (IH (set_protocols db
                      (protocols db
                       ++ [ProtocolService.with_id
                             (Sql.next_id (map Protocol.id (protocols db))) pd])))
        as (added & Hrows & Hall & Hrest).
      eexists (_ :: added). split; [rewrite Hrows; simpl; rewrite <- app_assoc; reflexivity|].
      split; [|exact Hrest].
      constructor.
      * exists pd. split; [left | reflexivity].
      * apply (Forall_impl _ _ _ Hall). intros p (d & Hd & Hp). exists d.
        split; [right|]; auto.
Qed.

Lemma seed_fold_names (defaults : list Protocol.t) (db : DB) :
  Forall (fun protocol_data =>
            exists p, p ∈ protocols (fold_left seed_step defaults db)
                      /\ Protocol.name p = Protocol.name protocol_data)
         defaults.
Proof.
  revert db. induction defaults as [|pd defaults IH]; intros db; [constructor|].
  simpl. constructor; [|apply IH].
  match goal with
  | |- context [fold_left _ defaults ?start] =>
      destruct (seed_fold_adds defaults start) as (added & Hrows & _);
      assert (exists p, p ∈ protocols start /\ Protocol.name p = Protocol.name pd)
        as (p & Hin & Hname)
  end.
  { destruct (Sql.first _ (protocols db)) as [found|] eqn:Hfirst.
    - apply first_Some_holds in Hfirst as [Hin Hname]. exists found.
      split; [exact Hin | apply String.eqb_eq, Hname].
    - eexists. split; [simpl; apply elem_of_app; right; left | reflexivity]. }
  exists p. split; [|exact Hname]. rewrite Hrows. apply elem_of_app. left. exact Hin.
Qed.

Lemma seed_fold_nothing_to_add (defaults : list Protocol.t) (db : DB) :
  Forall (fun protocol_data =>
            exists p, p ∈ protocols db /\ Protocol.name p = Protocol.name protocol_data)
         defaults ->
  fold_left seed_step defaults db = db.
Proof.
  induction 1 as [|pd defaults Hpd Hall IH]; [reflexivity|].
  simpl. destruct (named_row_found _ _ Hpd) as [found ->]. exact IH.
Qed.

Lemma seed_fold_distinct_names (defaults : list Protocol.t) (db : DB) :
  NoDup (map Protocol.name (protocols db)) ->
  NoDup (map Protocol.name (protocols (fold_left seed_step defaults db))).
Proof.
  revert db. induction defaults as [|pd defaults IH]; intros db Hnd; [exact Hnd|].
  simpl. apply IH.
  destruct (Sql.first _ (protocols db)) as [found|] eqn:Hfirst; [exact Hnd|].
  simpl. rewrite map_app. simpl. apply NoDup_app. split; [exact Hnd|]. split.
  - intros name Hname Hnew. apply list_elem_of_singleton in Hnew as ->.
    apply list_elem_of_fmap in Hname as (p & Hp & Hin).
    apply first_None_none in Hfirst. rewrite Forall_forall in Hfirst.
    specialize (Hfirst p Hin). simpl in Hfirst. apply String.eqb_neq in Hfirst. congruence.
  - apply NoDup_singleton.
Qed.

(** X8.  [seed_default_protocols] keeps the stored protocols as they are
    and in place, and adds after them copies of default rows, active and
    under new identities; afterwards every default name is the name of a
    stored protocol; seeding again changes nothing; distinct names stay
    distinct; the other tables are untouched. *)
Theorem seed_default_protocols_adds_missing_once (db : DB) :
  let db' := ProtocolService.seed_default_protocols db in
  (exists added,
      protocols db' = protocols db ++ added
      /\ Forall (fun p =>
                   Protocol.is_active p = true
                   /\ exists protocol_data,
                        protocol_data ∈ ProtocolService.default_protocols
                        /\ p = ProtocolService.with_id (Protocol.id p) protocol_data)
                added)
  /\ Forall (fun protocol_data =>
               exists p, p ∈ protocols db' /\ Protocol.name p = Protocol.name protocol_data)
            ProtocolService.default_protocols
  /\ ProtocolService.seed_default_protocols db' = db'
  /\ (NoDup (map Protocol.name (protocols db)) -> NoDup (map Protocol.name (protocols db')))
  /\ messages db' = messages db
  /\ memories db' = memories db
  /\ typing_indicators db' = typing_indicators db.
Proof.
  intros db'. subst db'. unfold ProtocolService.seed_default_protocols.
  destruct (seed_fold_adds ProtocolService.default_protocols db)
    as (added & Hrows & Hall & Hm & Hf & Ht).
  split; [|split; [|split; [|split]]].
  - exists added. split; [exact Hrows|].
    apply (Forall_impl _ _ _ Hall). intros p (d & Hd & Hp). split; [|exists d; auto].
    rewrite Hp.
    assert (Forall (fun d => Protocol.is_active d = true) ProtocolService.default_protocols)
      as Hactive by (repeat constructor).
    rewrite Forall_forall in Hactive. exact (Hactive d Hd).
  - apply seed_fold_names.
  - apply seed_fold_nothing_to_add, seed_fold_names.
  - apply seed_fold_distinct_names.
  - auto.
Qed.

End Seeding.

(** Seeding a table that already holds a headache protocol of its own. *)
Lemma seed_default_protocols_adds_missing_once_witness :
  let own :=
    {| Protocol.id := 1; Protocol.name := "Headache"; Protocol.category := "symptom";
       Protocol.keywords := ["head"]; Protocol.trigger_phrases := None;
       Protocol.description := None; Protocol.response_template := "Rest.";
       Protocol.priority := 9; Protocol.is_active := false |} in
  let db' := ProtocolService.seed_default_protocols (set_protocols empty_db [own]) in
  NoDup (map Protocol.name (protocols db'))
  /\ map Protocol.name (protocols db')
     = ["Headache"; "Fever Management"; "Stomach Ache"; "Emergency Symptoms"; "Refund Policy"]
  /\ map Protocol.id (protocols db') = [1; 2; 3; 4; 5].
Proof.
  intros own db'.
  pose proof (seed_default_protocols_adds_missing_once (set_protocols empty_db [own]))
    as (_ & _ & _ & Hnames & _).
  split; [apply Hnames; simpl; apply NoDup_singleton|].
  split; reflexivity.
Defined.

(** ** The system prompt *)

Lemma append_assoc_str (a b c : string) : (a +:+ b) +:+ c = a +:+ (b +:+ c).
Proof.
  induction a as [|x a IH]; [reflexivity|].
  rewrite !append_cons, IH. reflexivity.
Qed.

Lemma append_empty_r (a : string) : a +:+ "" = a.
Proof. induction a as [|x a IH]; [reflexivity|]. rewrite append_cons, IH. reflexivity. Qed.

Lemma join_cons (sep p : string) (rest : list string) :
  rest <> [] -> Py.join sep (p :: rest) = p +:+ sep +:+ Py.join sep rest.
Proof. destruct rest; [congruence | reflexivity]. Qed.

Lemma join_occurs (sep part : string) (parts : list string) :
  part ∈ parts -> occurs_in part (Py.join sep parts).
Proof.
  induction parts as [|p parts IH]; intros Hin; [inversion Hin|].
  destruct parts as [|q parts].
  - apply list_elem_of_singleton in Hin as ->.
    exists "", "". simpl. symmetry. apply append_empty_r.
  - rewrite join_cons by discriminate.
    apply elem_of_cons in Hin as [->|Hin].
    + exists "", (sep +:+ Py.join sep (q :: parts)). reflexivity.
    + destruct (IH Hin) as (before & after & Hj).
      exists (p +:+ sep +:+ before), after.
      rewrite Hj, !append_assoc_str. reflexivity.
Qed.

Lemma memory_parts_first_five (retrieved : list LLMService.MemoryDict) :
  LLMService.memory_parts (take 5 retrieved) = LLMService.memory_parts retrieved.
Proof.
  unfold LLMService.memory_parts. change (Py.list_slice_to ?l 5) with (take 5 l).
  rewrite take_idemp. destruct retrieved; reflexivity.
Qed.

Lemma protocol_parts_first_three (matched : list LLMService.ProtocolDict) :
  LLMService.protocol_parts (take 3 matched) = LLMService.protocol_parts matched.
Proof.
  unfold LLMService.protocol_parts. change (Py.list_slice_to ?l 3) with (take 3 l).
  rewrite take_idemp. destruct matched; reflexivity.
Qed.

(** X9.  [create_system_prompt] reads at most the first five memories and
    the first three protocols it is given: the prompt built from longer
    lists is the prompt built from those.  During onboarding it is the
    fixed script, whatever the profile, memories and protocols. *)
Theorem create_system_prompt_caps
        (user_profile : LLMService.UserProfile) (retrieved : list LLMService.MemoryDict)
        (matched : list LLMService.ProtocolDict) (is_onboarding : bool) :
  LLMService.create_system_prompt user_profile retrieved matched is_onboarding
  = LLMService.create_system_prompt user_profile (take 5 retrieved) (take 3 matched)
                                    is_onboarding
  /\ LLMService.create_system_prompt user_profile retrieved matched true
     = LLMService.onboarding_prompt.
Proof.
  split; [|reflexivity].
  unfold LLMService.create_system_prompt. destruct is_onboarding; [reflexivity|].
  rewrite memory_parts_first_five, protocol_parts_first_three. reflexivity.
Qed.

(** X10.  Outside onboarding the system prompt holds, each as one of its
    lines, the line [- key: value] of each of the first five memories, the
    name and the whole response template of each of the first three
    protocols, and the guideline on medical emergencies. *)
Theorem create_system_prompt_contents
        (user_profile : LLMService.UserProfile) (retrieved : list LLMService.MemoryDict)
        (matched : list LLMService.ProtocolDict) :
  let prompt := LLMService.create_system_prompt user_profile retrieved matched false in
  Forall (fun memory =>
            occurs_in ("- " +:+ LLMService.md_key memory +:+ ": " +:+ LLMService.md_value memory)
                      prompt)
         (take 5 retrieved)
  /\ Forall (fun protocol =>
               occurs_in (Py.nl +:+ LLMService.pd_name protocol +:+ ":") prompt
               /\ occurs_in (LLMService.pd_response_template protocol) prompt)
            (take 3 matched)
  /\ occurs_in "- For medical emergencies, always advise immediate medical attention" prompt.
Proof.
  intros prompt. subst prompt. unfold LLMService.create_system_prompt.
  split; [|split].
  - apply Forall_forall. intros memory Hin. apply join_occurs.
    rewrite !elem_of_app. right. right. left.
    unfold LLMService.memory_parts. change (Py.list_slice_to ?l 5) with (take 5 l).
    destruct retrieved as [|m0 rest]; [inversion Hin|].
    right. apply list_elem_of_fmap. exists memory. auto.
  - apply Forall_forall. intros protocol Hin.
    assert (forall line,
               line ∈ [Py.nl +:+ LLMService.pd_name protocol +:+ ":";
                       LLMService.pd_response_template protocol] ->
               line ∈ LLMService.protocol_parts matched) as Hlines.
    { intros line Hline. unfold LLMService.protocol_parts.
      change (Py.list_slice_to ?l 3) with (take 3 l).
      destruct matched as [|p0 rest]; [inversion Hin|].
      right. apply list_elem_of_In, in_concat. eexists.
      split; [|apply list_elem_of_In; exact Hline].
      apply in_map_iff. exists protocol. split; [reflexivity|].
      apply list_elem_of_In, Hin. }
    split; apply join_occurs; rewrite !elem_of_app; right; right; right; left;
      apply Hlines; [left | right; left].
  - apply join_occurs. rewrite !elem_of_app. do 4 right.
    unfold LLMService.guideline_parts. right. left.
Qed.

(** ** The generation call *)

Lemma truncate_context_length (W : World) (settings : Settings)
      (messages_ : list LLMMessage) (system_prompt : string) (max_tokens : option Z)
      (kept : list LLMMessage) :
  LLMService.truncate_context W settings messages_ system_prompt max_tokens = Ok kept ->
  (length kept <= length messages_)%nat /\ (messages_ <> [] -> kept <> []).
Proof.
  unfold LLMService.truncate_context.
  set (available := LLMService.available_tokens W settings system_prompt max_tokens).
  pose proof (walk_suffix W available messages_) as Hsuf.
  destruct (LLMService.walk W available (rev messages_) [] 0) as [|m0 r0].
  - destruct (last messages_) as [last_msg|] eqn:Hlast.
    + destruct (LLMService.truncate_last W available last_msg); [|discriminate].
      intros [= <-]. split; [|discriminate].
      destruct messages_; [discriminate | simpl; lia].
    + intros [= <-]. apply last_None in Hlast. split; [simpl; lia | congruence].
  - intros [= <-]. split; [apply suffix_length, Hsuf | discriminate].
Qed.

Lemma truncate_context_suffix_shape_raise (W : World) (settings : Settings)
      (messages_ : list LLMMessage) (system_prompt : string) (max_tokens : option Z) :
  match LLMService.truncate_context W settings messages_ system_prompt max_tokens with
  | Ok _ => True
  | Raise e => e = ZeroDivisionError
  end.
Proof.
  unfold LLMService.truncate_context.
  destruct (LLMService.walk W _ (rev messages_) [] 0); [|exact I].
  destruct (last messages_) as [last_msg|]; [|exact I].
  unfold LLMService.truncate_last.
  destruct (_ <? _); [|exact I]. destruct (_ =? 0); [reflexivity | exact I].
Qed.

(** X11.  What [generate_response] returns and how it fails.  The
    metadata of a reply names the provider and the model, gives the number
    of messages received and the number kept by the truncation (no more
    than received, and at least one for a non-empty history) and the
    tokens used; in demo mode it is flagged as such and the tokens are the
    number of characters of the reply over four, otherwise the flag is
    absent and the tokens are those the provider reported.  A failure is the division by
    zero of the truncation or, outside demo mode, an error of the
    provider call. *)
Theorem generate_response_metadata
        (W : World) (settings : Settings) (messages_ : list LLMMessage)
        (system_prompt : string) :
  match LLMService.generate_response W settings messages_ system_prompt with
  | Ok (reply, metadata) =>
      metadata !! "provider" = Some (MStr (LLMService.provider_name (LLM_PROVIDER settings)))
      /\ metadata !! "model" = Some (MStr (LLMService.model_name (LLM_PROVIDER settings)))
      /\ metadata !! "total_messages" = Some (MInt (Z.of_nat (length messages_)))
      /\ (exists used : nat,
             metadata !! "messages_used" = Some (MInt (Z.of_nat used))
             /\ (used <= length messages_)%nat
             /\ (messages_ <> [] -> (1 <= used)%nat))
      /\ (exists tokens,
             metadata !! "tokens_used" = Some (MInt tokens)
             /\ match LLM_PROVIDER settings with
                | Demo =>
                    metadata !! "demo_mode" = Some (MBool true)
                    /\ tokens = Z.of_nat (Py.len reply) / 4
                | OpenAI | Anthropic =>
                    metadata !! "demo_mode" = None
                    /\ exists kept, chat_api W system_prompt kept = Ok (reply, tokens)
                end)
  | Raise e =>
      e = ZeroDivisionError
      \/ (LLM_PROVIDER settings <> Demo /\ exists kept, chat_api W system_prompt kept = Raise e)
  end.
Proof.
  unfold LLMService.generate_response.
  destruct (LLMService.truncate_context W settings messages_ system_prompt None)
    as [kept|e] eqn:Htrunc.
  - apply truncate_context_length in Htrunc as [Hlen Hne].
    assert (exists used : nat,
               Z.of_nat (length kept) = Z.of_nat used
               /\ (used <= length messages_)%nat
               /\ (messages_ <> [] -> (1 <= used)%nat)) as Hused.
    { exists (length kept). split; [reflexivity|]. split; [exact Hlen|].
      intros H. specialize (Hne H). destruct kept; [congruence | simpl; lia]. }
    destruct Hused as (used & Hused & Hle & Hone).
    destruct (LLM_PROVIDER settings) eqn:Hprov.
    + destruct (chat_api W system_prompt kept) as [[reply tokens]|e] eqn:Hchat.
      * repeat split; try (simplify_map_eq; reflexivity).
        -- exists used. rewrite <- Hused. split; [simplify_map_eq; reflexivity | auto].
        -- exists tokens. split; [simplify_map_eq; reflexivity|].
           split; [simplify_map_eq; reflexivity | exists kept; exact Hchat].
      * right. split; [discriminate | exists kept; exact Hchat].
    + destruct (chat_api W system_prompt kept) as [[reply tokens]|e] eqn:Hchat.
      * repeat split; try (simplify_map_eq; reflexivity).
        -- exists used. rewrite <- Hused. split; [simplify_map_eq; reflexivity | auto].
        -- exists tokens. split; [simplify_map_eq; reflexivity|].
           split; [simplify_map_eq; reflexivity | exists kept; exact Hchat].
      * right. split; [discriminate | exists kept; exact Hchat].
    + unfold LLMService.generate_demo_response.
      repeat split; try (simplify_map_eq; reflexivity).
      * exists used. rewrite <- Hused. split; [simplify_map_eq; reflexivity | auto].
      * eexists. split; [simplify_map_eq; reflexivity|].
        split; [simplify_map_eq; reflexivity | reflexivity].
  - left.
    pose proof (truncate_context_suffix_shape_raise W settings messages_ system_prompt None)
      as Hraise.
    rewrite Htrunc in Hraise. exact Hraise.
Qed.

(** The two greetings of demo mode: 67 and 137 characters, hence 16 and 34
    tokens. *)
Example demo_greetings_tokens_used :
  (exists reply metadata,
      LLMService.generate_response fallback_world demo_settings [] coach_prompt
      = Ok (reply, metadata)
      /\ Py.len reply = 67%nat
      /\ metadata !! "tokens_used" = Some (MInt 16))
  /\ (exists reply metadata,
         LLMService.generate_response fallback_world demo_settings
           [ {| role := "user"; content := "Hello" |} ] coach_prompt
         = Ok (reply, metadata)
         /\ Py.len reply = 137%nat
         /\ metadata !! "tokens_used" = Some (MInt 34)).
Proof.
  split; eexists _, _; (split; [reflexivity|]); split; vm_compute; reflexivity.
Qed.

(** ** Demo mode *)

(** X12.  In demo mode a chat request never reaches the provider: with
    any other provider calls and JSON parsing behind it, [send_message]
    returns the same response and leaves the same database. *)
Theorem demo_mode_never_calls_provider
        (W : World) (chat : string -> list LLMMessage -> result (string * Z))
        (extract : string -> result string)
        (loads : string -> option (list ExtractedItem))
        (settings : Settings) (db : DB) (now : Z) (current_user : User.t)
        (message : string) :
  LLM_PROVIDER settings = Demo ->
  Main.send_message (with_provider W chat extract loads) settings db now current_user message
  = Main.send_message W settings db now current_user message.
Proof.
  destruct settings as [provider max_context max_response]. simpl. intros ->.
  reflexivity.
Qed.

(** A demo turn against an unreachable provider and against one that
    answers: the same outcome. *)
Lemma demo_mode_never_calls_provider_witness :
  Main.send_message
    (with_provider fallback_world (chat_api extracting_world) (extract_api extracting_world)
                   (json_loads_list extracting_world))
    demo_settings six_facts_db 200 sample_user "I have a fever"
  = Main.send_message fallback_world demo_settings six_facts_db 200 sample_user
                      "I have a fever".
Proof.
  apply (demo_mode_never_calls_provider fallback_world). reflexivity.
Defined.

(** ** What the extraction path may change *)

Lemma create_memory_for_user_only (db : DB) (now user_id : Z) (category key value : string)
      (importance : Z) :
  let db' := (MemoryService.create_memory db now user_id category key value importance).1 in
  facts_of_others db' user_id = facts_of_others db user_id
  /\ map Memory.id (memories db) `prefix_of` map Memory.id (memories db')
  /\ (length (memories db') <= S (length (memories db)))%nat
  /\ protocols db' = protocols db.
Proof.
  intros db'. subst db'. unfold MemoryService.create_memory, facts_of_others.
  destruct (Sql.first _ (memories db)) as [existing|]; simpl.
  - split; [|split; [|split]].
    + apply (filter_update_first_besides _ _ (same_key_spec user_id category key)).
      intros x Hx. injection Hx as Hu _ _. simpl. split; intros Hne; apply Hne; exact Hu.
    + assert (map Memory.id (Sql.update_first (MemoryService.same_key user_id category key)
                               (MemoryService.overwrite value importance now) (memories db))
              = map Memory.id (memories db)) as ->; [|reflexivity].
      induction (memories db) as [|m rest IH]; [reflexivity|].
      simpl. destruct (MemoryService.same_key user_id category key m); simpl; congruence.
    + rewrite length_update_first. lia.
    + reflexivity.
  - split; [|split; [|split]].
    + rewrite filter_app, filter_cons, decide_False by (intros Hne; apply Hne; reflexivity).
      apply app_nil_r.
    + rewrite map_app. apply prefix_app_r. reflexivity.
    + rewrite length_app. simpl. lia.
    + reflexivity.
Qed.

Lemma store_memories_for_user_only (items : list ExtractedItem) (db : DB) (now user_id : Z) :
  let db' := MemoryService.store_memories db now user_id items in
  facts_of_others db' user_id = facts_of_others db user_id
  /\ map Memory.id (memories db) `prefix_of` map Memory.id (memories db')
  /\ (length (memories db') <= length (memories db) + length items)%nat
  /\ protocols db' = protocols db.
Proof.
  revert db. induction items as [|item items IH]; intros db.
  - simpl. repeat split; [reflexivity | lia].
  - destruct item as [|category key value importance].
    + simpl. repeat split; [reflexivity | lia].
    + simpl.
      pose proof (create_memory_for_user_only db now user_id
                    (default "general" category) (default "info" key)
                    (default "" value) (default 1 importance)) as (H1 & H2 & H3 & H4).
      destruct (MemoryService.create_memory db now user_id _ _ _ _) as [db1 m].
      simpl in H1, H2, H3, H4.
      destruct (IH db1) as (I1 & I2 & I3 & I4).
      split; [congruence|]. split; [etransitivity; eassumption|].
      split; [lia | congruence].
Qed.

(** X13.  [extract_and_store_memories] writes for its user only and
    never deletes: the Facts of every other user are exactly as they were,
    the identities stored before are all still stored, in place, the table
    grows by no more rows than the extraction returned items, and the
    histories, protocols and typing indicators are untouched. *)
Theorem extract_and_store_memories_frame
        (W : World) (settings : Settings) (db : DB) (now user_id : Z) (conversation : string) :
  let db' := MemoryService.extract_and_store_memories W settings db now user_id conversation in
  facts_of_others db' user_id = facts_of_others db user_id
  /\ map Memory.id (memories db) `prefix_of` map Memory.id (memories db')
  /\ (length (memories db')
      <= length (memories db) + length (LLMService.extract_memories W settings conversation))%nat
  /\ messages db' = messages db
  /\ protocols db' = protocols db
  /\ typing_indicators db' = typing_indicators db.
Proof.
  intros db'. subst db'. unfold MemoryService.extract_and_store_memories.
  destruct (store_memories_for_user_only
              (LLMService.extract_memories W settings conversation) db now user_id)
    as (H1 & H2 & H3 & H4).
  destruct (store_memories_frame
              (LLMService.extract_memories W settings conversation) db now user_id)
    as (H5 & H6).
  auto 10.
Qed.

(** ** Following the cursor *)

Lemma get_messages_batch (db : DB) (user_id limit : Z) (before_id : option Z) :
  1 <= limit ->
  let sorted := Sql.order_by_desc Message.created_at
                                  (MessageService.page_query db user_id before_id) in
  let page := MessageService.get_messages db user_id limit before_id in
  mlr_messages page = map model_validate (take (Z.to_nat limit) sorted)
  /\ (mlr_has_more page = true <-> (Z.to_nat limit < length sorted)%nat)
  /\ mlr_next_cursor page
     = if mlr_has_more page then Message.id <$> last (take (Z.to_nat limit) sorted) else None.
Proof.
  intros Hlimit sorted page. subst page. unfold MessageService.get_messages. fold sorted.
  cbn [mlr_messages mlr_has_more mlr_next_cursor].
  set (fetched := Sql.limit (limit + 1) sorted).
  assert (fetched = take (S (Z.to_nat limit)) sorted) as Hfetched.
  { subst fetched. unfold Sql.limit. destruct (Z.ltb_spec (limit + 1) 0); [lia|].
    replace (Z.to_nat (limit + 1)) with (S (Z.to_nat limit)) by lia. reflexivity. }
  assert (length fetched = (S (Z.to_nat limit) `min` length sorted)%nat) as Hlen
    by (rewrite Hfetched; apply length_take).
  destruct (Z.ltb_spec limit (Z.of_nat (length fetched))) as [Hmore|Hall].
  - assert (Py.list_slice_to fetched limit = take (Z.to_nat limit) sorted) as ->.
    { unfold Py.list_slice_to. destruct (Z.leb_spec 0 limit); [|lia].
      rewrite Hfetched, take_take. f_equal. lia. }
    split; [reflexivity|]. split; [split; [lia | reflexivity]|].
    destruct (last (take (Z.to_nat limit) sorted)); reflexivity.
  - assert (fetched = take (Z.to_nat limit) sorted) as ->.
    { rewrite Hfetched, !take_ge by lia. reflexivity. }
    split; [reflexivity|]. split; [split; [discriminate | lia]|].
    destruct (last (take (Z.to_nat limit) sorted)); reflexivity.
Qed.

Lemma bool_filter_Permutation {A : Type} (p : A -> bool) (l k : list A) :
  l ≡ₚ k -> List.filter p l ≡ₚ List.filter p k.
Proof.
  induction 1 as [|x l k _ IH|x y l|l k m _ IH1 _ IH2]; simpl.
  - reflexivity.
  - destruct (p x); [constructor|]; exact IH.
  - destruct (p x), (p y); try reflexivity. constructor.
  - etransitivity; eassumption.
Qed.

Lemma bool_filter_sublist {A : Type} (p : A -> bool) (l : list A) :
  List.filter p l `sublist_of` l.
Proof.
  induction l as [|x l IH]; simpl; [constructor|].
  destruct (p x); [apply sublist_skip | apply sublist_cons]; exact IH.
Qed.

Lemma bool_filter_all {A : Type} (p : A -> bool) (l : list A) :
  Forall (fun x => p x = true) l -> List.filter p l = l.
Proof. induction 1 as [|x l Hx _ IH]; simpl; [reflexivity|]. rewrite Hx, IH. reflexivity. Qed.

Lemma bool_filter_none {A : Type} (p : A -> bool) (l : list A) :
  Forall (fun x => p x = false) l -> List.filter p l = [].
Proof. induction 1 as [|x l Hx _ IH]; simpl; [reflexivity|]. rewrite Hx, IH. reflexivity. Qed.

Lemma bool_filter_filter_implied {A : Type} (p q : A -> bool) (l : list A) :
  (forall x, p x = true -> q x = true) ->
  List.filter p (List.filter q l) = List.filter p l.
Proof.
  intros Himp. induction l as [|x l IH]; simpl; [reflexivity|].
  destruct (q x) eqn:Hq; simpl.
  - rewrite IH. reflexivity.
  - destruct (p x) eqn:Hp; [|exact IH]. apply Himp in Hp. congruence.
Qed.

(** In a listing by strictly descending identity, the rows below the
    identity of a row are those after it. *)
Lemma rows_below_cursor (front back : list Message.t) (x : Message.t) :
  StronglySorted (Sql.desc_by Message.id) (front ++ x :: back) ->
  NoDup (map Message.id (front ++ x :: back)) ->
  List.filter (fun m => Message.id m <? Message.id x) (front ++ x :: back) = back.
Proof.
  intros Hsorted Hnd.
  apply StronglySorted_app in Hsorted as (Hcross & _ & Htail).
  apply StronglySorted_inv in Htail as [_ Hback].
  rewrite map_app in Hnd. simpl in Hnd.
  apply NoDup_app in Hnd as (_ & _ & Hnd). apply NoDup_cons in Hnd as [Hx _].
  rewrite List.filter_app. simpl. rewrite Z.ltb_irrefl.
  rewrite bool_filter_none, bool_filter_all; [reflexivity| |].
  - rewrite Forall_forall in *. intros b Hb. apply Z.ltb_lt.
    specialize (Hback b Hb). unfold Sql.desc_by in Hback.
    assert (Message.id b <> Message.id x); [|lia].
    intros Heq. apply Hx. rewrite <- Heq. apply list_elem_of_fmap. exists b. auto.
  - apply Forall_forall. intros a Ha. apply Z.ltb_ge.
    apply (Hcross a x Ha). left.
Qed.

Section CursorChain.
Context (db : DB) (current_user : User.t) (limit : Z) (before_id : option Z).

Local Abbreviation mine := (turns_of db (User.id current_user)).
Local Abbreviation listing :=
  (Sql.order_by_desc Message.created_at
     (MessageService.page_query db (User.id current_user) before_id)).

Hypothesis distinct_ids : NoDup (map Message.id mine).
Hypothesis no_zero_id : Forall (fun m => Message.id m <> 0) mine.
Hypothesis clock_agrees :
  forall a b, a ∈ mine -> b ∈ mine ->
              Message.created_at b <= Message.created_at a -> Message.id b <= Message.id a.

Lemma page_query_of_mine (cursor : option Z) :
  MessageService.page_query db (User.id current_user) cursor `sublist_of` mine.
Proof.
  unfold MessageService.page_query. fold mine.
  destruct cursor as [b|]; [|reflexivity].
  destruct (b =? 0); [reflexivity | apply bool_filter_sublist].
Qed.

Lemma listing_of_mine (m : Message.t) : m ∈ listing -> m ∈ mine.
Proof.
  intros Hm. apply order_by_desc_elem_of in Hm.
  exact (elem_of_sublist _ _ _ Hm (page_query_of_mine before_id)).
Qed.

Lemma listing_by_id : StronglySorted (Sql.desc_by Message.id) listing.
Proof.
  apply sorted_by_id_when_clock_agrees; [|apply order_by_desc_sorted].
  intros a b Ha Hb. apply clock_agrees; apply listing_of_mine; assumption.
Qed.

Lemma listing_distinct : NoDup (map Message.id listing).
Proof.
  unfold Sql.order_by_desc. rewrite merge_sort_Permutation.
  apply (sublist_NoDup _ (map Message.id mine)); [exact distinct_ids|].
  apply (fmap_sublist Message.id), page_query_of_mine.
Qed.

(** The query under the identity of a listed row as cursor lists what
    follows that row. *)
Lemma listing_after (front back : list Message.t) (x : Message.t) :
  listing = front ++ x :: back ->
  Sql.order_by_desc Message.created_at
    (MessageService.page_query db (User.id current_user) (Some (Message.id x)))
  = back.
Proof.
  intros Hsplit.
  assert (x ∈ mine) as Hx
    by (apply listing_of_mine; rewrite Hsplit; apply elem_of_app; right; left).
  assert (Message.id x <> 0) as Hnz
    by (pose proof no_zero_id as H; rewrite Forall_forall in H; exact (H x Hx)).
  pose proof listing_by_id as Hsorted. pose proof listing_distinct as Hnd.
  rewrite Hsplit in Hsorted, Hnd.
  pose proof (rows_below_cursor front back x Hsorted Hnd) as Hbelow.
  rewrite <- Hsplit in Hbelow.
  assert (MessageService.page_query db (User.id current_user) (Some (Message.id x))
          = List.filter (fun m => Message.id m <? Message.id x)
                        (MessageService.page_query db (User.id current_user) before_id))
    as Hquery.
  { unfold MessageService.page_query. fold mine.
    destruct (Z.eqb_spec (Message.id x) 0) as [|_]; [contradiction|].
    destruct before_id as [b|]; [|reflexivity].
    destruct (Z.eqb_spec b 0) as [_|Hb]; [reflexivity|].
    symmetry. apply bool_filter_filter_implied.
    intros m Hm. apply Z.ltb_lt in Hm. apply Z.ltb_lt.
    assert (x ∈ MessageService.page_query db (User.id current_user) (Some b)) as Hxq
      by (apply (order_by_desc_elem_of Message.created_at); rewrite Hsplit;
          apply elem_of_app; right; left).
    apply page_query_spec in Hxq as (_ & _ & Hlt). specialize (Hlt b eq_refl Hb). lia. }
  rewrite Hquery.
  apply (StronglySorted_unique_strong (Sql.desc_by Message.created_at)).
  - intros a b Ha Hb Hab Hba.
    assert (a ∈ mine) as Ha'.
    { apply order_by_desc_elem_of, bool_filter_elem_of in Ha as [Ha _].
      exact (elem_of_sublist _ _ _ Ha (page_query_of_mine before_id)). }
    assert (b ∈ mine) as Hb'
      by (apply listing_of_mine; rewrite Hsplit; apply elem_of_app; right; right; exact Hb).
    apply (same_id_same_row Message.id mine a b distinct_ids Ha' Hb').
    unfold Sql.desc_by in Hab, Hba.
    pose proof (clock_agrees a b Ha' Hb' Hab). pose proof (clock_agrees b a Hb' Ha' Hba). lia.
  - apply order_by_desc_sorted.
  - pose proof (order_by_desc_sorted Message.created_at
                  (MessageService.page_query db (User.id current_user) before_id)) as Hs.
    rewrite Hsplit in Hs. apply StronglySorted_app_1_r in Hs.
    apply StronglySorted_inv in Hs as [Hs _]. exact Hs.
  - unfold Sql.order_by_desc at 1. rewrite merge_sort_Permutation.
    rewrite <- Hbelow. apply bool_filter_Permutation.
    symmetry. apply merge_sort_Permutation.
Qed.

(** X14.  Where the stored turns of the user have distinct, non-zero
    identities that grow with [created_at], the page requested with the
    [next_cursor] of a page continues it: the two together are the leading
    part, twice the limit long, of the listing the first page began. *)
Theorem next_cursor_continues_listing (page : MessageListResponse) :
  Main.get_messages db current_user limit before_id = Ok page ->
  mlr_has_more page = true ->
  exists cursor next,
    mlr_next_cursor page = Some cursor
    /\ Main.get_messages db current_user limit (Some cursor) = Ok next
    /\ mlr_messages page ++ mlr_messages next
       = map model_validate (take (Z.to_nat limit + Z.to_nat limit) listing).
Proof.
  unfold Main.get_messages.
  destruct (Z.ltb_spec limit 1) as [|Hlow]; [discriminate|].
  destruct (Z.ltb_spec 100 limit) as [|Hhigh]; [discriminate|]. simpl.
  intros [= <-] Hmore.
  destruct (get_messages_batch db (User.id current_user) limit before_id Hlow)
    as (Hbatch & Hhas & Hcursor).
  cbv zeta in Hbatch, Hhas, Hcursor.
  rewrite Hmore in Hcursor. apply Hhas in Hmore.
  set (L := Z.to_nat limit) in *.
  assert (exists front x, take L listing = front ++ [x]) as (front & x & Htake).
  { destruct (take L listing) as [|h t] eqn:Ht using rev_ind.
    - apply (f_equal length) in Ht. rewrite length_take in Ht. simpl in Ht. lia.
    - eauto. }
  rewrite Htake, last_snoc in Hcursor. simpl in Hcursor.
  assert (listing = front ++ x :: drop L listing) as Hsplit.
  { rewrite <- (take_drop L listing) at 1. rewrite Htake, <- app_assoc. reflexivity. }
  exists (Message.id x), (MessageService.get_messages db (User.id current_user) limit
                                                       (Some (Message.id x))).
  split; [exact Hcursor|]. split; [reflexivity|].
  destruct (get_messages_batch db (User.id current_user) limit (Some (Message.id x)) Hlow)
    as (Hnext & _).
  cbv zeta in Hnext. rewrite Hbatch, Hnext, (listing_after front _ x Hsplit).
  fold L. rewrite <- map_app, take_take_drop. reflexivity.
Qed.

End CursorChain.

(** The three turns of user 7, two per page: the second page is the one
    the cursor of the first asks for, and the two list all three. *)
Lemma next_cursor_continues_listing_witness :
  exists page next,
    Main.get_messages four_messages_db sample_user 2 None = Ok page
    /\ mlr_next_cursor page = Some 3
    /\ Main.get_messages four_messages_db sample_user 2 (Some 3) = Ok next
    /\ map mr_id (mlr_messages page ++ mlr_messages next) = [4; 3; 1].
Proof.
  assert (NoDup (map Message.id (turns_of four_messages_db (User.id sample_user)))) as Hnd.
  { vm_compute. repeat constructor; intros H;
      repeat (apply elem_of_cons in H as [H|H]; [discriminate|]); inversion H. }
  assert (Forall (fun m => Message.id m <> 0)
                 (turns_of four_messages_db (User.id sample_user))) as Hnz
    by (repeat constructor; discriminate).
  assert (forall a b,
             a ∈ turns_of four_messages_db (User.id sample_user) ->
             b ∈ turns_of four_messages_db (User.id sample_user) ->
             Message.created_at b <= Message.created_at a -> Message.id b <= Message.id a)
    as Hclock.
  { intros a b Ha Hb. vm_compute in Ha, Hb.
    repeat (apply elem_of_cons in Ha as [->|Ha]); try (inversion Ha);
      repeat (apply elem_of_cons in Hb as [->|Hb]); try (inversion Hb);
      simpl; lia. }
  destruct (next_cursor_continues_listing four_messages_db sample_user 2 None Hnd Hnz Hclock
              (MessageService.get_messages four_messages_db (User.id sample_user) 2 None)
              eq_refl eq_refl)
    as (cursor & next & Hcursor & Hnext & Hboth).
  vm_compute in Hcursor. injection Hcursor as <-.
  eexists _, next. split; [reflexivity|]. split; [reflexivity|]. split; [exact Hnext|].
  rewrite Hboth. reflexivity.
Defined.

(** ** Users *)

Lemma username_spec (username : string) (u : User.t) :
  String.eqb (User.username u) username = true <-> User.username u = username.
Proof. apply String.eqb_eq. Qed.

(** X15.  [get_or_create_user] returns a stored user of the given name and
    keeps the stored users as they are, in place; asking again returns the
    same user and the same table; a user it has to create starts with an
    empty profile and onboarding open, under a new identity; distinct
    names and distinct identities stay distinct. *)
Theorem get_or_create_user_once (users : list User.t) (username : string) :
  let got := UserService.get_or_create_user users username in
  User.username got.2 = username
  /\ got.2 ∈ got.1
  /\ users `prefix_of` got.1
  /\ UserService.get_or_create_user got.1 username = got
  /\ (Forall (fun u => User.username u <> username) users ->
      got.1 = users ++ [got.2]
      /\ got.2 = UserService.new_user (User.id got.2) username
      /\ Forall (fun u => User.id u < User.id got.2) users)
  /\ (NoDup (map User.username users) -> NoDup (map User.username got.1))
  /\ (NoDup (map User.id users) -> NoDup (map User.id got.1)).
Proof.
  intros got. subst got. unfold UserService.get_or_create_user.
  destruct (Sql.first _ users) as [user|] eqn:Hfirst; simpl.
  - pose proof (first_Some_holds _ _ _ Hfirst) as [Hin Hname].
    apply String.eqb_eq in Hname.
    split; [exact Hname|]. split; [exact Hin|]. split; [reflexivity|].
    split; [rewrite Hfirst; reflexivity|].
    split; [|auto].
    intros Hnone. rewrite Forall_forall in Hnone. elim (Hnone user Hin Hname).
  - pose proof (first_None_none _ _ Hfirst) as Hnone.
    destruct (next_id_above (map User.id users)) as [_ Habove].
    split; [reflexivity|]. split; [apply elem_of_app; right; left|].
    split; [apply prefix_app_r; reflexivity|].
    split; [rewrite (first_snoc_new _ _ (username_spec username)) by auto; reflexivity|].
    split; [|split].
    + intros _. split; [reflexivity|]. split; [reflexivity|].
      apply Forall_fmap in Habove. exact Habove.
    + intros Hnd. rewrite map_app. simpl. apply NoDup_app. split; [exact Hnd|].
      split; [|apply NoDup_singleton].
      intros name Hname Hnew. apply list_elem_of_singleton in Hnew as ->.
      apply list_elem_of_fmap in Hname as (u & Hu & Hin).
      rewrite Forall_forall in Hnone. specialize (Hnone u Hin). simpl in Hnone.
      apply String.eqb_neq in Hnone. congruence.
    + intros Hnd. rewrite map_app. simpl. apply NoDup_snoc_fresh, Hnd.
Qed.

(** A first request creates the user, a second finds it. *)
Lemma get_or_create_user_once_witness :
  let got := UserService.get_or_create_user [sample_user] "ravi" in
  got.1 = [sample_user; UserService.new_user 8 "ravi"]
  /\ UserService.get_or_create_user got.1 "ravi" = got
  /\ NoDup (map User.username got.1).
Proof.
  intros got.
  pose proof (get_or_create_user_once [sample_user] "ravi")
    as (_ & _ & _ & Hagain & Hnew & Hnames & _).
  fold got in Hagain, Hnew, Hnames.
  split; [reflexivity|]. split; [exact Hagain|].
  apply Hnames. simpl. apply NoDup_singleton.
Defined.

Lemma id_spec (user_id : Z) (u : User.t) :
  (User.id u =? user_id) = true <-> User.id u = user_id.
Proof. apply Z.eqb_eq. Qed.

(** X16.  [PUT /api/users/me/onboarding] answers HTTP 500 and leaves the
    table as it was when no user of the identity is stored.  Otherwise it
    rewrites the first such user in place: the profile fields are those
    submitted, with an absent list stored as the empty list, onboarding is
    completed, identity, name and full name are kept, and every other
    user is as before. *)
Theorem complete_onboarding_outcome
        (users : list User.t) (current_user : User.t) (data : UserService.OnboardingData) :
  match Main.complete_onboarding users current_user data with
  | (users', Ok user) =>
      (exists stored,
          Sql.first (fun u => User.id u =? User.id current_user) users = Some stored
          /\ user = UserService.with_profile data stored
          /\ User.username user = User.username stored
          /\ User.full_name user = User.full_name stored)
      /\ User.id user = User.id current_user
      /\ User.onboarding_completed user = true
      /\ LLMService.pf_medical_conditions (UserService.get_user_profile user)
         = default [] (UserService.od_medical_conditions data)
      /\ LLMService.pf_medications (UserService.get_user_profile user)
         = default [] (UserService.od_medications data)
      /\ LLMService.pf_allergies (UserService.get_user_profile user)
         = default [] (UserService.od_allergies data)
      /\ LLMService.pf_age (UserService.get_user_profile user) = UserService.od_age data
      /\ Sql.first (fun u => User.id u =? User.id current_user) users' = Some user
      /\ length users' = length users
      /\ users_besides users' (User.id current_user)
         = users_besides users (User.id current_user)
  | (users', Raise e) =>
      e = HTTPException 500 "Error updating profile"
      /\ users' = users
      /\ Forall (fun u => User.id u <> User.id current_user) users
  end.
Proof.
  unfold Main.complete_onboarding, UserService.update_user_profile.
  destruct (Sql.first _ users) as [stored|] eqn:Hfirst.
  - pose proof (first_Some_holds _ _ _ Hfirst) as [Hin Hid]. apply Z.eqb_eq in Hid.
    split; [exists stored; auto|].
    split; [exact Hid|]. do 5 (split; [reflexivity|]).
    split; [|split].
    + rewrite (first_update_first _ _ (id_spec (User.id current_user))), Hfirst by auto.
      reflexivity.
    + apply length_update_first.
    + apply (filter_update_first_besides _ _ (id_spec (User.id current_user))).
      intros x Hx. simpl. split; intros Hne; apply Hne; exact Hx.
  - split; [reflexivity|]. split; [reflexivity|].
    apply first_None_none in Hfirst. apply (Forall_impl _ _ _ Hfirst).
    intros u Hu. apply Z.eqb_neq. exact Hu.
Qed.

(** Onboarding of a stored user, and of one that is not stored. *)
Example complete_onboarding_on_samples :
  let data :=
    {| UserService.od_age := Some 41; UserService.od_gender := Some "female";
       UserService.od_weight := None; UserService.od_height := None;
       UserService.od_medical_conditions := Some ["diabetes"];
       UserService.od_medications := None; UserService.od_allergies := None |} in
  let users := [UserService.new_user 7 "asha"] in
  (exists users' user,
      Main.complete_onboarding users sample_user data = (users', Ok user)
      /\ User.onboarding_completed user = true
      /\ User.medications user = Some []
      /\ users' = [user])
  /\ Main.complete_onboarding [] sample_user data
     = ([], Raise (HTTPException 500 "Error updating profile")).
Proof. simpl. split; [eexists _, _; repeat split | reflexivity]. Qed.

(** ** The memory endpoints *)

Lemma user_filter_update_first (user_id other : Z) (category key : string)
      (f : Memory.t -> Memory.t) (rows : list Memory.t) :
  other <> user_id ->
  (forall m, Memory.user_id (f m) = Memory.user_id m) ->
  List.filter (fun m => Memory.user_id m =? other)
              (Sql.update_first (MemoryService.same_key user_id category key) f rows)
  = List.filter (fun m => Memory.user_id m =? other) rows.
Proof.
  intros Hne Hf. induction rows as [|r rows IH]; [reflexivity|].
  simpl. destruct (MemoryService.same_key user_id category key r) eqn:Hkey.
  - apply same_key_spec in Hkey. injection Hkey as Hu _ _.
    simpl. rewrite Hf, Hu.
    destruct (Z.eqb_spec user_id other); [congruence | reflexivity].
  - simpl. rewrite IH. reflexivity.
Qed.

(** X17.  After [POST /api/memories], [GET /api/memories] of the same user
    lists the memory returned, with the category, key, value and
    importance submitted; on a store with at most one Fact per key it is
    the only entry of its category and key; and the list of every other
    user is as before. *)
Theorem created_memory_is_listed
        (db : DB) (now : Z) (current_user other_user : User.t)
        (category key value : string) (importance : Z) :
  let created := Main.create_memory db now current_user category key value importance in
  memory_response created.2 ∈ Main.get_memories created.1 current_user
  /\ mem_category (memory_response created.2) = category
  /\ mem_key (memory_response created.2) = key
  /\ mem_value (memory_response created.2) = value
  /\ mem_importance (memory_response created.2) = importance
  /\ (at_most_one_fact db ->
      filter (fun r => mem_category r = category /\ mem_key r = key)
             (Main.get_memories created.1 current_user)
      = [memory_response created.2])
  /\ (User.id other_user <> User.id current_user ->
      Main.get_memories created.1 other_user = Main.get_memories db other_user).
Proof.
  intros created. subst created. unfold Main.create_memory, Main.get_memories.
  destruct (create_memory_facts_for db now (User.id current_user) category key value importance)
    as (Hfacts & _ & Hvalue & Himportance & Hkey).
  injection Hkey as Hu Hc Hk.
  assert (forall rows,
             filter (fun r => mem_category r = category /\ mem_key r = key)
                    (map memory_response
                         (List.filter (fun m => Memory.user_id m =? User.id current_user) rows))
             = map memory_response
                   (filter (fun m => fact_key m = (User.id current_user, category, key)) rows))
    as Hlisting.
  { induction rows as [|m rows IH]; [reflexivity|].
    simpl. rewrite (filter_cons (fun m0 => fact_key m0 = _)).
    destruct (Z.eqb_spec (Memory.user_id m) (User.id current_user)) as [Hmu|Hmu].
    - simpl. rewrite filter_cons. simpl.
      destruct (decide (Memory.category m = category /\ Memory.key m = key)) as [[H1 H2]|Hno].
      + rewrite decide_True by (unfold fact_key; congruence). simpl. rewrite IH. reflexivity.
      + rewrite decide_False; [exact IH|].
        intros Hk'. injection Hk' as _ H1 H2. apply Hno. auto.
    - rewrite decide_False; [exact IH|]. intros Hk'. injection Hk' as H0 _ _. contradiction. }
  split; [|split; [|split; [|split; [|split; [|split]]]]]; try assumption.
  - apply list_elem_of_fmap. eexists. split; [reflexivity|].
    apply bool_filter_elem_of. split; [|apply Z.eqb_eq, Hu].
    assert (forall x l, x ∈ filter (fun m => fact_key m = (User.id current_user, category, key)) l
                        -> x ∈ l) as Hsub
      by (intros x l Hx; apply list_elem_of_filter in Hx as [_ Hx]; exact Hx).
    apply (Hsub _ _). unfold facts_for in Hfacts. rewrite Hfacts. left.
  - intros Hinv. rewrite Hlisting. unfold facts_for in Hfacts. rewrite Hfacts.
    specialize (Hinv (User.id current_user) category key). unfold facts_for in Hinv.
    destruct (filter _ (memories db)) as [|? [|? ?]]; simpl in *; [reflexivity | reflexivity | lia].
  - intros Hother. f_equal. unfold MemoryService.create_memory.
    destruct (Sql.first _ (memories db)); simpl.
    + apply user_filter_update_first; [exact Hother | reflexivity].
    + rewrite List.filter_app. simpl.
      destruct (Z.eqb_spec (User.id current_user) (User.id other_user)); [congruence|].
      apply app_nil_r.
Qed.

(** Storing a second value under the key of the sample store. *)
Lemma created_memory_is_listed_witness :
  let created := Main.create_memory one_fact_db 200 sample_user "lifestyle" "sleep" "7 hours" 3 in
  map mem_value
      (filter (fun r => mem_category r = "lifestyle" /\ mem_key r = "sleep")
              (Main.get_memories created.1 sample_user))
  = ["7 hours"].
Proof.
  intros created.
  pose proof (created_memory_is_listed one_fact_db 200 sample_user sample_user
                "lifestyle" "sleep" "7 hours" 3) as (_ & _ & _ & _ & _ & Honly & _).
  fold created in Honly. rewrite (Honly one_fact_db_invariant). reflexivity.
Defined.

(** ** How much history the truncation keeps *)

Section TruncationKeeps.
Context (W : World) (settings : Settings).

Local Abbreviation tokens_of := (LLMService.total_tokens W).
Local Abbreviation count := (LLMService.count_tokens W).

Lemma total_tokens_app (a b : list LLMMessage) : tokens_of (a ++ b) = tokens_of a + tokens_of b.
Proof. induction a as [|m a IH]; simpl; [reflexivity|]. rewrite IH. lia. Qed.

Lemma total_tokens_rev (a : list LLMMessage) : tokens_of (rev a) = tokens_of a.
Proof.
  induction a as [|m a IH]; simpl; [reflexivity|].
  rewrite total_tokens_app, IH. simpl. lia.
Qed.

Lemma walk_all (available : Z) (newest_first truncated : list LLMMessage) (current : Z) :
  current + tokens_of newest_first <= available ->
  LLMService.walk W available newest_first truncated current = rev newest_first ++ truncated.
Proof.
  revert truncated current.
  induction newest_first as [|m older IH]; intros truncated current Hfit; [reflexivity|].
  simpl in *. pose proof (total_tokens_nonneg W older).
  destruct (Z.leb_spec (current + count (content m)) available) as [_|Hno]; [|lia].
  rewrite IH by lia. rewrite <- app_assoc. reflexivity.
Qed.

(** Where the walk stops, the next message does not fit. *)
Lemma walk_stops (available : Z) (newest_first truncated : list LLMMessage) (current : Z) :
  exists k,
    LLMService.walk W available newest_first truncated current
    = rev (take k newest_first) ++ truncated
    /\ (k <= length newest_first)%nat
    /\ forall m, newest_first !! k = Some m ->
                 available < current + tokens_of (take k newest_first) + count (content m).
Proof.
  revert truncated current.
  induction newest_first as [|m older IH]; intros truncated current.
  - exists 0%nat. split; [reflexivity|]. split; [reflexivity|]. intros m H. discriminate.
  - simpl. destruct (Z.leb_spec (current + count (content m)) available) as [Hfit|Hno].
    + destruct (IH (m :: truncated) (current + count (content m))) as (k & Hk & Hle & Hstop).
      exists (S k). split; [rewrite Hk; simpl; rewrite <- app_assoc; reflexivity|].
      split; [simpl; lia|].
      intros m' Hm'. simpl in Hm'. specialize (Hstop m' Hm'). simpl. lia.
    + exists 0%nat. split; [reflexivity|]. split; [lia|].
      intros m' [= <-]. simpl. lia.
Qed.

(** X18.  A history whose token count is within the allowance is
    returned whole and untouched. *)
Theorem truncate_context_keeps_fitting_history
        (messages_ : list LLMMessage) (system_prompt : string) (max_tokens : option Z) :
  tokens_of messages_ <= LLMService.available_tokens W settings system_prompt max_tokens ->
  LLMService.truncate_context W settings messages_ system_prompt max_tokens = Ok messages_.
Proof.
  intros Hfit. unfold LLMService.truncate_context.
  rewrite walk_all by (rewrite total_tokens_rev; lia).
  rewrite app_nil_r, rev_involutive.
  destruct messages_ as [|m rest] eqn:Hm; [reflexivity|]. reflexivity.
Qed.

(** X19.  The truncation keeps as many of the newest messages as fit:
    when it returns a non-empty tail of the history that is preceded by a
    message, that message together with the tail exceeds the allowance. *)
Theorem truncate_context_keeps_all_that_fit
        (older : list LLMMessage) (m : LLMMessage) (kept : list LLMMessage)
        (system_prompt : string) (max_tokens : option Z) :
  LLMService.truncate_context W settings (older ++ m :: kept) system_prompt max_tokens
  = Ok kept ->
  kept <> [] ->
  LLMService.available_tokens W settings system_prompt max_tokens
  < count (content m) + tokens_of kept.
Proof.
  unfold LLMService.truncate_context.
  set (available := LLMService.available_tokens W settings system_prompt max_tokens).
  set (messages_ := older ++ m :: kept).
  intros Hkept Hne.
  pose proof (count_tokens_nonneg W (content m)) as Hm0.
  destruct (walk_stops available (rev messages_) [] 0) as (k & Hwalk & Hle & Hstop).
  rewrite app_nil_r in Hwalk.
  destruct (LLMService.walk W available (rev messages_) [] 0) as [|w0 w] eqn:Hw.
  - destruct (last messages_) as [last_msg|] eqn:Hlast.
    + pose proof (walk_nil_newest W available messages_ last_msg Hlast Hw) as Hbig.
      destruct (LLMService.truncate_last W available last_msg) as [cut|e]; [|discriminate].
      injection Hkept as <-.
      subst messages_. rewrite last_app in Hlast. simpl in Hlast. injection Hlast as <-.
      simpl. lia.
    + injection Hkept as <-. congruence.
  - injection Hkept as <-.
    assert (rev messages_ = rev (w0 :: w) ++ m :: rev older) as Hrev.
    { subst messages_. rewrite rev_app_distr. simpl. rewrite <- app_assoc. reflexivity. }
    assert (k = length (rev (w0 :: w))) as Hk.
    { apply (f_equal length) in Hwalk. rewrite length_rev, length_take in Hwalk.
      rewrite length_rev. rewrite Hrev, length_app, length_rev in Hle, Hwalk.
      simpl in *. lia. }
    specialize (Hstop m).
    rewrite Hrev, Hk, take_app_length in Hstop.
    rewrite total_tokens_rev in Hstop.
    rewrite lookup_app_r, Nat.sub_diag in Hstop by lia.
    specialize (Hstop eq_refl). lia.
Qed.

End TruncationKeeps.

(** The short history fits the default limits and comes back whole. *)
Lemma truncate_context_keeps_fitting_history_witness :
  LLMService.truncate_context fallback_world default_settings short_history coach_prompt None
  = Ok short_history.
Proof.
  apply truncate_context_keeps_fitting_history. vm_compute. discriminate.
Defined.

(** With an overall limit of 121 tokens, 10 are left for the history:
    the last two of the three short messages take 9, the first would
    bring the count to 17. *)
Lemma truncate_context_keeps_all_that_fit_witness :
  LLMService.available_tokens fallback_world tight_settings coach_prompt (Some 121)
  < LLMService.count_tokens fallback_world "I have had a fever since Monday."
    + LLMService.total_tokens fallback_world (tail short_history).
Proof.
  apply (truncate_context_keeps_all_that_fit
           fallback_world tight_settings []
           {| role := "user"; content := "I have had a fever since Monday." |}
           (tail short_history)).
  - vm_compute. reflexivity.
  - discriminate.
Defined.

(** ** What a turn records on its two messages *)

Lemma max_id_nonneg (ids : list Z) : 0 <= foldr Z.max 0 ids.
Proof.
  induction ids as [|i ids IH]; [reflexivity|].
  change (foldr Z.max 0 (i :: ids)) with (Z.max i (foldr Z.max 0 ids)). lia.
Qed.

Lemma max_id_snoc (ids : list Z) (c : Z) :
  0 <= c -> foldr Z.max 0 (ids ++ [c]) = Z.max (foldr Z.max 0 ids) c.
Proof.
  intros Hc. induction ids as [|i ids IH].
  - change (Z.max c 0 = Z.max 0 c). lia.
  - change (Z.max i (foldr Z.max 0 (ids ++ [c])) = Z.max (Z.max i (foldr Z.max 0 ids)) c).
    rewrite IH. lia.
Qed.

Lemma next_id_snoc (ids : list Z) : Sql.next_id (ids ++ [Sql.next_id ids]) = Sql.next_id ids + 1.
Proof.
  unfold Sql.next_id. pose proof (max_id_nonneg ids).
  rewrite max_id_snoc by lia. lia.
Qed.

Section TurnRecords.
Context (W : World) (settings : Settings).
Context (db : DB) (now : Z) (user : User.t) (message_content : string).

(** X20.  A successful turn returns two rows of the user, the assistant's
    identity following the user's; the user row keeps the text as sent
    with no metadata, each row carries the token count of its content, and
    the assistant's metadata records whether the user was still onboarding
    and the names of the protocols matched against the message. *)
Theorem process_message_records
        (db' : DB) (user_message assistant_message : Message.t) :
  ChatService.process_message W settings db now user message_content
  = (db', Ok (user_message, assistant_message)) ->
  Message.user_id user_message = User.id user
  /\ Message.content user_message = message_content
  /\ Message.token_count user_message = LLMService.count_tokens W message_content
  /\ Message.message_metadata user_message = ∅
  /\ Message.user_id assistant_message = User.id user
  /\ Message.token_count assistant_message
     = LLMService.count_tokens W (Message.content assistant_message)
  /\ Message.id assistant_message = Message.id user_message + 1
  /\ Message.message_metadata assistant_message !! "is_onboarding"
     = Some (MBool (negb (User.onboarding_completed user)))
  /\ Message.message_metadata assistant_message !! "protocols_used"
     = Some (MNames (map LLMService.pd_name
                         (ProtocolService.match_protocols
                            db message_content (UserService.get_user_profile user)))).
Proof.
  unfold ChatService.process_message.
  unfold MessageService.create_message, MemoryService.get_relevant_memories.
  cbn [fst snd]. cbv beta iota zeta.
  set (first_row := {| Message.id := Sql.next_id (map Message.id (messages db));
                       Message.user_id := User.id user |}).
  set (db1 := set_messages db (messages db ++ [first_row])).
  set (db2 := set_memories db1 _).
  assert (ProtocolService.match_protocols db2 message_content (UserService.get_user_profile user)
          = ProtocolService.match_protocols db message_content (UserService.get_user_profile user))
    as Hsame by reflexivity.
  destruct (LLMService.generate_response W settings _ _)
    as [[response_content metadata]|e] eqn:Hgen; [|discriminate].
  intros [= _ <- <-].
  cbn [Message.user_id Message.content Message.created_at Message.token_count
       Message.message_metadata Message.id first_row default].
  rewrite Hsame.
  repeat split; try reflexivity.
  - subst db2 db1 first_row. cbn [messages set_memories set_messages].
    rewrite map_app. cbn [map Message.id]. apply next_id_snoc.
  - simplify_map_eq. reflexivity.
  - simplify_map_eq. reflexivity.
Qed.

End TurnRecords.

(** A demo turn about a fever on the seeded protocol table. *)
Lemma process_message_records_witness :
  match (ChatService.process_message fallback_world demo_settings seeded_db 200 sample_user
                                     "I have fever").2 with
  | Ok (user_message, assistant_message) =>
      Message.id user_message = 1
      /\ Message.id assistant_message = 2
      /\ Message.message_metadata assistant_message !! "protocols_used"
         = Some (MNames ["Fever Management"])
  | Raise _ => False
  end.
Proof.
  destruct (ChatService.process_message fallback_world demo_settings seeded_db 200 sample_user
                                        "I have fever")
    as [db' [[user_message assistant_message]|e]] eqn:Hturn; cbn [snd].
  - pose proof (process_message_records fallback_world demo_settings seeded_db 200 sample_user
                  "I have fever" db' user_message assistant_message Hturn)
      as (_ & _ & _ & _ & _ & _ & Hid & _ & Hused).
    assert (Message.id user_message = 1) as Hfirst.
    { vm_compute in Hturn. injection Hturn as _ <- _. reflexivity. }
    split; [exact Hfirst|]. split; [lia|]. rewrite Hused. vm_compute. reflexivity.
  - vm_compute in Hturn. discriminate.
Defined.

(** ** Registering a user *)

Lemma map_update_first {A B : Type} (q : A -> bool) (f : A -> A) (g : A -> B) (rows : list A) :
  (forall x, g (f x) = g x) ->
  map g (Sql.update_first q f rows) = map g rows.
Proof.
  intros Hg. induction rows as [|r rows IH]; [reflexivity|].
  simpl. destruct (q r); simpl; [rewrite Hg; reflexivity | rewrite IH; reflexivity].
Qed.

(** What [get_or_create_user] leaves behind: the returned user is the
    first of its name, and the users of other names are those stored. *)
Lemma get_or_create_user_found (users : list User.t) (username : string) :
  let got := UserService.get_or_create_user users username in
  User.username got.2 = username
  /\ Sql.first (fun u => String.eqb (User.username u) username) got.1 = Some got.2
  /\ filter (fun u => User.username u <> username) got.1
     = filter (fun u => User.username u <> username) users.
Proof.
  intros got. subst got. unfold UserService.get_or_create_user.
  destruct (Sql.first _ users) as [user|] eqn:Hfirst; simpl.
  - pose proof (first_Some_holds _ _ _ Hfirst) as [_ Hname].
    apply String.eqb_eq in Hname. auto.
  - split; [reflexivity|].
    split; [apply (first_snoc_new _ _ (username_spec username)); auto|].
    rewrite filter_app, filter_cons, decide_False by (simpl; intros Hne; apply Hne; reflexivity).
    rewrite filter_nil, app_nil_r. reflexivity.
Qed.

(** X21.  [POST /api/users] returns a user of the requested name that a
    later lookup by that name finds again without changing the table.  It
    stores a non-empty full name on that user and otherwise keeps the full
    name the user had; apart from that the table is the one that
    [get_or_create_user] leaves: the same identities and names in the
    same order, the users of other names untouched, and the returned
    user's other profile fields as they were. *)
Theorem create_user_then_lookup
        (users : list User.t) (username : string) (full_name : option string) :
  let looked_up := UserService.get_or_create_user users username in
  let created := Main.create_user users username full_name in
  User.username created.2 = username
  /\ Main.get_current_user created.1 username = created
  /\ User.full_name created.2
     = match LLMService.truthy_str full_name with
       | Some name => Some name
       | None => User.full_name looked_up.2
       end
  /\ User.id created.2 = User.id looked_up.2
  /\ LLMService.pf_age (UserService.get_user_profile created.2)
     = LLMService.pf_age (UserService.get_user_profile looked_up.2)
  /\ User.onboarding_completed created.2 = User.onboarding_completed looked_up.2
  /\ map User.id created.1 = map User.id looked_up.1
  /\ map User.username created.1 = map User.username looked_up.1
  /\ filter (fun u => User.username u <> username) created.1
     = filter (fun u => User.username u <> username) users.
Proof.
  intros looked_up created. subst looked_up created.
  unfold Main.get_current_user, Main.create_user.
  pose proof (get_or_create_user_found users username) as (Hname & Hfound & Hothers).
  destruct (UserService.get_or_create_user users username) as [users1 user] eqn:Hgot.
  cbn [fst snd] in *.
  destruct (LLMService.truthy_str full_name) as [name|]; cbn [fst snd].
  - split; [exact Hname|]. split.
    + unfold UserService.get_or_create_user.
      rewrite (first_update_first _ _ (username_spec username)), Hfound by auto.
      reflexivity.
    + do 4 (split; [reflexivity|]).
      split; [apply map_update_first; reflexivity|].
      split; [apply map_update_first; reflexivity|].
      rewrite <- Hothers.
      apply (filter_update_first_besides _ _ (username_spec username)).
      intros x Hx. simpl. split; intros Hne; apply Hne; exact Hx.
  - split; [exact Hname|]. split.
    + unfold UserService.get_or_create_user. rewrite Hfound. reflexivity.
    + do 6 (split; [reflexivity|]). exact Hothers.
Qed.

(** ** What the demo reply looks at *)

Lemma demo_reply_of_last (W : World) (kept : list LLMMessage) (m : LLMMessage) :
  last kept = Some m -> LLMService.demo_reply W kept = LLMService.demo_reply W [m].
Proof. intros Hlast. unfold LLMService.demo_reply. rewrite Hlast. reflexivity. Qed.

(** X22.  In demo mode, when the newest message fits the token allowance,
    [generate_response] succeeds with the reply that the newest message
    alone would get: the earlier history plays no part, and the system
    prompt only through its token count. *)
Theorem demo_response_follows_newest_message
        (W : World) (settings : Settings) (history : list LLMMessage) (newest : LLMMessage)
        (system_prompt : string) :
  LLM_PROVIDER settings = Demo ->
  LLMService.count_tokens W (content newest)
  <= LLMService.available_tokens W settings system_prompt None ->
  exists metadata,
    LLMService.generate_response W settings (history ++ [newest]) system_prompt
    = Ok (LLMService.demo_reply W [newest], metadata).
Proof.
  intros Hdemo Hfit.
  unfold LLMService.generate_response, LLMService.truncate_context.
  set (available := LLMService.available_tokens W settings system_prompt None) in *.
  pose proof (walk_newest_fits W available (history ++ [newest]) newest
                               (last_snoc _ _) Hfit) as Hne.
  pose proof (walk_suffix W available (history ++ [newest])) as Hsuffix.
  destruct (LLMService.walk W available (rev (history ++ [newest])) [] 0) as [|k kept] eqn:Hwalk;
    [congruence|].
  rewrite Hdemo. unfold LLMService.generate_demo_response.
  eexists. f_equal. f_equal.
  apply demo_reply_of_last.
  destruct Hsuffix as [dropped Hsplit].
  assert (last (dropped ++ k :: kept) = Some newest) as Hlast
    by (rewrite <- Hsplit; apply last_snoc).
  rewrite last_app in Hlast.
  destruct (last (k :: kept)) as [x|] eqn:Hk; [exact Hlast|].
  apply last_None in Hk. discriminate.
Qed.

(** A greeting after a question about a fever is answered as a greeting. *)
Lemma demo_response_follows_newest_message_witness :
  exists metadata,
    LLMService.generate_response fallback_world demo_settings
      (short_history ++ [ {| role := "user"; content := "hello" |} ]) coach_prompt
    = Ok (LLMService.demo_reply fallback_world [ {| role := "user"; content := "hello" |} ],
          metadata).
Proof.
  apply (demo_response_follows_newest_message fallback_world demo_settings short_history
           {| role := "user"; content := "hello" |} coach_prompt).
  - reflexivity.
  - vm_compute. discriminate.
Defined.

(** ** The protocol that leads the match *)

(** X23.  An active protocol that the matching rule admits, and that is
    the only admitted active protocol of its priority or above, leads the
    protocols that [match_protocols] returns. *)
Theorem match_protocols_leads_with_top_priority
        (db : DB) (user_message : string) (user_profile : LLMService.UserProfile)
        (top : Protocol.t) :
  top ∈ protocols db ->
  Protocol.is_active top = true ->
  protocol_applies user_message top ->
  (forall other,
      other ∈ protocols db ->
      Protocol.is_active other = true ->
      protocol_applies user_message other ->
      Protocol.priority top <= Protocol.priority other ->
      other = top) ->
  head (ProtocolService.match_protocols db user_message user_profile)
  = Some (ProtocolService.summary top).
Proof.
  intros Hin Hactive Happlies Hleads.
  unfold ProtocolService.match_protocols.
  change (Py.list_slice_to ?l 3) with (take 3 l).
  set (candidates := List.filter (ProtocolService.matches (Py.lower user_message))
                                 (ProtocolService.active_by_priority db)).
  assert (forall p, p ∈ candidates
                    <-> p ∈ protocols db /\ Protocol.is_active p = true
                        /\ protocol_applies user_message p) as Hcand.
  { intros p. subst candidates. unfold ProtocolService.active_by_priority.
    rewrite bool_filter_elem_of, order_by_desc_elem_of, bool_filter_elem_of, matches_spec.
    tauto. }
  assert (StronglySorted (Sql.desc_by Protocol.priority) candidates) as Hsorted.
  { subst candidates. apply StronglySorted_bool_filter.
    unfold ProtocolService.active_by_priority. apply order_by_desc_sorted. }
  assert (top ∈ candidates) as Htop by (apply Hcand; auto).
  destruct candidates as [|first_row rest]; [inversion Htop|].
  simpl. f_equal. f_equal.
  assert (first_row ∈ first_row :: rest) as Hfirst by left.
  apply Hcand in Hfirst as (Hfin & Hfact & Hfapp).
  apply Hleads; try assumption.
  apply elem_of_cons in Htop as [->|Hrest]; [reflexivity|].
  apply StronglySorted_inv in Hsorted as [_ Hall].
  rewrite Forall_forall in Hall. exact (Hall top Hrest).
Qed.

(** On the seeded table the emergency protocol, of priority 10, leads the
    match for a message that also mentions a fever. *)
Lemma match_protocols_leads_with_top_priority_witness :
  head (ProtocolService.match_protocols
          seeded_db "I have fever and severe chest pain" sample_profile)
  = Some (ProtocolService.summary emergency_protocol).
Proof.
  apply match_protocols_leads_with_top_priority.
  - apply list_elem_of_In. vm_compute. tauto.
  - reflexivity.
  - apply matches_spec. vm_compute. reflexivity.
  - intros other Hother _ _ Hpriority.
    apply list_elem_of_In in Hother. vm_compute in Hother.
    destruct Hother as [<-|[<-|[<-|[<-|[<-|[]]]]]];
      first [reflexivity | exfalso; vm_compute in Hpriority; apply Hpriority; reflexivity].
Defined.

(** ** The typing endpoints *)

Lemma get_typing_status_after_update (db : DB) (now user_id : Z) (flag : bool) :
  TypingService.get_typing_status (TypingService.update_typing_status db now user_id flag)
                                  user_id
  = (flag, Some now).
Proof.
  unfold TypingService.get_typing_status, TypingService.update_typing_status.
  destruct (Sql.first _ (typing_indicators db)) as [i|] eqn:Hfirst; simpl.
  - rewrite (first_update_first _ _ (mine_spec user_id)), Hfirst by auto. reflexivity.
  - rewrite (first_snoc_new _ _ (mine_spec user_id)) by auto. reflexivity.
Qed.

(** X24.  [GET /api/typing] after [POST /api/typing] answers with the flag
    posted and the time of the post, whatever the time of the read; for a
    user without an indicator row it answers "not typing" with the time of
    the read. *)
Theorem typing_endpoints_round_trip
        (db : DB) (posted read : Z) (current_user : User.t) (flag : bool) :
  Main.get_typing_status (Main.update_typing db posted current_user flag) read current_user
  = {| ts_is_typing := flag; ts_updated_at := posted |}
  /\ (typing_rows db (User.id current_user) = [] ->
      Main.get_typing_status db read current_user
      = {| ts_is_typing := false; ts_updated_at := read |}).
Proof.
  unfold Main.get_typing_status, Main.update_typing. split.
  - rewrite get_typing_status_after_update. reflexivity.
  - intros Hnone. unfold TypingService.get_typing_status, typing_rows in *.
    rewrite (first_head_filter _ _ (mine_spec (User.id current_user))), Hnone.
    reflexivity.
Qed.
